(** * Jarvis tool orchestration and reasoning dispatch: a shallow embedding

Sources embedded here:
- [tool_orchestrator.py]: [IntentClassifier.classify_intent],
  [ToolOrchestrator.register_tool], [analyze_query], [select_tools],
  [create_execution_plan], [execute_plan], [_execute_tool],
  [process_query], and [get_orchestrator], [smart_tool_execution];
- [jarvis_reasoning.py]: [PerformanceMetrics], [validate_query],
  [get_cached_agent], [cache_agent], [retry_with_backoff],
  [thinking_capability] and its helpers [_try_orchestrator],
  [_try_langchain_agent] and [_create_langchain_agent],
  [get_performance_metrics], [reset_performance_metrics],
  [update_configuration].

Conventions.
- A Python [str] is a list of Unicode code points ([list N]); literals are
  written in UTF-8 and decoded by [u].
- A Python [int] is a [Z]; a Python [float] is an exact rational [Q]
  (rounding of binary floating point is not modelled).
- A [dict] is an association list in insertion order.
- An exception is a value of [PyExc]; code that can raise returns a
  [Result]. *)

From Stdlib Require Import String Ascii.
From Stdlib Require Import ZArith NArith QArith Qminmax Bool Lia Lqa.
From Stdlib Require Import List Sorting.Sorted Sorting.Permutation.
Import ListNotations.

Set Implicit Arguments.
Set Warnings "-register-all,-notation-for-abbreviation".
Local Close Scope Q_scope.
Local Open Scope nat_scope.
Local Open Scope list_scope.

(* ================================================================= *)
(** ** Python strings *)

Module PyStr.

Definition str := list N.

(** UTF-8 decoding of a literal (well-formed input only; a stray byte is
    kept as it is). *)
Fixpoint decode_utf8 (bs : list N) : str :=
  match bs with
  | [] => []
  | b1 :: r1 =>
      if (b1 <? 192)%N then b1 :: decode_utf8 r1
      else match r1 with
           | [] => [b1]
           | b2 :: r2 =>
               if (b1 <? 224)%N
               then ((b1 - 192) * 64 + (b2 - 128))%N :: decode_utf8 r2
               else match r2 with
                    | [] => [b1; b2]
                    | b3 :: r3 =>
                        if (b1 <? 240)%N
                        then ((b1 - 224) * 4096 + (b2 - 128) * 64
                              + (b3 - 128))%N :: decode_utf8 r3
                        else match r3 with
                             | [] => [b1; b2; b3]
                             | b4 :: r4 =>
                                 ((b1 - 240) * 262144 + (b2 - 128) * 4096
                                  + (b3 - 128) * 64 + (b4 - 128))%N
                                   :: decode_utf8 r4
                             end
                    end
           end
  end.

Definition u (s : string) : str :=
  decode_utf8 (map N_of_ascii (list_ascii_of_string s)).

Definition eqb (a b : str) : bool :=
  if list_eq_dec N.eq_dec a b then true else false.

(** [len(s)] *)
Definition len (s : str) : Z := Z.of_nat (length s).

(** [s.startswith(p)] *)
Fixpoint startswith (p s : str) : bool :=
  match p, s with
  | [], _ => true
  | _ :: _, [] => false
  | a :: p', b :: s' => (a =? b)%N && startswith p' s'
  end.

(** [needle in s] *)
Fixpoint contains (needle s : str) : bool :=
  startswith needle s
  || match s with
     | [] => false
     | _ :: s' => contains needle s'
     end.

(** [c.lower()] for one character.  Only the ASCII letters are cased in
    this model; every other code point is left as it is, which is what
    Python does for digits, punctuation and Devanagari. *)
Definition lower_char (c : N) : N :=
  if ((65 <=? c) && (c <=? 90))%N then (c + 32)%N else c.

(** [s.lower()] *)
Definition lower (s : str) : str := map lower_char s.

(** [s.replace(old, new)]: every non-overlapping occurrence, left to
    right.  [skip] counts the characters of an occurrence still to be
    dropped. *)
Fixpoint replace_from (old new s : str) (skip : nat) : str :=
  match s with
  | [] => []
  | c :: s' =>
      match skip with
      | S k => replace_from old new s' k
      | O =>
          if startswith old s
          then new ++ replace_from old new s' (length old - 1)
          else c :: replace_from old new s' 0
      end
  end.

Definition replace (s old new : str) : str :=
  match old with
  | [] => new ++ flat_map (fun c => c :: new) s
  | _ :: _ => replace_from old new s 0
  end.

(** [c.isspace()] *)
Definition isspace (c : N) : bool :=
  ((9 <=? c) && (c <=? 13) || (28 <=? c) && (c <=? 32)
   || (c =? 133) || (c =? 160) || (c =? 5760)
   || (8192 <=? c) && (c <=? 8202) || (c =? 8232) || (c =? 8233)
   || (c =? 8239) || (c =? 8287) || (c =? 12288))%N.

Fixpoint lstrip (s : str) : str :=
  match s with
  | [] => []
  | c :: s' => if isspace c then lstrip s' else s
  end.

Definition rstrip (s : str) : str := rev (lstrip (rev s)).

(** [s.strip()] *)
Definition strip (s : str) : str := rstrip (lstrip s).

(** [sep.join(l)] *)
Fixpoint join (sep : str) (l : list str) : str :=
  match l with
  | [] => []
  | x :: l' =>
      match l' with
      | [] => x
      | _ :: _ => x ++ sep ++ join sep l'
      end
  end.

(** [str(n)] for an [int]. *)
Fixpoint digits_of_pos (fuel : nat) (n : N) (acc : str) : str :=
  match fuel with
  | O => acc
  | S f =>
      let acc' := (48 + n mod 10)%N :: acc in
      if (n <? 10)%N then acc' else digits_of_pos f (n / 10)%N acc'
  end.

Definition str_of_int (z : Z) : str :=
  match z with
  | Z0 => [48%N]
  | Zpos p => digits_of_pos (S (N.to_nat (N.log2 (Npos p)))) (Npos p) []
  | Zneg p => 45%N :: digits_of_pos (S (N.to_nat (N.log2 (Npos p)))) (Npos p) []
  end.

End PyStr.

Import PyStr.

(* ================================================================= *)
(** ** The fragment of [re] used by the classifier

Every pattern of [IntentClassifier.intent_patterns] is an alternation
[a1|a2|...] whose alternatives are literals joined by [.*]; no other
metacharacter occurs.  A compiled pattern is the list of alternatives,
each a list of literal segments. *)

Module Re.

Definition alternative := list str.
Definition regex := list alternative.

(** Split at every occurrence of the separator [sep] (a one or two
    character string).  [cur] holds the current piece, reversed. *)
Fixpoint split_from (sep s cur : str) (skip : nat) : list str :=
  match s with
  | [] => [rev cur]
  | c :: s' =>
      match skip with
      | S k => split_from sep s' cur k
      | O =>
          if startswith sep s
          then rev cur :: split_from sep s' [] (length sep - 1)
          else split_from sep s' (c :: cur) 0
      end
  end.

Definition split (sep s : str) : list str := split_from sep s [] 0.

(** [re.compile(pattern)] on the fragment. *)
Definition compile (pattern : str) : regex :=
  map (split [46%N; 42%N]) (split [124%N] pattern).

(** Number of leading characters that [.] can match (all but newline). *)
Fixpoint dot_span (s : str) : nat :=
  match s with
  | [] => 0
  | c :: s' => if (c =? 10)%N then 0 else S (dot_span s')
  end.

(** Greedy [.*] followed by the continuation [k]: the longest span is tried
    first, then shorter ones. *)
Fixpoint greedy (k : str -> option nat) (s : str) (n : nat) : option nat :=
  match k (skipn n s) with
  | Some e => Some (n + e)
  | None =>
      match n with
      | O => None
      | S n' => greedy k s n'
      end
  end.

(** Length of the match of one alternative at the start of [s]. *)
Fixpoint match_alt (segs : alternative) (s : str) : option nat :=
  match segs with
  | [] => Some 0
  | lit :: rest =>
      if startswith lit s
      then
        let s' := skipn (length lit) s in
        match rest with
        | [] => Some (length lit)
        | _ :: _ =>
            option_map (Nat.add (length lit))
                       (greedy (match_alt rest) s' (dot_span s'))
        end
      else None
  end.

(** Alternatives are tried in order; the first that matches wins. *)
Fixpoint match_here (r : regex) (s : str) : option nat :=
  match r with
  | [] => None
  | a :: r' =>
      match match_alt a s with
      | Some e => Some e
      | None => match_here r' s
      end
  end.

(** [re.search(r, s) is not None] *)
Fixpoint search (r : regex) (s : str) : bool :=
  match match_here r s with
  | Some _ => true
  | None =>
      match s with
      | [] => false
      | _ :: s' => search r s'
      end
  end.

(** [len(re.findall(r, s))]: non-overlapping matches, left to right.
    [skip] counts the characters of the last match still to be passed. *)
Fixpoint count_from (r : regex) (s : str) (skip : nat) : nat :=
  match s with
  | [] =>
      match skip, match_here r [] with
      | O, Some _ => 1
      | _, _ => 0
      end
  | _ :: s' =>
      match skip with
      | S k => count_from r s' k
      | O =>
          match match_here r s with
          | Some e => S (count_from r s' (e - 1))
          | None => count_from r s' 0
          end
      end
  end.

Definition findall_count (r : regex) (s : str) : nat := count_from r s 0.

End Re.

(* ================================================================= *)
(** ** Values, exceptions, dictionaries, sorting *)

(** The Python values that cross the interfaces modelled here: [None], a
    string, or any other object (true in a condition, and not a string). *)
Inductive pyval : Type :=
| PyNone
| PyStr (s : str)
| PyObj (repr : str).

(** Exceptions.  [str(e)] is the message. *)
Inductive PyExc : Type :=
| Exception (msg : str)
| TimeoutError (msg : str)
| JarvisError (message error_code : str) (original_error : option PyExc).

Definition exc_str (e : PyExc) : str :=
  match e with
  | Exception m => m
  | TimeoutError m => m
  | JarvisError m _ _ => m
  end.

Inductive Result (A : Type) : Type :=
| Ok (a : A)
| Raise (e : PyExc).

Arguments Ok {A} a.
Arguments Raise {A} e.

(** [d.get(k)] and [d[k] = v] on an insertion-ordered dictionary. *)
Fixpoint dict_get {V : Type} (d : list (str * V)) (k : str) : option V :=
  match d with
  | [] => None
  | (k', v) :: d' => if PyStr.eqb k' k then Some v else dict_get d' k
  end.

Fixpoint dict_set {V : Type} (d : list (str * V)) (k : str) (v : V)
  : list (str * V) :=
  match d with
  | [] => [(k, v)]
  | (k', v') :: d' =>
      if PyStr.eqb k' k then (k, v) :: d' else (k', v') :: dict_set d' k v
  end.

Definition Qltb (x y : Q) : bool := negb (Qle_bool y x).

(** [sorted(l, key=key, reverse=True)]: a stable sort, so elements with equal
    keys keep their order. *)
Section SortDesc.
  Variable A : Type.
  Variable key : A -> Q.

Fixpoint insert_desc (x : A) (l : list A) : list A :=
  match l with
  | [] => [x]
  | y :: l' =>
      if Qltb (key x) (key y) then y :: insert_desc x l' else x :: l
  end.

Definition sort_desc (l : list A) : list A := fold_right insert_desc [] l.
End SortDesc.

(** Code that runs in a state [St] and can raise: the state reached is kept
    when an exception is raised, as in Python. *)
Definition M (St A : Type) : Type := St -> Result A * St.

Definition ret {St A} (a : A) : M St A := fun st => (Ok a, st).

Definition raise {St A} (e : PyExc) : M St A := fun st => (Raise e, st).

Definition bind {St A B} (c : M St A) (k : A -> M St B) : M St B :=
  fun st =>
    match c st with
    | (Ok a, st') => k a st'
    | (Raise e, st') => (Raise e, st')
    end.

(** [try: c  except Exception as e: handler(e)] *)
Definition try_except {St A} (c : M St A) (handler : PyExc -> M St A)
  : M St A :=
  fun st =>
    match c st with
    | (Ok a, st') => (Ok a, st')
    | (Raise e, st') => handler e st'
    end.

Definition gets {St A} (f : St -> A) : M St A := fun st => (Ok (f st), st).

Definition modify {St} (f : St -> St) : M St unit := fun st => (Ok tt, f st).

Declare Scope py_scope.
Delimit Scope py_scope with py.
Notation "x <- c ;; k" := (bind c (fun x => k))
  (at level 61, c at next level, right associativity) : py_scope.
Notation "c ;;; k" := (bind c (fun _ => k))
  (at level 61, right associativity) : py_scope.

(* ================================================================= *)
(** ** tool_orchestrator.py *)

Module Orchestrator.

Inductive ToolCategory : Type :=
| SYSTEM_INFO | FILE_MANAGEMENT | CODE_DEVELOPMENT | WEB_SEARCH
| COMMUNICATION | AUTOMATION | MULTIMEDIA | PRODUCTIVITY | LEARNING
| ENTERTAINMENT | UTILITIES.

(** [category.value] *)
Definition category_value (c : ToolCategory) : str :=
  match c with
  | SYSTEM_INFO => u "system_info"
  | FILE_MANAGEMENT => u "file_management"
  | CODE_DEVELOPMENT => u "code_development"
  | WEB_SEARCH => u "web_search"
  | COMMUNICATION => u "communication"
  | AUTOMATION => u "automation"
  | MULTIMEDIA => u "multimedia"
  | PRODUCTIVITY => u "productivity"
  | LEARNING => u "learning"
  | ENTERTAINMENT => u "entertainment"
  | UTILITIES => u "utilities"
  end.

Definition category_eq_dec (a b : ToolCategory) : {a = b} + {a <> b}.
Proof. decide equality. Defined.

Definition category_eqb (a b : ToolCategory) : bool :=
  if category_eq_dec a b then true else false.

(** The dataclass [ToolMetadata].  The optional lists [prerequisites] and
    [conflicts] default to [None]; the code only ever tests them for
    truth, so [None] is the empty list here. *)
Record ToolMetadata : Type := mkTool {
  name : str;
  category : ToolCategory;
  description : str;
  keywords : list str;
  priority : Z;
  prerequisites : list str;
  conflicts : list str;
  min_confidence : Q;
  async_capable : bool;
  estimated_time : Q
}.

(** *** IntentClassifier *)

Definition intent_patterns : list (str * list str) :=
  [ (u "system_info",
     [ u "system.*info|hardware|specs|performance|cpu|memory|ram|disk";
       u "computer.*details|pc.*info|machine.*specs";
       u "how much.*ram|storage.*space|processor.*speed" ]);
    (u "file_operations",
     [ u "file|folder|directory|create.*file|open.*file|delete.*file";
       u "बनाओ|खोलो|delete करो|फ़ाइल|फोल्डर";
       u "make.*folder|new.*directory|copy.*file" ]);
    (u "code_development",
     [ u "code|program|script|function|class|app|website|api";
       u "python|javascript|html|css|react|flask|fastapi|node";
       u "vs code|वीएस कोड|कोड लिखो|प्रोग्राम बनाओ";
       u "bug|debug|error|fix.*code|analyze.*code" ]);
    (u "web_search",
     [ u "search|google|find.*information|look.*up|research";
       u "खोजो|ढूंढो|information|जानकारी|search करो";
       u "what.*is|how.*to|tell.*me.*about" ]);
    (u "weather",
     [ u "weather|temperature|rain|climate|मौसम|बारिश|तापमान";
       u "forecast|humidity|wind|clouds|sunny|cloudy" ]);
    (u "automation",
     [ u "automate|control|keyboard|mouse|click|type|press";
       u "volume|cursor|scroll|hotkey|shortcut";
       u "automation|macro|script.*run" ]);
    (u "writing",
     [ u "write|type|text|document|note|letter|email";
       u "लिखो|टाइप करो|text.*input|compose";
       u "draft|content|article|blog|story" ]);
    (u "multimedia",
     [ u "play.*music|video|audio|image|photo|picture";
       u "media|song|movie|gallery|camera|screenshot";
       u "record|capture|stream" ]);
    (u "learning",
     [ u "learn|study|tutorial|course|lesson|teach|explain";
       u "education|knowledge|skill|training|practice";
       u "सिखाओ|समझाओ|tutorial|guide" ]);
    (u "entertainment",
     [ u "game|fun|joke|story|quiz|puzzle|music|movie";
       u "entertainment|leisure|hobby|recreation";
       u "मजा|खेल|कहानी|गाना" ]);
    (u "productivity",
     [ u "schedule|calendar|reminder|todo|task|meeting|appointment";
       u "organize|plan|manage|productivity|efficiency";
       u "काम|कार्य|meeting|reminder" ]);
    (u "communication",
     [ u "email|message|send|call|chat|contact|whatsapp|telegram";
       u "communicate|reply|respond|forward|share";
       u "संदेश|मैसेज|भेजो|call करो" ]) ].

Definition hinglish_mappings : list (str * str) :=
  [ (u "खोलो", u "open");
    (u "बंद करो", u "close");
    (u "बनाओ", u "create");
    (u "लिखो", u "write");
    (u "भेजो", u "send");
    (u "ढूंढो", u "search");
    (u "चलाओ", u "play");
    (u "रुको", u "stop");
    (u "सिस्टम", u "system");
    (u "फ़ाइल", u "file");
    (u "फोल्डर", u "folder");
    (u "कोड", u "code");
    (u "प्रोग्राम", u "program") ].

(** The first loop of [classify_intent]: the Hinglish substitutions applied
    in table order to the lowercased query. *)
Definition normalize (query : str) : str :=
  fold_left (fun q m => replace q (fst m) (snd m))
            hinglish_mappings (lower query).

(** [min(matches * 0.3, 1.0)] *)
Definition pattern_strength (matches : nat) : Q :=
  Qmin (inject_Z (Z.of_nat matches) * 0.3) 1.0.

(** The inner loop over the patterns of one intent. *)
Definition max_score_of (patterns : list str) (query_lower : str) : Q :=
  fold_left
    (fun max_score pattern =>
       let r := Re.compile pattern in
       if Re.search r query_lower
       then Qmax max_score (pattern_strength (Re.findall_count r query_lower))
       else max_score)
    patterns 0%Q.

(** The loop that fills [intent_scores]. *)
Definition score_intents (query_lower : str) : list (str * Q) :=
  fold_left
    (fun intent_scores ip =>
       let max_score := max_score_of (snd ip) query_lower in
       if Qltb 0 max_score
       then dict_set intent_scores (fst ip) max_score
       else intent_scores)
    intent_patterns [].

(** The loop that boosts the intents named in the query. *)
Definition boost (query_lower : str) (intent_scores : list (str * Q))
  : list (str * Q) :=
  map (fun is_ =>
         if contains (fst is_) query_lower
         then (fst is_, Qmin (snd is_ + 0.2) 1.0)
         else is_)
      intent_scores.

Definition classify_intent (query : str) : list (str * Q) :=
  let query_lower := normalize query in
  sort_desc (@snd str Q) (boost query_lower (score_intents query_lower)).

(** *** ToolOrchestrator *)

(** [self.tool_registry]: tool name to metadata, in insertion order. *)
Definition Registry := list (str * ToolMetadata).

(** A registry entry as [_initialize_tool_registry] writes it: the defaults
    of the dataclass for everything that is not given. *)
Definition tool (nm : string) (c : ToolCategory) (descr : string)
           (kws : list string) (prio : Z) (time : Q) (prereqs : list string)
  : str * ToolMetadata :=
  (u nm, mkTool (u nm) c (u descr) (map u kws) prio (map u prereqs) []
                0.7 true time).

Arguments tool nm%_string c descr%_string kws prio%_Z time%_Q prereqs.

Section InitialRegistry.
Local Open Scope string_scope.

Definition initial_tool_registry : Registry :=
  [ tool "get_system_info" SYSTEM_INFO
      "Get comprehensive system information including CPU, memory, disk usage"
      ["system"; "info"; "hardware"; "specs"; "performance"; "cpu"; "memory"; "ram"]
      8 2.0 [];
    tool "get_running_processes" SYSTEM_INFO
      "Get list of running processes and resource usage"
      ["processes"; "running"; "tasks"; "cpu"; "memory"; "performance"]
      7 3.0 [];
    tool "get_network_info" SYSTEM_INFO
      "Get network information and connectivity status"
      ["network"; "ip"; "internet"; "connection"; "wifi"]
      6 2.0 [];
    tool "cleanup_system" UTILITIES
      "Clean temporary files and optimize system performance"
      ["clean"; "cleanup"; "optimize"; "temp"; "space"; "storage"]
      5 10.0 [];
    tool "open_app" FILE_MANAGEMENT
      "Open desktop applications"
      ["open"; "launch"; "start"; "app"; "application"; "program"]
      9 3.0 [];
    tool "close_app" FILE_MANAGEMENT
      "Close running applications"
      ["close"; "quit"; "exit"; "stop"; "end"; "terminate"]
      8 1.0 [];
    tool "folder_file" FILE_MANAGEMENT
      "Handle folder and file operations like create, rename, delete"
      ["folder"; "file"; "create"; "delete"; "rename"; "manage"]
      8 2.0 [];
    tool "Play_file" MULTIMEDIA
      "Open and play files like videos, documents, images"
      ["play"; "open"; "file"; "video"; "music"; "document"; "image"]
      7 2.0 [];
    tool "open_vscode_sandbox" CODE_DEVELOPMENT
      "Open VS Code with safe sandbox environment for coding"
      ["vscode"; "code"; "editor"; "ide"; "programming"; "development"]
      9 5.0 [];
    tool "create_code_file" CODE_DEVELOPMENT
      "Create new code files with templates"
      ["create"; "file"; "code"; "python"; "javascript"; "html"; "new"]
      8 2.0 ["open_vscode_sandbox"];
    tool "write_code" CODE_DEVELOPMENT
      "Write code with proper formatting and syntax highlighting"
      ["write"; "code"; "type"; "program"; "script"; "function"]
      8 10.0 ["open_vscode_sandbox"];
    tool "analyze_code" CODE_DEVELOPMENT
      "Analyze code for errors, style issues, and improvements"
      ["analyze"; "check"; "review"; "debug"; "error"; "bug"]
      7 3.0 [];
    tool "generate_function" CODE_DEVELOPMENT
      "Generate function templates with documentation"
      ["function"; "generate"; "template"; "create"; "method"]
      7 3.0 [];
    tool "generate_class" CODE_DEVELOPMENT
      "Generate class templates with methods"
      ["class"; "generate"; "template"; "create"; "object"]
      7 4.0 [];
    tool "create_web_app" CODE_DEVELOPMENT
      "Generate complete web application templates"
      ["web"; "app"; "website"; "api"; "server"; "flask"; "fastapi"; "express"]
      6 8.0 [];
    tool "google_search" WEB_SEARCH
      "Search Google for information with speech-friendly results"
      ["search"; "google"; "find"; "information"; "research"; "lookup"]
      9 3.0 [];
    tool "get_weather" WEB_SEARCH
      "Get current weather information for any city"
      ["weather"; "temperature"; "rain"; "climate"; "forecast"]
      8 2.0 [];
    tool "get_current_datetime" UTILITIES
      "Get current date and time"
      ["time"; "date"; "clock"; "current"; "now"]
      9 0.1 [];
    tool "move_cursor_tool" AUTOMATION
      "Move mouse cursor in specified direction"
      ["cursor"; "mouse"; "move"; "pointer"]
      6 0.5 [];
    tool "mouse_click_tool" AUTOMATION
      "Perform mouse clicks (left, right, double)"
      ["click"; "mouse"; "press"; "select"]
      7 0.5 [];
    tool "type_text_tool" AUTOMATION
      "Type text safely with proper character handling"
      ["type"; "text"; "write"; "input"; "keyboard"]
      8 5.0 [];
    tool "press_key_tool" AUTOMATION
      "Press individual keyboard keys"
      ["key"; "press"; "keyboard"; "button"]
      7 0.5 [];
    tool "control_volume_tool" AUTOMATION
      "Control system volume (up, down, mute)"
      ["volume"; "sound"; "audio"; "mute"; "speaker"]
      6 0.5 [];
    tool "safe_text_input" PRODUCTIVITY
      "Safely input text with proper formatting and stop control"
      ["text"; "write"; "input"; "type"; "safe"]
      8 8.0 [];
    tool "stop_all_writing" UTILITIES
      "Emergency stop for all writing operations"
      ["stop"; "halt"; "cancel"; "emergency"; "abort"]
      10 0.1 [] ].

End InitialRegistry.

(** [register_tool] *)
Definition register_tool (reg : Registry) (tool_name : str)
           (metadata : ToolMetadata) : Registry :=
  dict_set reg tool_name metadata.

(** The dictionary returned by [analyze_query]. *)
Record Analysis : Type := mkAnalysis {
  query : str;
  intents : list (str * Q);
  matching_tools : list (str * ToolMetadata * Q);
  primary_intent : str;
  confidence : Q
}.

(** The keyword loop of [analyze_query]: 0.3 for every keyword of the tool
    that occurs in the lowercased query. *)
Definition keyword_score (kws : list str) (query_lower : str) : Q :=
  fold_left
    (fun tool_score keyword =>
       if contains keyword query_lower then (tool_score + 0.3)%Q
       else tool_score)
    kws 0%Q.

(** The body of the loop over the registry, up to the threshold test. *)
Definition tool_score (intents : list (str * Q)) (query : str)
           (metadata : ToolMetadata) : Q :=
  let s0 := keyword_score (keywords metadata) (lower query) in
  let s1 := match dict_get intents (category_value (category metadata)) with
            | Some v => (s0 + v * 0.7)%Q
            | None => s0
            end in
  (s1 * (inject_Z (priority metadata) / 10.0))%Q.

Definition score_of (t : str * ToolMetadata * Q) : Q := snd t.

(** The list [matching_tools] after the loop over the registry. *)
Definition qualifying_tools (reg : Registry) (intents : list (str * Q))
           (query : str) : list (str * ToolMetadata * Q) :=
  flat_map
    (fun entry =>
       let s := tool_score intents query (snd entry) in
       if Qle_bool (min_confidence (snd entry)) s
       then [(fst entry, snd entry, s)]
       else [])
    reg.

(** The list after [matching_tools.sort(key=lambda x: x[2], reverse=True)]. *)
Definition ranked_tools (reg : Registry) (query : str)
  : list (str * ToolMetadata * Q) :=
  sort_desc score_of (qualifying_tools reg (classify_intent query) query).

Definition analyze_query (reg : Registry) (query : str) : Analysis :=
  let intents := classify_intent query in
  {| query := query;
     intents := intents;
     matching_tools := firstn 5 (ranked_tools reg query);
     primary_intent := match intents with
                       | (k, _) :: _ => k
                       | [] => u "general"
                       end;
     confidence := match intents with
                   | (_, v) :: _ => v
                   | [] => 0.5%Q
                   end |}.

(** [select_tools]: the loop over [analysis["matching_tools"]], with the
    list [selected_tools] and the set [used_categories] as accumulators. *)
Definition conflicts_with (metadata : ToolMetadata)
           (selected_tools : list (str * ToolMetadata)) : bool :=
  existsb (fun conflict =>
             existsb (PyStr.eqb conflict) (map fst selected_tools))
          (conflicts metadata).

Fixpoint select_loop (candidates : list (str * ToolMetadata * Q))
         (selected_tools : list (str * ToolMetadata))
         (used_categories : list ToolCategory)
  : list (str * ToolMetadata) :=
  match candidates with
  | [] => selected_tools
  | (tool_name, metadata, _) :: rest =>
      if conflicts_with metadata selected_tools
      then select_loop rest selected_tools used_categories
      else
        let take used' :=
          let selected' := selected_tools ++ [(tool_name, metadata)] in
          if 3 <=? length selected' then selected'
          else select_loop rest selected' used' in
        if category_eqb (category metadata) UTILITIES
        then take used_categories
        else if existsb (category_eqb (category metadata)) used_categories
             then select_loop rest selected_tools used_categories
             else take (category metadata :: used_categories)
  end.

Definition select_tools (analysis : Analysis) : list (str * ToolMetadata) :=
  select_loop (matching_tools analysis) [] [].

(** The dictionary returned by [create_execution_plan]. *)
Record ExecutionPlan : Type := mkPlan {
  tools : list (str * ToolMetadata);
  plan_estimated_time : Q;
  requires_prerequisites : bool;
  has_conflicts : bool;
  execution_order : list str
}.

(** The prerequisites of one tool that are not names of selected tools, in
    declaration order (the inner loop of the first pass). *)
Definition missing_prerequisites (selected_names : list str)
           (metadata : ToolMetadata) : list str :=
  filter (fun prereq => negb (existsb (PyStr.eqb prereq) selected_names))
         (prerequisites metadata).

(** The list [prerequisite_tools] after the first pass. *)
Definition prerequisite_tools (selected_tools : list (str * ToolMetadata))
  : list str :=
  flat_map (fun t => missing_prerequisites (map fst selected_tools) (snd t))
           selected_tools.

(** The second pass: [sorted_tools.insert(0, ...)] for every collected
    prerequisite that is registered. *)
Definition add_prerequisites (reg : Registry) (prereqs : list str)
           (acc : list (str * ToolMetadata) * Q)
  : list (str * ToolMetadata) * Q :=
  fold_left
    (fun a prereq =>
       match dict_get reg prereq with
       | Some prereq_metadata =>
           ((prereq, prereq_metadata) :: fst a,
            (snd a + estimated_time prereq_metadata)%Q)
       | None => a
       end)
    prereqs acc.

Definition create_execution_plan (reg : Registry)
           (selected_tools : list (str * ToolMetadata)) (query : str)
  : ExecutionPlan :=
  let prereqs := prerequisite_tools selected_tools in
  let time0 :=
    fold_left (fun t st => (t + estimated_time (snd st))%Q)
              selected_tools 0%Q in
  let '(sorted_tools, time1) :=
    add_prerequisites reg prereqs (selected_tools, time0) in
  {| tools := sorted_tools;
     plan_estimated_time := time1;
     requires_prerequisites := match prereqs with [] => false | _ => true end;
     has_conflicts := false;
     execution_order := map fst sorted_tools |}.

(** *** Execution *)

(** The dictionary returned by [execute_plan]. *)
Record ExecutionResult : Type := mkResult {
  success : bool;
  tool_results : list (str * pyval);
  execution_time : Q;
  errors : list str
}.

(** An entry of [self.tool_usage_history]. *)
Record UsageRecord : Type := mkUsage {
  usage_tool : str;
  usage_query : str;
  usage_success : bool;
  usage_timestamp : Q
}.

(** The object [ToolOrchestrator]: its registry and its usage history
    ([self.tool_usage_history]).  The classifier holds constant tables;
    [context_memory] and [active_session] are never read. *)
Record ToolOrchestrator : Type := mkOrchestrator {
  tool_registry : Registry;
  usage_history : list UsageRecord
}.

(** [ToolOrchestrator()] *)
Definition new_orchestrator : ToolOrchestrator :=
  mkOrchestrator initial_tool_registry [].

Section Execution.

(** The world outside the orchestrator: the tool modules and the event
    loop.  [run_import ms] is the statement [from m import ...] for the
    modules [ms]; [run_call f args] awaits the tool function [f];
    [loop_time] is [asyncio.get_event_loop().time()].  The calls to the
    visual activity sink and to the logger are not modelled. *)
Variable W : Type.
Variable run_import : list str -> M W unit.
Variable run_call : str -> list pyval -> M W pyval.
Variable loop_time : W -> Q.

Local Open Scope py_scope.

Definition is_one_of (x : str) (l : list str) : bool :=
  existsb (PyStr.eqb x) l.

(** The [try] block of [_execute_tool]. *)
Definition execute_tool_body (tool_name query : str) : M W pyval :=
  if startswith (u "get_system") tool_name then
    run_import [u "system_utilities"] ;;;
    if PyStr.eqb tool_name (u "get_system_info")
    then run_call (u "get_system_info") []
    else if PyStr.eqb tool_name (u "get_running_processes")
    then run_call (u "get_running_processes") []
    else if PyStr.eqb tool_name (u "get_network_info")
    then run_call (u "get_network_info") []
    else ret PyNone
  else if contains (u "vscode") tool_name || contains (u "code") tool_name
  then
    run_import [u "vscode_sandbox"; u "coding_tools"] ;;;
    if PyStr.eqb tool_name (u "open_vscode_sandbox")
    then run_call (u "open_vscode_sandbox") []
    else if PyStr.eqb tool_name (u "write_code")
    then run_call (u "write_code") [PyStr query]
    else if PyStr.eqb tool_name (u "analyze_code")
    then run_call (u "analyze_code") [PyStr query]
    else if PyStr.eqb tool_name (u "generate_function")
    then run_call (u "generate_function")
                  [PyStr (u "user_function"); PyStr query]
    else if PyStr.eqb tool_name (u "create_web_app")
    then run_call (u "create_web_app") [PyStr (u "user_app")]
    else ret PyNone
  else if is_one_of tool_name
            [u "google_search"; u "get_weather"; u "get_current_datetime"]
  then
    run_import [u "Jarvis_google_search"; u "jarvis_get_whether"] ;;;
    if PyStr.eqb tool_name (u "google_search")
    then run_call (u "google_search") [PyStr query]
    else if PyStr.eqb tool_name (u "get_weather")
    then run_call (u "get_weather") []
    else if PyStr.eqb tool_name (u "get_current_datetime")
    then run_call (u "get_current_datetime") []
    else ret PyNone
  else if is_one_of tool_name
            [u "open_app"; u "close_app"; u "folder_file"; u "Play_file"]
  then
    run_import [u "Jarvis_window_CTRL"; u "Jarvis_file_opner"] ;;;
    if PyStr.eqb tool_name (u "open_app")
    then run_call (u "open_app") [PyStr query]
    else if PyStr.eqb tool_name (u "close_app")
    then run_call (u "close_app") [PyStr query]
    else if PyStr.eqb tool_name (u "folder_file")
    then run_call (u "folder_file") [PyStr query]
    else if PyStr.eqb tool_name (u "Play_file")
    then run_call (u "Play_file") [PyStr query]
    else ret PyNone
  else if contains (u "tool") tool_name then
    run_import [u "keyboard_mouse_CTRL"] ;;;
    if PyStr.eqb tool_name (u "type_text_tool")
    then run_call (u "type_text_tool") [PyStr query]
    else if PyStr.eqb tool_name (u "mouse_click_tool")
    then run_call (u "mouse_click_tool") []
    else if PyStr.eqb tool_name (u "control_volume_tool")
    then run_call (u "control_volume_tool") [PyStr (u "up")]
    else ret PyNone
  else
    ret (PyStr (u "Tool " ++ tool_name ++ u " executed with query: "
                  ++ query)).

Definition _execute_tool (tool_name query : str) : M W pyval :=
  try_except
    (execute_tool_body tool_name query)
    (fun e => raise (Exception (u "Failed to execute " ++ tool_name
                                  ++ u ": " ++ exc_str e))).

(** The state of the loop of [execute_plan]. *)
Record ExecState : Type := mkExecState {
  results : ExecutionResult;
  tool_usage_history : list UsageRecord;
  world : W
}.

(** One iteration of [for tool_name, metadata in plan["tools"]]. *)
Definition execute_step (query : str) (st : ExecState)
           (t : str * ToolMetadata) : ExecState :=
  let tool_name := fst t in
  let r := results st in
  match _execute_tool tool_name query (world st) with
  | (Ok tool_result, w') =>
      {| results :=
           {| success := success r;
              tool_results := dict_set (tool_results r) tool_name tool_result;
              execution_time := execution_time r;
              errors := errors r |};
         tool_usage_history :=
           tool_usage_history st
             ++ [mkUsage tool_name query true (loop_time w')];
         world := w' |}
  | (Raise e, w') =>
      let error_msg :=
        u "Error executing " ++ tool_name ++ u ": " ++ exc_str e in
      {| results :=
           {| success := false;
              tool_results := tool_results r;
              execution_time := execution_time r;
              errors := errors r ++ [error_msg] |};
         tool_usage_history := tool_usage_history st;
         world := w' |}
  end.

Definition execute_plan (plan : ExecutionPlan) (query : str)
           (history : list UsageRecord) (w : W)
  : ExecutionResult * list UsageRecord * W :=
  let start_time := loop_time w in
  let st :=
    fold_left (execute_step query) (tools plan)
              (mkExecState (mkResult true [] 0 []) history w) in
  let r := results st in
  ({| success := success r;
      tool_results := tool_results r;
      execution_time := (loop_time (world st) - start_time)%Q;
      errors := errors r |},
   tool_usage_history st, world st).

(** Step 5 of [process_query]: the results that are non-empty strings,
    in the order of the dictionary [tool_results]. *)
Definition tool_outputs (tool_results : list (str * pyval)) : list str :=
  flat_map
    (fun kv =>
       match snd kv with
       | PyStr ((_ :: _) as result) => [result]
       | _ => []
       end)
    tool_results.

(** The separators are written with a doubled backslash in the source:
    they are a backslash followed by the letter n, not a line break. *)
Definition format_results (results : ExecutionResult) : str :=
  if success results
  then
    match tool_outputs (tool_results results) with
    | [] => u "Task completed successfully!"
    | (_ :: _) as outputs => join (u "\n\n") outputs
    end
  else
    u "Some operations failed:\n"
      ++ join (u "\n") (firstn 3 (errors results)).

(** [process_query], a method: the state is the object and the world.
    The calls it makes to [set_jarvis_state] and to the logger are not
    modelled: the former tests a global of [jarvis_visual.py] that no
    statement of the repository assigns, and does nothing. *)
Definition process_query (query : str) : M (ToolOrchestrator * W) str :=
  try_except
    (fun st =>
       let self := fst st in
       let analysis := analyze_query (tool_registry self) query in
       match matching_tools analysis with
       | [] =>
           (Ok (u "I'm not sure how to help with that. Could you be more specific?"),
            st)
       | _ :: _ =>
           let selected_tools := select_tools analysis in
           match selected_tools with
           | [] =>
               (Ok (u "I couldn't find appropriate tools for your request."),
                st)
           | _ :: _ =>
               let plan :=
                 create_execution_plan (tool_registry self)
                                       selected_tools query in
               let '(results, history, w) :=
                 execute_plan plan query (usage_history self) (snd st) in
               (Ok (format_results results),
                (mkOrchestrator (tool_registry self) history, w))
           end
       end)
    (fun e =>
       ret (u "I encountered an error while processing your request: "
              ++ exc_str e)).

(** [get_orchestrator]: the module global [_orchestrator] is the first
    component of the state. *)
Definition get_orchestrator
  : M (option ToolOrchestrator * W) ToolOrchestrator :=
  fun st =>
    match fst st with
    | Some orchestrator => (Ok orchestrator, st)
    | None => (Ok new_orchestrator, (Some new_orchestrator, snd st))
    end.

(** [smart_tool_execution]: the method runs on the shared object, so
    what it appends to the history is seen by the next call. *)
Definition smart_tool_execution (query : str)
  : M (option ToolOrchestrator * W) str :=
  orchestrator <- get_orchestrator ;;
  (fun st =>
     let '(r, (orchestrator', w')) :=
       process_query query (orchestrator, snd st) in
     (r, (Some orchestrator', w'))).

End Execution.

End Orchestrator.

(* ================================================================= *)
(** ** jarvis_reasoning.py *)

Module Reasoning.

Record JarvisConfig : Type := mkConfig {
  model_name : str;
  max_retries : Z;
  timeout_seconds : Q;
  orchestrator_threshold : Z;
  verbose_mode : bool;
  cache_size : Z;
  min_query_length : Z;
  max_query_length : Z;
  enable_fallback : bool;
  log_performance : bool
}.

Definition default_config : JarvisConfig :=
  mkConfig (u "gemini-2.0-flash") 3 30.0 10 true 128 1 1000 true true.

Record PerformanceMetrics : Type := mkMetrics {
  total_queries : Z;
  successful_queries : Z;
  orchestrator_queries : Z;
  langchain_queries : Z;
  average_response_time : Q;
  total_response_time : Q;
  error_count : Z;
  last_error : option str
}.

(** [PerformanceMetrics()] *)
Definition initial_metrics : PerformanceMetrics :=
  mkMetrics 0 0 0 0 0.0 0.0 0 None.

(** [update_success] mutates the fields one statement at a time; the
    division raises [ZeroDivisionError] when [total_queries] has become
    zero, with the first three fields already updated. *)
Definition update_success (response_time : Q) (method : str)
  : M PerformanceMetrics unit :=
  fun m =>
    let total := (total_queries m + 1)%Z in
    let successful := (successful_queries m + 1)%Z in
    let total_time := (total_response_time m + response_time)%Q in
    if (total =? 0)%Z
    then (Raise (Exception (u "float division by zero")),
          mkMetrics total successful (orchestrator_queries m)
                    (langchain_queries m) (average_response_time m)
                    total_time (error_count m) (last_error m))
    else
      let average := (total_time / inject_Z total)%Q in
      if PyStr.eqb method (u "orchestrator")
      then (Ok tt,
            mkMetrics total successful (orchestrator_queries m + 1)%Z
                      (langchain_queries m) average total_time
                      (error_count m) (last_error m))
      else (Ok tt,
            mkMetrics total successful (orchestrator_queries m)
                      (langchain_queries m + 1)%Z average total_time
                      (error_count m) (last_error m)).

Definition update_error (error_msg : str) : M PerformanceMetrics unit :=
  fun m =>
    (Ok tt,
     mkMetrics (total_queries m + 1)%Z (successful_queries m)
               (orchestrator_queries m) (langchain_queries m)
               (average_response_time m) (total_response_time m)
               (error_count m + 1)%Z (Some error_msg)).

Definition get_success_rate (m : PerformanceMetrics) : Q :=
  if (total_queries m =? 0)%Z then 0.0%Q
  else (inject_Z (successful_queries m) / inject_Z (total_queries m)
        * 100)%Q.

(** The dictionary returned by [get_performance_metrics]. *)
Record MetricsReport : Type := mkReport {
  report_total_queries : Z;
  success_rate : Q;
  report_average_response_time : Q;
  orchestrator_usage : Z;
  langchain_usage : Z;
  report_error_count : Z;
  report_last_error : option str
}.

(** The value of a keyword argument of [update_configuration]. *)
Inductive config_value : Type :=
| CStr (s : str)
| CInt (z : Z)
| CFloat (q : Q)
| CBool (b : bool).

(** The names of the fields of [JarvisConfig]. *)
Definition config_fields : list str :=
  [ u "model_name"; u "max_retries"; u "timeout_seconds";
    u "orchestrator_threshold"; u "verbose_mode"; u "cache_size";
    u "min_query_length"; u "max_query_length"; u "enable_fallback";
    u "log_performance" ].

(** [hasattr(_config, key)].  Besides its fields the object has only the
    attributes of every dataclass instance, whose names begin with two
    underscores; such a keyword is outside the model ([None]). *)
Definition hasattr_config (key : str) : option bool :=
  if existsb (PyStr.eqb key) config_fields then Some true
  else if startswith (u "__") key then None
  else Some false.

(** [setattr(_config, key, value)] for a field [key].  Python stores any
    value; the model covers a value of the type the field is declared
    with, and is [None] otherwise. *)
Definition set_config_field (cfg : JarvisConfig) (key : str)
           (value : config_value) : option JarvisConfig :=
  let '(mkConfig mn mr ts ot vm cs mnq mxq ef lp) := cfg in
  if PyStr.eqb key (u "model_name") then
    match value with
    | CStr s => Some (mkConfig s mr ts ot vm cs mnq mxq ef lp)
    | _ => None
    end
  else if PyStr.eqb key (u "max_retries") then
    match value with
    | CInt z => Some (mkConfig mn z ts ot vm cs mnq mxq ef lp)
    | _ => None
    end
  else if PyStr.eqb key (u "timeout_seconds") then
    match value with
    | CFloat q => Some (mkConfig mn mr q ot vm cs mnq mxq ef lp)
    | _ => None
    end
  else if PyStr.eqb key (u "orchestrator_threshold") then
    match value with
    | CInt z => Some (mkConfig mn mr ts z vm cs mnq mxq ef lp)
    | _ => None
    end
  else if PyStr.eqb key (u "verbose_mode") then
    match value with
    | CBool b => Some (mkConfig mn mr ts ot b cs mnq mxq ef lp)
    | _ => None
    end
  else if PyStr.eqb key (u "cache_size") then
    match value with
    | CInt z => Some (mkConfig mn mr ts ot vm z mnq mxq ef lp)
    | _ => None
    end
  else if PyStr.eqb key (u "min_query_length") then
    match value with
    | CInt z => Some (mkConfig mn mr ts ot vm cs z mxq ef lp)
    | _ => None
    end
  else if PyStr.eqb key (u "max_query_length") then
    match value with
    | CInt z => Some (mkConfig mn mr ts ot vm cs mnq z ef lp)
    | _ => None
    end
  else if PyStr.eqb key (u "enable_fallback") then
    match value with
    | CBool b => Some (mkConfig mn mr ts ot vm cs mnq mxq b lp)
    | _ => None
    end
  else if PyStr.eqb key (u "log_performance") then
    match value with
    | CBool b => Some (mkConfig mn mr ts ot vm cs mnq mxq ef b)
    | _ => None
    end
  else None.

(** The loop of [update_configuration] over the keyword arguments, in the
    order they are given: a keyword that is not an attribute is only
    logged. *)
Fixpoint update_config (kwargs : list (str * config_value))
         (cfg : JarvisConfig) : option JarvisConfig :=
  match kwargs with
  | [] => Some cfg
  | (key, value) :: rest =>
      match hasattr_config key with
      | Some true =>
          match set_config_field cfg key value with
          | Some cfg' => update_config rest cfg'
          | None => None
          end
      | Some false => update_config rest cfg
      | None => None
      end
  end.

(** [CACHE_TIMEOUT] *)
Definition CACHE_TIMEOUT : Q := 300%Q.

(** [validate_query].  The argument is any Python value: the annotation
    [str] is not enforced. *)
Definition validate_query (cfg : JarvisConfig) (query : pyval)
  : Result unit :=
  match query with
  | PyStr ((_ :: _) as q) =>
      let q := strip q in
      if (len q <? min_query_length cfg)%Z
      then Raise (JarvisError
                    (u "Query too short (minimum "
                       ++ str_of_int (min_query_length cfg)
                       ++ u " characters)")
                    (u "QUERY_TOO_SHORT") None)
      else if (max_query_length cfg <? len q)%Z
      then Raise (JarvisError
                    (u "Query too long (maximum "
                       ++ str_of_int (max_query_length cfg)
                       ++ u " characters)")
                    (u "QUERY_TOO_LONG") None)
      else Ok tt
  | _ =>
      Raise (JarvisError (u "Query must be a non-empty string")
                         (u "INVALID_QUERY") None)
  end.

(** A value of the dictionary that [thinking_capability] returns. *)
Inductive field : Type :=
| FBool (b : bool)
| FStr (s : str)
| FFloat (q : Q).

Definition Response := list (str * field).

(** The result of the agent call: a dictionary with an ['output'] entry,
    or anything else, of which the code takes [str(result)]. *)
Inductive agent_result : Type :=
| WithOutput (output : pyval)
| Other (as_str : str).

Section Dispatch.

(** The world outside the dispatcher.
    - [smart_tool_execution q] is the orchestrator of
      tool_orchestrator.py, awaited;
    - [build_agent cfg] is the [try] block of [_create_langchain_agent]
      (model, prompt, tools, executor);
    - [wait_for_ainvoke a q t] is
      [asyncio.wait_for(a.ainvoke({"input": q}), timeout=t)], which
      raises [TimeoutError] when the call exceeds [t];
    - [time_time] is [time.time()];
    - [str_of_float] is the formatting of a float in an f-string.
    Logging and [performance_monitor], which only logs and re-raises,
    are not modelled. *)
Variable S : Type.
Variable Agent : Type.
Variable smart_tool_execution : str -> M S str.
Variable build_agent : JarvisConfig -> M S Agent.
Variable wait_for_ainvoke : Agent -> str -> Q -> M S agent_result.
Variable time_time : S -> Q.
Variable str_of_float : Q -> str.

(** The module globals, the delays passed to [asyncio.sleep] so far, and
    the outside world. *)
Record State : Type := mkState {
  _config : JarvisConfig;
  _metrics : PerformanceMetrics;
  _cached_agent : option Agent;
  _last_cache_time : Q;
  sleep_log : list Q;
  ext : S
}.

Definition set_ext (st : State) (s : S) : State :=
  mkState (_config st) (_metrics st) (_cached_agent st)
          (_last_cache_time st) (sleep_log st) s.

Definition set_metrics (st : State) (m : PerformanceMetrics) : State :=
  mkState (_config st) m (_cached_agent st) (_last_cache_time st)
          (sleep_log st) (ext st).

(** Running an outside call, or a method of [_metrics], in [State]. *)
Definition outside {A} (c : M S A) : M State A :=
  fun st => let '(r, s') := c (ext st) in (r, set_ext st s').

Definition on_metrics {A} (c : M PerformanceMetrics A) : M State A :=
  fun st => let '(r, m') := c (_metrics st) in (r, set_metrics st m').

(** [await asyncio.sleep(delay)] *)
Definition asyncio_sleep (delay : Q) : M State unit :=
  modify (fun st =>
            mkState (_config st) (_metrics st) (_cached_agent st)
                    (_last_cache_time st) (sleep_log st ++ [delay])
                    (ext st)).

Local Open Scope py_scope.

(** [retry_with_backoff]: the loop over [range(max_retries + 1)], with
    [last_exception] as accumulator. *)
Fixpoint retry_loop {A} (func : M S A) (max_retries : Z) (base_delay : Q)
         (attempts : list Z) (last_exception : option PyExc)
  : M State A :=
  match attempts with
  | [] =>
      raise (JarvisError
               (u "Operation failed after "
                  ++ str_of_int (max_retries + 1) ++ u " attempts")
               (u "RETRY_EXHAUSTED") last_exception)
  | attempt :: rest =>
      try_except
        (outside func)
        (fun e =>
           (if (attempt <? max_retries)%Z
            then asyncio_sleep (base_delay * inject_Z (2 ^ attempt))%Q
            else ret tt) ;;;
           retry_loop func max_retries base_delay rest (Some e))
  end.

(** [range(n)] *)
Definition range (n : Z) : list Z :=
  map Z.of_nat (seq 0 (Z.to_nat n)).

Definition retry_with_backoff {A} (func : M S A) (max_retries : Z)
           (base_delay : Q) : M State A :=
  retry_loop func max_retries base_delay (range (max_retries + 1)) None.

(** [get_cached_agent] *)
Definition get_cached_agent : M State (option Agent) :=
  current_time <- gets (fun st => time_time (ext st)) ;;
  cached <- gets _cached_agent ;;
  last <- gets _last_cache_time ;;
  match cached with
  | Some a =>
      if Qltb (current_time - last) CACHE_TIMEOUT then ret (Some a)
      else ret None
  | None => ret None
  end.

(** [cache_agent] *)
Definition cache_agent (agent : Agent) : M State unit :=
  modify (fun st =>
            mkState (_config st) (_metrics st) (Some agent)
                    (time_time (ext st)) (sleep_log st) (ext st)).

(** [_create_langchain_agent] *)
Definition _create_langchain_agent : M State Agent :=
  cfg <- gets _config ;;
  try_except
    (outside (build_agent cfg))
    (fun e =>
       raise (JarvisError
                (u "Failed to create LangChain agent: " ++ exc_str e)
                (u "AGENT_CREATION_FAILED") (Some e))).

(** [_try_orchestrator] *)
Definition _try_orchestrator (query : str) : M State (option str) :=
  cfg <- gets _config ;;
  try_except
    (orchestrator_result <-
       retry_with_backoff (smart_tool_execution query)
                          (max_retries cfg) 1.0 ;;
     cfg <- gets _config ;;
     match orchestrator_result with
     | [] => ret None
     | _ :: _ =>
         if (orchestrator_threshold cfg <? len (strip orchestrator_result))%Z
         then ret (Some (strip orchestrator_result))
         else ret None
     end)
    (fun e =>
       cfg <- gets _config ;;
       if negb (enable_fallback cfg)
       then raise (JarvisError
                     (u "Orchestrator failed and fallback disabled: "
                        ++ exc_str e)
                     (u "ORCHESTRATOR_FAILED") None)
       else ret None).

Definition is_jarvis_error (e : PyExc) : bool :=
  match e with
  | JarvisError _ _ _ => true
  | _ => false
  end.

(** The first statements of [_try_langchain_agent]: the cached agent,
    or a new one that is cached. *)
Definition get_executor : M State Agent :=
  executor <- get_cached_agent ;;
  match executor with
  | Some e => ret e
  | None =>
      e <- _create_langchain_agent ;;
      cache_agent e ;;;
      ret e
  end.

(** [_try_langchain_agent] *)
Definition _try_langchain_agent (query : str) : M State str :=
  try_except
    (executor <- get_executor ;;
     cfg <- gets _config ;;
     result <-
       try_except
         (outside (wait_for_ainvoke executor query (timeout_seconds cfg)))
         (fun e =>
            match e with
            | TimeoutError _ =>
                raise (JarvisError
                         (u "Query execution timed out after "
                            ++ str_of_float (timeout_seconds cfg)
                            ++ u "s")
                         (u "EXECUTION_TIMEOUT") None)
            | _ => raise e
            end) ;;
     let response := match result with
                     | WithOutput v => v
                     | Other s => PyStr s
                     end in
     match response with
     | PyStr r =>
         match strip r with
         | [] =>
             raise (JarvisError
                      (u "LangChain agent returned empty response")
                      (u "EMPTY_RESPONSE") None)
         | _ :: _ => ret (strip r)
         end
     | PyNone =>
         raise (JarvisError (u "LangChain agent returned empty response")
                            (u "EMPTY_RESPONSE") None)
     | PyObj _ =>
         raise (Exception (u "object has no attribute 'strip'"))
     end)
    (fun e =>
       if is_jarvis_error e then raise e
       else raise (JarvisError
                     (u "LangChain agent execution failed: " ++ exc_str e)
                     (u "LANGCHAIN_FAILED") (Some e))).

Definition elapsed_since (start_time : Q) : M State Q :=
  gets (fun st => (time_time (ext st) - start_time)%Q).

(** The [try] block of [thinking_capability]. *)
Definition thinking_body (query : pyval) (start_time : Q)
  : M State Response :=
  cfg <- gets _config ;;
  (fun st => (validate_query cfg query, st)) ;;;
  query <- match query with
           | PyStr q => ret (strip q)
           | _ => raise (Exception (u "object has no attribute 'strip'"))
           end ;;
  orchestrator_result <- _try_orchestrator query ;;
  match orchestrator_result with
  | Some ((_ :: _) as r) =>
      execution_time <- elapsed_since start_time ;;
      on_metrics (update_success execution_time (u "orchestrator")) ;;;
      ret [ (u "success", FBool true);
            (u "response", FStr r);
            (u "method", FStr (u "orchestrator"));
            (u "execution_time", FFloat execution_time) ]
  | _ =>
      cfg <- gets _config ;;
      if enable_fallback cfg
      then
        langchain_result <- _try_langchain_agent query ;;
        execution_time <- elapsed_since start_time ;;
        on_metrics (update_success execution_time (u "langchain")) ;;;
        ret [ (u "success", FBool true);
              (u "response", FStr langchain_result);
              (u "method", FStr (u "langchain"));
              (u "execution_time", FFloat execution_time) ]
      else
        raise (JarvisError
                 (u "No available execution method could handle the query")
                 (u "NO_METHOD_AVAILABLE") None)
  end.

(** [thinking_capability]: the [try] block and its two handlers. *)
Definition thinking_capability (query : pyval) : M State Response :=
  start_time <- gets (fun st => time_time (ext st)) ;;
  try_except
    (thinking_body query start_time)
    (fun e =>
       match e with
       | JarvisError message error_code _ =>
           execution_time <- elapsed_since start_time ;;
           on_metrics (update_error (error_code ++ u ": " ++ message)) ;;;
           ret [ (u "success", FBool false);
                 (u "error", FStr message);
                 (u "error_code", FStr error_code);
                 (u "execution_time", FFloat execution_time) ]
       | _ =>
           execution_time <- elapsed_since start_time ;;
           on_metrics
             (update_error (u "Unexpected error in thinking_capability: "
                              ++ exc_str e)) ;;;
           ret [ (u "success", FBool false);
                 (u "error",
                  FStr (u "An unexpected error occurred while processing your request"));
                 (u "error_code", FStr (u "UNEXPECTED_ERROR"));
                 (u "execution_time", FFloat execution_time) ]
       end).

(** [reset_performance_metrics] *)
Definition reset_performance_metrics : M State unit :=
  modify (fun st => set_metrics st initial_metrics).

(** [get_performance_metrics] *)
Definition get_performance_metrics : M State MetricsReport :=
  gets (fun st =>
          let m := _metrics st in
          {| report_total_queries := total_queries m;
             success_rate := get_success_rate m;
             report_average_response_time := average_response_time m;
             orchestrator_usage := orchestrator_queries m;
             langchain_usage := langchain_queries m;
             report_error_count := error_count m;
             report_last_error := last_error m |}).

(** [update_configuration], the keyword arguments as a list; [None]
    when a keyword is outside the model (see [hasattr_config] and
    [set_config_field]). *)
Definition update_configuration (kwargs : list (str * config_value))
  : State -> option (Result unit * State) :=
  fun st =>
    option_map
      (fun cfg =>
         (Ok tt,
          mkState cfg (_metrics st) (_cached_agent st)
                  (_last_cache_time st) (sleep_log st) (ext st)))
      (update_config kwargs (_config st)).

End Dispatch.

End Reasoning.
(* ================================================================= *)
(** ** Definitions used to state the properties *)

Import Orchestrator Reasoning.

(** *** Metrics *)

(** The operations that change [_metrics]. *)
Inductive metrics_op : Type :=
| OpSuccess (response_time : Q) (method : str)
| OpError (error_msg : str)
| OpReset.

Definition apply_op {S Agent : Type} (st : State S Agent) (op : metrics_op)
  : State S Agent :=
  match op with
  | OpSuccess t m => snd (on_metrics (update_success t m) st)
  | OpError e => snd (on_metrics (update_error e) st)
  | OpReset => snd (reset_performance_metrics st)
  end.

Definition metrics_invariant (m : PerformanceMetrics) : Prop :=
  (total_queries m = successful_queries m + error_count m
   /\ successful_queries m = orchestrator_queries m + langchain_queries m)%Z.

(** Arithmetic mean of a list of response times. *)
Definition mean (l : list Q) : Q :=
  (fold_right Qplus 0 l / inject_Z (Z.of_nat (length l)))%Q.

(** *** A small outside world for the examples

The world is a clock and the number of orchestrator calls made so far.
The orchestrator takes [cost] seconds per call, raises on its first
[failures] calls and answers [reply] afterwards; the agent is built at
once and answers [agent_reply]. *)
Definition demo_world : Type := (Q * nat)%type.

Definition demo_orchestrator (failures : nat) (cost : Q) (reply : str)
  : str -> M demo_world str :=
  fun _ w =>
    let w' := ((fst w + cost)%Q, S (snd w)) in
    if snd w <? failures
    then (Raise (Exception (u "tool backend unavailable")), w')
    else (Ok reply, w').

Definition demo_build_agent : JarvisConfig -> M demo_world unit :=
  fun _ w => (Ok tt, w).

Definition demo_agent (agent_reply : Result agent_result)
  : unit -> str -> Q -> M demo_world agent_result :=
  fun _ _ _ w => (agent_reply, w).

Definition demo_str_of_float (q : Q) : str := u "30.0".

Definition demo_dispatch (failures : nat) (cost : Q) (reply : str)
           (agent_reply : Result agent_result) (query : pyval)
  : M (State demo_world unit) Response :=
  thinking_capability (demo_orchestrator failures cost reply)
                      demo_build_agent (demo_agent agent_reply)
                      fst demo_str_of_float query.

Definition demo_state (cfg : JarvisConfig) : State demo_world unit :=
  mkState cfg initial_metrics None 0 [] (0%Q, 0).

(** *** Validation and dispatch *)

(** The error code carried by a raised [JarvisError]. *)
Definition error_code_of {A : Type} (r : Result A) : option str :=
  match r with
  | Raise (JarvisError _ code _) => Some code
  | _ => None
  end.

(** The result dictionary has a success flag and an execution time, and a
    failure also has an error message and an error code. *)
Definition structured (resp : Response) : Prop :=
  exists (ok : bool) (t : Q),
    dict_get resp (u "success") = Some (FBool ok)
    /\ dict_get resp (u "execution_time") = Some (FFloat t)
    /\ (ok = false ->
        exists msg code,
          dict_get resp (u "error") = Some (FStr msg)
          /\ dict_get resp (u "error_code") = Some (FStr code)).

(** The agent's answer is blank: no text, or only white space. *)
Definition blank_result (r : agent_result) : Prop :=
  r = WithOutput PyNone
  \/ (exists s, (r = WithOutput (PyStr s) \/ r = Other s) /\ strip s = []).

(** *** Retry with backoff *)

(** [fails_times func k s last]: the first [k] calls of [func] from the world
    [s] all raise; the result is the last exception raised ([last] when
    [k = 0]) and the world after the [k]-th call. *)
Fixpoint fails_times {S A : Type} (func : M S A) (k : nat) (s : S)
         (last : option PyExc) : option (option PyExc * S) :=
  match k with
  | O => Some (last, s)
  | Datatypes.S k' =>
      match func s with
      | (Raise e, s') => fails_times func k' s' (Some e)
      | (Ok _, _) => None
      end
  end.

(** The delays [base_delay * 2^i] for [i = first, ..., first + k - 1]. *)
Definition backoff_delays (base_delay : Q) (first k : nat) : list Q :=
  map (fun i => (base_delay * inject_Z (2 ^ Z.of_nat i))%Q) (seq first k).

Definition total (l : list Q) : Q := fold_right Qplus 0%Q l.

Definition with_ext_and_sleeps {S Agent : Type} (st : State S Agent) (s : S)
           (log : list Q) : State S Agent :=
  mkState (_config st) (_metrics st) (_cached_agent st) (_last_cache_time st)
          log s.

(** The exception raised by [retry_with_backoff] when every attempt failed. *)
Definition retry_exhausted (max_retries : Z) (last : option PyExc) : PyExc :=
  JarvisError (u "Operation failed after "
                 ++ str_of_int (max_retries + 1) ++ u " attempts")
              (u "RETRY_EXHAUSTED") last.

(** What [thinking_capability] returns when its [try] block raises. *)
Definition failure_response (e : PyExc) (execution_time : Q) : Response :=
  match e with
  | JarvisError message code _ =>
      [ (u "success", FBool false); (u "error", FStr message);
        (u "error_code", FStr code);
        (u "execution_time", FFloat execution_time) ]
  | _ =>
      [ (u "success", FBool false);
        (u "error",
         FStr (u "An unexpected error occurred while processing your request"));
        (u "error_code", FStr (u "UNEXPECTED_ERROR"));
        (u "execution_time", FFloat execution_time) ]
  end.

Definition failure_text (e : PyExc) : str :=
  match e with
  | JarvisError message code _ => code ++ u ": " ++ message
  | _ => u "Unexpected error in thinking_capability: " ++ exc_str e
  end.

(** The two shapes of a successful result. *)
Definition success_response (r method : str) (t : Q) : Response :=
  [ (u "success", FBool true); (u "response", FStr r);
    (u "method", FStr method); (u "execution_time", FFloat t) ].

(** *** Classifier and orchestrator *)




(** The names of a list are pairwise different. *)
Fixpoint distinct_names (l : list str) : bool :=
  match l with
  | [] => true
  | x :: l' => negb (existsb (PyStr.eqb x) l') && distinct_names l'
  end.



(** The order of a list sorted by [key], largest first. *)
Definition key_desc {A : Type} (key : A -> Q) (a b : A) : Prop :=
  (key b <= key a)%Q.

Definition by_intent_desc (a b : str * Q) : Prop := (snd b <= snd a)%Q.

(** Number of keywords of a tool that occur in the lowercased query. *)
Definition keyword_hits (kws : list str) (query_lower : str) : nat :=
  length (filter (fun kw => contains kw query_lower) kws).

(** The classifier's score for the category of a tool, 0 when the
    classifier has no entry of that name. *)
Definition intent_score (intents : list (str * Q)) (c : ToolCategory) : Q :=
  match dict_get intents (category_value c) with
  | Some v => v
  | None => 0%Q
  end.



Definition by_score_desc (a b : str * ToolMetadata * Q) : Prop :=
  (score_of b <= score_of a)%Q.

(** Selection. *)
Definition no_category_clash (a b : str * ToolMetadata) : Prop :=
  category (snd a) = category (snd b) -> category (snd a) = UTILITIES.

Definition mutually_conflicting (a b : str * ToolMetadata) : Prop :=
  In (fst b) (conflicts (snd a)) /\ In (fst a) (conflicts (snd b)).

Definition not_declared_by_later (a b : str * ToolMetadata) : Prop :=
  ~ In (fst a) (conflicts (snd b)).

Inductive subseq {A : Type} : list A -> list A -> Prop :=
| subseq_nil : forall l, subseq [] l
| subseq_skip : forall x l1 l2, subseq l1 l2 -> subseq l1 (x :: l2)
| subseq_take : forall x l1 l2, subseq l1 l2 -> subseq (x :: l1) (x :: l2).

(** The invariant of the loop of [select_tools]: fewer than 3 tools are
    selected, no two of them clash, and [used_categories] holds the
    category of every selected tool that is not a utility. *)
Definition select_invariant (selected : list (str * ToolMetadata))
           (used : list ToolCategory) : Prop :=
  length selected < 3
  /\ ForallOrdPairs no_category_clash selected
  /\ ForallOrdPairs not_declared_by_later selected
  /\ (forall t, In t selected -> category (snd t) <> UTILITIES ->
                In (category (snd t)) used).

Definition select_result (selected result : list (str * ToolMetadata))
           (candidates : list (str * ToolMetadata * Q)) : Prop :=
  length result <= 3
  /\ ForallOrdPairs no_category_clash result
  /\ ForallOrdPairs not_declared_by_later result
  /\ exists extra, result = selected ++ extra
                   /\ subseq extra (map fst candidates).

(** Planning: the registry entry of a name, as a selection of at most one
    tool. *)
Definition registered (reg : Registry) (nm : string)
  : list (str * ToolMetadata) :=
  match dict_get reg (u nm) with
  | Some md => [(u nm, md)]
  | None => []
  end.

(** A name has an entry in the registry. *)
Definition is_registered (reg : Registry) (nm : str) : bool :=
  match dict_get reg nm with
  | Some _ => true
  | None => false
  end.

(** Execution: the outcome of every call, the calls being made one after
    the other in the order of [names], each in the world left by the one
    before. *)
Fixpoint outcomes {W : Type} (exec : str -> str -> M W pyval)
         (names : list str) (query : str) (w : W)
  : list (str * Result pyval) * W :=
  match names with
  | [] => ([], w)
  | nm :: rest =>
      let '(r, w1) := exec nm query w in
      let '(os, w2) := outcomes exec rest query w1 in
      ((nm, r) :: os, w2)
  end.

Definition error_lines (os : list (str * Result pyval)) : list str :=
  flat_map
    (fun o =>
       match snd o with
       | Raise e => [u "Error executing " ++ fst o ++ u ": " ++ exc_str e]
       | Ok _ => []
       end)
    os.

Definition all_ok (os : list (str * Result pyval)) : bool :=
  forallb (fun o => match snd o with Ok _ => true | Raise _ => false end) os.

(** A world for the execution examples: the names of the tool functions
    called so far; [write_code] raises, every other tool returns. *)
Definition demo_import : list str -> M (list str) unit :=
  fun _ w => (Ok tt, w).

Definition demo_call : str -> list pyval -> M (list str) pyval :=
  fun f _ w =>
    if PyStr.eqb f (u "write_code")
    then (Raise (Exception (u "editor not responding")), w ++ [f])
    else (Ok (PyStr (u "done")), w ++ [f]).

Definition demo_loop_time (w : list str) : Q := inject_Z (Z.of_nat (length w)).

(* ================================================================= *)
(** ** Definitions used to state the further properties *)

(** *** Registry, analysis and planning *)

(** Registrations made one after the other. *)
Definition register_all (reg : Registry) (l : list (str * ToolMetadata))
  : Registry :=
  fold_left (fun r t => register_tool r (fst t) (snd t)) l reg.

(** The names of a list of scored tools. *)
Definition tool_names (l : list (str * ToolMetadata * Q)) : list str :=
  map (fun t => fst (fst t)) l.

(** The registry entries of the names that are registered, in the order of
    the names. *)
Definition registered_entries (reg : Registry) (names : list str)
  : list (str * ToolMetadata) :=
  flat_map
    (fun nm =>
       match dict_get reg nm with
       | Some md => [(nm, md)]
       | None => []
       end)
    names.

(** The sum of the estimated times of a list of tools. *)
Definition total_estimated_time (l : list (str * ToolMetadata)) : Q :=
  total (map (fun t => estimated_time (snd t)) l).

(** The categories for which the classifier has an intent of the same
    name. *)
Definition has_intent_of_its_name (c : ToolCategory) : bool :=
  existsb (PyStr.eqb (category_value c)) (map fst intent_patterns).

(** *** Execution *)

(** The names of the calls that returned, and the value a name was last
    returned with. *)
Definition ok_names (os : list (str * Result pyval)) : list str :=
  flat_map
    (fun o => match snd o with Ok _ => [fst o] | Raise _ => [] end) os.

Definition last_result (os : list (str * Result pyval)) (nm : str)
  : option pyval :=
  fold_left
    (fun acc o =>
       match snd o with
       | Ok v => if PyStr.eqb (fst o) nm then Some v else acc
       | Raise _ => acc
       end)
    os None.



(** The fixed replies of [process_query]. *)
Definition not_sure_reply : str :=
  u "I'm not sure how to help with that. Could you be more specific?".

Definition no_tools_reply : str :=
  u "I couldn't find appropriate tools for your request.".

Definition completed_reply : str := u "Task completed successfully!".

Definition failed_reply (error_lines : list str) : str :=
  u "Some operations failed:\n" ++ join (u "\n") (firstn 3 error_lines).

(** *** Reasoning *)

(** Two states with the same configuration and the same metrics. *)
Definition same_globals {S Agent : Type} (st st' : State S Agent) : Prop :=
  _config st' = _config st /\ _metrics st' = _metrics st.

(** The counters never go below zero. *)
Definition counters_nonneg (m : PerformanceMetrics) : Prop :=
  (0 <= successful_queries m /\ 0 <= error_count m)%Z.

(** The error codes a failure of [thinking_capability] can carry, when the
    agent itself does not raise a [JarvisError]. *)
Definition failure_codes : list str :=
  [ u "INVALID_QUERY"; u "QUERY_TOO_SHORT"; u "QUERY_TOO_LONG";
    u "ORCHESTRATOR_FAILED"; u "NO_METHOD_AVAILABLE";
    u "AGENT_CREATION_FAILED"; u "EXECUTION_TIMEOUT"; u "EMPTY_RESPONSE";
    u "LANGCHAIN_FAILED" ].

Definition validation_codes : list str :=
  [ u "INVALID_QUERY"; u "QUERY_TOO_SHORT"; u "QUERY_TOO_LONG" ].

(** The exception is not a [JarvisError]. *)
Definition not_jarvis_error {A S : Type} (r : Result A * S) : Prop :=
  match fst r with
  | Raise (JarvisError _ _ _) => False
  | _ => True
  end.

(** A string has no white space at either end. *)
Definition stripped (s : str) : Prop := strip s = s.

(** *** The two modules together

The world of the whole program: the global [_orchestrator] of
[tool_orchestrator.py] and the world of the tools. *)
Notation jarvis_world W := (option ToolOrchestrator * W)%type.

(** The state before anything was called. *)
Definition fresh_state {W Agent : Type} (cfg : JarvisConfig) (w : W)
  : State (jarvis_world W) Agent :=
  mkState cfg initial_metrics None 0 [] (None, w).

(** The example world of the tools ([demo_import], [demo_call]) under the
    reasoning module, with an agent that answers at once. *)
Definition demo_clock (s : jarvis_world (list str)) : Q :=
  demo_loop_time (snd s).

Definition demo_jarvis_agent : unit -> str -> Q
                               -> M (jarvis_world (list str)) agent_result :=
  fun _ _ _ s => (Ok (Other (u "answer of the agent")), s).

Definition demo_jarvis (query : pyval)
  : M (State (jarvis_world (list str)) unit) Response :=
  thinking_capability
    (smart_tool_execution demo_import demo_call demo_loop_time)
    (fun _ s => (Ok tt, s)) demo_jarvis_agent demo_clock demo_str_of_float
    query.

(** The default configuration with another number of retries, and with
    the fallback disabled. *)
Definition config_with_retries (n : Z) : JarvisConfig :=
  mkConfig (u "gemini-2.0-flash") n 30.0 10 true 128 1 1000 true true.

Definition config_without_fallback : JarvisConfig :=
  mkConfig (u "gemini-2.0-flash") 3 30.0 10 true 128 1 1000 false true.

(** The orchestrator a call of [get_orchestrator] returns. *)
Definition current_orchestrator (g : option ToolOrchestrator)
  : ToolOrchestrator :=
  match g with
  | Some orchestrator => orchestrator
  | None => new_orchestrator
  end.

(** What [_try_orchestrator] makes of a reply: the stripped reply when it
    is longer than the threshold. *)
Definition usable_answer (threshold : Z) (reply : str) : option str :=
  match reply with
  | [] => None
  | _ :: _ =>
      if (threshold <? len (strip reply))%Z then Some (strip reply) else None
  end.

(** The heading of the reply when a tool failed. *)
Definition failed_heading : str := u "Some operations failed:\n".
(* ================================================================= *)
(** ** Properties of the performance metrics *)

Section MetricsFacts.

Lemma update_success_counts (t : Q) (method : str) (m : PerformanceMetrics) :
  (0 <= total_queries m)%Z ->
  metrics_invariant m ->
  let m' := snd (update_success t method m) in
  (0 <= total_queries m')%Z /\ metrics_invariant m'
  /\ fst (update_success t method m) = Ok tt.
Proof.
  intros Hnn [Htot Hsucc]. unfold update_success.
  destruct (Z.eqb_spec (total_queries m + 1) 0) as [E | _]; [lia |].
  destruct (PyStr.eqb method (u "orchestrator")); cbn [snd fst];
    unfold metrics_invariant; cbn; repeat split; lia.
Qed.

Lemma update_error_counts (e : str) (m : PerformanceMetrics) :
  (0 <= total_queries m)%Z ->
  metrics_invariant m ->
  let m' := snd (update_error e m) in
  (0 <= total_queries m')%Z /\ metrics_invariant m'.
Proof.
  intros Hnn [Htot Hsucc]. unfold update_error, metrics_invariant; cbn.
  repeat split; lia.
Qed.

Lemma apply_op_counts {S Agent : Type} (st : State S Agent) (op : metrics_op) :
  (0 <= total_queries (_metrics st))%Z ->
  metrics_invariant (_metrics st) ->
  (0 <= total_queries (_metrics (apply_op st op)))%Z
  /\ metrics_invariant (_metrics (apply_op st op)).
Proof.
  intros Hnn Hinv. destruct op as [t method | e |]; cbn [apply_op].
  - unfold on_metrics.
    destruct (update_success_counts t method Hnn Hinv) as (H1 & H2 & _).
    destruct (update_success t method (_metrics st)) as [r m']; cbn in *.
    auto.
  - unfold on_metrics.
    destruct (update_error_counts e Hnn Hinv) as (H1 & H2).
    destruct (update_error e (_metrics st)) as [r m']; cbn in *.
    auto.
  - cbn. unfold metrics_invariant; cbn. repeat split; lia.
Qed.

Lemma run_ops_counts {S Agent : Type} (ops : list metrics_op) :
  forall st : State S Agent,
    (0 <= total_queries (_metrics st))%Z ->
    metrics_invariant (_metrics st) ->
    metrics_invariant (_metrics (fold_left apply_op ops st)).
Proof.
  induction ops as [| op ops IH]; intros st Hnn Hinv; cbn [fold_left].
  - exact Hinv.
  - destruct (apply_op_counts st op Hnn Hinv) as [H1 H2]. now apply IH.
Qed.

End MetricsFacts.

(** C10.  Starting from the all-zero metrics, whatever the sequence of
    [update_success], [update_error] and [reset_performance_metrics], the
    counters satisfy [total_queries = successful_queries + error_count] and
    [successful_queries = orchestrator_queries + langchain_queries]. *)
Theorem metrics_counters_consistent :
  forall (S Agent : Type) (cfg : JarvisConfig) (agent : option Agent)
         (t : Q) (log : list Q) (s : S) (ops : list metrics_op),
    metrics_invariant
      (_metrics (fold_left apply_op ops
                           (mkState cfg initial_metrics agent t log s))).
Proof.
  intros. apply run_ops_counts; cbn.
  - lia.
  - unfold metrics_invariant; cbn. split; reflexivity.
Qed.

(** C9, evaluated.  A query answered by the orchestrator in 4 seconds,
    followed by an empty query rejected at once: both calls return, the
    counters are updated, but [average_response_time] stays at 4 although
    the two response times are 4 and 0. *)
Theorem average_is_not_the_mean_after_an_error :
  let dispatch := demo_dispatch 0 4 (u "CPU 12%, memory 48%, disk 71%")
                                (Ok (Other (u "unused"))) in
  let '(r1, st1) := dispatch (PyStr (u "show system info")) (demo_state default_config) in
  let '(r2, st2) := dispatch (PyStr []) st1 in
  exists resp1 resp2,
    r1 = Ok resp1 /\ r2 = Ok resp2
    /\ dict_get resp1 (u "execution_time") = Some (FFloat 4)
    /\ dict_get resp2 (u "execution_time") = Some (FFloat (4 - 4))
    /\ dict_get resp2 (u "error_code") = Some (FStr (u "INVALID_QUERY"))
    /\ total_queries (_metrics st2) = 2%Z
    /\ error_count (_metrics st2) = 1%Z
    /\ (average_response_time (_metrics st2) == 4)%Q
    /\ ~ (average_response_time (_metrics st2) == mean [4; 4 - 4])%Q.
Proof.
  vm_compute. do 2 eexists. repeat split; try reflexivity.
  intro H; discriminate H.
Qed.

(* ================================================================= *)
(** ** Retry with exponential backoff *)

Section RetryFacts.

Variables S Agent A : Type.
Variable func : M S A.
Variable max_retries : Z.
Variable base_delay : Q.

Lemma backoff_delays_step (a k : nat) :
  backoff_delays base_delay a (Datatypes.S k)
  = (base_delay * inject_Z (2 ^ Z.of_nat a))%Q
      :: backoff_delays base_delay (Datatypes.S a) k.
Proof. reflexivity. Qed.

Lemma with_same (st : State S Agent) :
  with_ext_and_sleeps st (ext st) (sleep_log st ++ []) = st.
Proof. destruct st; unfold with_ext_and_sleeps; cbn. now rewrite app_nil_r. Qed.

(** The loop started at attempt number [a] with [n] attempts left, when
    the operation fails [k < n] times and then returns. *)
Lemma retry_loop_returns (k : nat) :
  forall (a n : nat) (st : State S Agent) last0 lastk s_k r s',
    k < n ->
    Z.of_nat (a + n) = (max_retries + 1)%Z ->
    fails_times func k (ext st) last0 = Some (lastk, s_k) ->
    func s_k = (Ok r, s') ->
    retry_loop (Agent := Agent) func max_retries base_delay
               (map Z.of_nat (seq a n)) last0 st
    = (Ok r, with_ext_and_sleeps st s'
               (sleep_log st ++ backoff_delays base_delay a k)).
Proof.
  induction k as [| k IH]; intros a n st last0 lastk s_k r s' Hk Han Hf Hr.
  - destruct n as [| n]; [lia |]. cbn in Hf. injection Hf as _ <-.
    cbn [seq map retry_loop]. unfold try_except, outside. rewrite Hr.
    unfold with_ext_and_sleeps, set_ext, backoff_delays; cbn.
    now rewrite app_nil_r.
  - destruct n as [| n]; [lia |]. cbn [fails_times] in Hf.
    destruct (func (ext st)) as [[x | e] s1] eqn:Hcall; [discriminate |].
    cbn [seq map retry_loop]. unfold try_except at 1, outside at 1.
    rewrite Hcall. unfold bind at 1.
    destruct (Z.ltb_spec (Z.of_nat a) max_retries) as [_ | Hge]; [| lia].
    unfold asyncio_sleep, modify. cbn [set_ext].
    erewrite (IH (Datatypes.S a) n); cbn [ext sleep_log];
      [| lia | lia | eassumption | eassumption].
    unfold with_ext_and_sleeps; cbn [_config _metrics _cached_agent
                                      _last_cache_time].
    rewrite backoff_delays_step, <- app_assoc. reflexivity.
Qed.

(** The loop when every one of the [n] attempts left fails. *)
Lemma retry_loop_exhausted (n : nat) :
  forall (a : nat) (st : State S Agent) last0 lastn s',
    n = 0 \/ Z.of_nat (a + n) = (max_retries + 1)%Z ->
    fails_times func n (ext st) last0 = Some (lastn, s') ->
    retry_loop (Agent := Agent) func max_retries base_delay
               (map Z.of_nat (seq a n)) last0 st
    = (Raise (retry_exhausted max_retries lastn),
       with_ext_and_sleeps st s'
         (sleep_log st ++ backoff_delays base_delay a (n - 1))).
Proof.
  induction n as [| n IH]; intros a st last0 lastn s' Han Hf.
  - cbn in Hf. injection Hf as <- <-. cbn. unfold raise.
    now rewrite with_same.
  - destruct Han as [Han | Han]; [discriminate |].
    cbn [fails_times] in Hf.
    destruct (func (ext st)) as [[x | e] s1] eqn:Hcall; [discriminate |].
    cbn [seq map retry_loop]. unfold try_except at 1, outside at 1.
    rewrite Hcall. unfold bind at 1.
    destruct n as [| n].
    + destruct (Z.ltb_spec (Z.of_nat a) max_retries) as [Hlt | _]; [lia |].
      cbn in Hf. injection Hf as <- <-. cbn. unfold raise.
      unfold with_ext_and_sleeps, set_ext, backoff_delays; cbn.
      now rewrite app_nil_r.
    + destruct (Z.ltb_spec (Z.of_nat a) max_retries) as [_ | Hge]; [| lia].
      unfold asyncio_sleep, modify. cbn [set_ext].
      erewrite (IH (Datatypes.S a)); cbn [ext sleep_log];
        [| right; lia | eassumption].
      unfold with_ext_and_sleeps; cbn [_config _metrics _cached_agent
                                        _last_cache_time].
      replace (Datatypes.S (Datatypes.S n) - 1) with (Datatypes.S n) by lia.
      replace (Datatypes.S n - 1) with n by lia.
      rewrite backoff_delays_step, <- app_assoc. reflexivity.
Qed.

Lemma fails_times_last (n : nat) :
  forall (s : S) last0 lastn s',
    fails_times func n s last0 = Some (lastn, s') ->
    0 < n -> exists e, lastn = Some e.
Proof.
  induction n as [| n IH]; intros s last0 lastn s' Hf Hn; [lia |].
  cbn in Hf. destruct (func s) as [[x | e] s1]; [discriminate |].
  destruct n as [| n].
  - cbn in Hf. injection Hf as <- _. eauto.
  - eapply IH; [eassumption | lia].
Qed.

(** Every run is of one of the two kinds. *)
Lemma fails_or_returns (n : nat) :
  forall (s : S) last0,
    (exists lastn s', fails_times func n s last0 = Some (lastn, s'))
    \/ (exists k lastk s_k r s',
           k < n /\ fails_times func k s last0 = Some (lastk, s_k)
           /\ func s_k = (Ok r, s')).
Proof.
  induction n as [| n IH]; intros s last0.
  - left. cbn. eauto.
  - destruct (func s) as [[r | e] s1] eqn:Hcall.
    + right. exists 0, last0, s, r, s1. cbn. repeat split; auto; lia.
    + destruct (IH s1 (Some e)) as [(lastn & s' & H) | (k & lastk & s_k & r & s' & Hk & H & Hr)].
      * left. exists lastn, s'. cbn. now rewrite Hcall.
      * right. exists (Datatypes.S k), lastk, s_k, r, s'. cbn. rewrite Hcall.
        repeat split; auto; lia.
Qed.

End RetryFacts.

Lemma total_backoff_delays (base_delay : Q) (k : nat) :
  forall a : nat,
    (total (backoff_delays base_delay a k)
     == base_delay * (inject_Z (2 ^ Z.of_nat (a + k)) - inject_Z (2 ^ Z.of_nat a)))%Q.
Proof.
  induction k as [| k IH]; intro a.
  - cbn. rewrite Nat.add_0_r. ring.
  - rewrite backoff_delays_step. cbn [total fold_right].
    fold (total (backoff_delays base_delay (Datatypes.S a) k)). rewrite IH.
    replace (a + Datatypes.S k) with (Datatypes.S a + k) by lia.
    replace (2 ^ Z.of_nat (Datatypes.S a))%Z with (2 * 2 ^ Z.of_nat a)%Z
      by (rewrite Nat2Z.inj_succ, Z.pow_succ_r; lia).
    rewrite inject_Z_mult. ring.
Qed.

(** C6.  [retry_with_backoff] calls the operation until it returns, at most
    [max_retries + 1] times.  If the operation raises [k <= max_retries]
    times and then returns [r], the call returns [r], having slept
    [base_delay * 2^i] after failure number [i] (counted from 0), in total
    [base_delay * (2^k - 1)].  If the operation raises [max_retries + 1]
    times, the call raises [JarvisError] with code RETRY_EXHAUSTED and the
    last exception as its [original_error].  One of the two always
    happens. *)
Theorem retry_with_backoff_law :
  forall (S Agent A : Type) (func : M S A) (max_retries : Z) (base_delay : Q)
         (st : State S Agent),
    (forall k last s_k r s',
        (Z.of_nat k <= max_retries)%Z ->
        fails_times func k (ext st) None = Some (last, s_k) ->
        func s_k = (Ok r, s') ->
        retry_with_backoff func max_retries base_delay st
        = (Ok r, with_ext_and_sleeps st s'
                   (sleep_log st ++ backoff_delays base_delay 0 k))
        /\ (total (backoff_delays base_delay 0 k)
            == base_delay * (inject_Z (2 ^ Z.of_nat k) - 1))%Q)
    /\ (forall last s',
           fails_times func (Z.to_nat (max_retries + 1)) (ext st) None
           = Some (last, s') ->
           retry_with_backoff func max_retries base_delay st
           = (Raise (retry_exhausted max_retries last),
              with_ext_and_sleeps st s'
                (sleep_log st
                   ++ backoff_delays base_delay 0 (Z.to_nat max_retries)))
           /\ ((0 <= max_retries)%Z -> exists e, last = Some e))
    /\ ((exists k last s_k r s',
            (Z.of_nat k <= max_retries)%Z
            /\ fails_times func k (ext st) None = Some (last, s_k)
            /\ func s_k = (Ok r, s'))
        \/ (exists last s',
               fails_times func (Z.to_nat (max_retries + 1)) (ext st) None
               = Some (last, s'))).
Proof.
  intros S Agent A func max_retries base_delay st. repeat split.
  - unfold retry_with_backoff, range.
    apply retry_loop_returns with (lastk := last) (s_k := s_k); auto; lia.
  - rewrite total_backoff_delays. cbn. ring.
  - unfold retry_with_backoff, range.
    erewrite retry_loop_exhausted; [| | eassumption].
    + replace (Z.to_nat (max_retries + 1) - 1) with (Z.to_nat max_retries)
        by lia.
      reflexivity.
    + destruct (Z.to_nat (max_retries + 1)) eqn:E; [now left | right; lia].
  - intros Hnn. eapply fails_times_last; [eassumption | lia].
  - destruct (fails_or_returns func (Z.to_nat (max_retries + 1)) (ext st) None)
      as [(lastn & s' & H) | (k & lastk & s_k & r & s' & Hk & H & Hr)].
    + right. eauto.
    + left. exists k, lastk, s_k, r, s'. repeat split; auto; lia.
Qed.

(** C6 on an operation that fails twice and then returns, and on one that
    always fails, with 3 retries and a base delay of 1 second. *)
Lemma retry_with_backoff_law_witness :
  let st := demo_state default_config in
  (retry_with_backoff (demo_orchestrator 2 1 (u "done") (u "q")) 3 1 st
   = (Ok (u "done"),
      with_ext_and_sleeps st (3%Q, 3) (sleep_log st ++ backoff_delays 1 0 2))
   /\ (total (backoff_delays 1 0 2) == 1 * (inject_Z (2 ^ Z.of_nat 2) - 1))%Q)
  /\ (retry_with_backoff (demo_orchestrator 9 1 (u "done") (u "q")) 3 1 st
      = (Raise (retry_exhausted 3 (Some (Exception (u "tool backend unavailable")))),
         with_ext_and_sleeps st (4%Q, 4)
           (sleep_log st ++ backoff_delays 1 0 (Z.to_nat 3)))
      /\ ((0 <= 3)%Z ->
          exists e, Some (Exception (u "tool backend unavailable")) = Some e)).
Proof.
  intro st. split.
  - apply (proj1 (retry_with_backoff_law
                    (demo_orchestrator 2 1 (u "done") (u "q")) 3 1 st)
                 2 (Some (Exception (u "tool backend unavailable")))
                 (2%Q, 2) (u "done") (3%Q, 3)).
    + lia.
    + reflexivity.
    + reflexivity.
  - apply (proj1 (proj2 (retry_with_backoff_law
                           (demo_orchestrator 9 1 (u "done") (u "q")) 3 1 st))
                 (Some (Exception (u "tool backend unavailable"))) (4%Q, 4)).
    reflexivity.
Defined.

(* ================================================================= *)
(** ** Validation and dispatch *)

Lemma validate_query_raises_jarvis (cfg : JarvisConfig) (query : pyval) (e : PyExc) :
  validate_query cfg query = Raise e ->
  exists message code, e = JarvisError message code None.
Proof.
  unfold validate_query.
  destruct query as [| [| c q] |]; cbv beta iota zeta;
    try (intros H; injection H as <-; eauto).
  destruct (len (strip (c :: q)) <? min_query_length cfg)%Z;
    [intros H; injection H as <-; eauto |].
  destruct (max_query_length cfg <? len (strip (c :: q)))%Z;
    [intros H; injection H as <-; eauto | discriminate].
Qed.

Lemma validate_query_cases (cfg : JarvisConfig) (q : str) :
  q <> [] ->
  let n := len (strip q) in
  ((n < min_query_length cfg)%Z ->
   error_code_of (validate_query cfg (PyStr q)) = Some (u "QUERY_TOO_SHORT"))
  /\ ((min_query_length cfg <= n)%Z -> (max_query_length cfg < n)%Z ->
      error_code_of (validate_query cfg (PyStr q)) = Some (u "QUERY_TOO_LONG"))
  /\ ((min_query_length cfg <= n <= max_query_length cfg)%Z ->
      validate_query cfg (PyStr q) = Ok tt).
Proof.
  intros Hq n. destruct q as [| c q]; [congruence |].
  cbv beta iota zeta delta [validate_query].
  change (len (strip (c :: q))) with n.
  destruct (Z.ltb_spec n (min_query_length cfg));
    destruct (Z.ltb_spec (max_query_length cfg) n);
    repeat split; intros; try lia; reflexivity.
Qed.

Section DispatchFacts.

Variables S Agent : Type.
Variable smart_tool_execution : str -> M S str.
Variable build_agent : JarvisConfig -> M S Agent.
Variable wait_for_ainvoke : Agent -> str -> Q -> M S agent_result.
Variable time_time : S -> Q.
Variable str_of_float : Q -> str.

Notation dispatch :=
  (thinking_capability smart_tool_execution build_agent wait_for_ainvoke
                       time_time str_of_float).
Notation body :=
  (thinking_body smart_tool_execution build_agent wait_for_ainvoke
                 time_time str_of_float).
Notation try_orchestrator :=
  (_try_orchestrator (Agent := Agent) smart_tool_execution).
Notation try_langchain_agent :=
  (_try_langchain_agent build_agent wait_for_ainvoke time_time str_of_float).
Notation executor := (get_executor build_agent time_time).

Lemma dispatch_when_body_raises (query : pyval) (st st1 : State S Agent) (e : PyExc) :
  body query (time_time (ext st)) st = (Raise e, st1) ->
  dispatch query st
  = (Ok (failure_response e (time_time (ext st1) - time_time (ext st))),
     set_metrics st1 (snd (update_error (failure_text e) (_metrics st1)))).
Proof.
  intros Hbody. unfold thinking_capability, bind at 1, gets at 1.
  unfold try_except. rewrite Hbody.
  destruct e;
    unfold bind, elapsed_since, gets, on_metrics, update_error, ret,
      failure_response, failure_text, set_metrics;
    cbn [fst snd exc_str]; reflexivity.
Qed.

Lemma dispatch_when_body_returns (query : pyval) (st st1 : State S Agent) (resp : Response) :
  body query (time_time (ext st)) st = (Ok resp, st1) ->
  dispatch query st = (Ok resp, st1).
Proof.
  intros Hbody. unfold thinking_capability, bind at 1, gets at 1.
  unfold try_except. now rewrite Hbody.
Qed.

Lemma failure_response_structured (e : PyExc) (t : Q) :
  structured (failure_response e t).
Proof.
  exists false, t. destruct e; cbn [failure_response];
    (split; [vm_compute; reflexivity |
             split; [vm_compute; reflexivity | intros _]]).
  - exists (u "An unexpected error occurred while processing your request"),
           (u "UNEXPECTED_ERROR").
    split; vm_compute; reflexivity.
  - exists (u "An unexpected error occurred while processing your request"),
           (u "UNEXPECTED_ERROR").
    split; vm_compute; reflexivity.
  - exists message, error_code. split; vm_compute; reflexivity.
Qed.

Lemma success_response_structured (r method : str) (t : Q) :
  structured (success_response r method t).
Proof.
  exists true, t.
  split; [vm_compute; reflexivity |
          split; [vm_compute; reflexivity | discriminate]].
Qed.

Lemma body_returns_success (query : pyval) (start : Q) (st st1 : State S Agent)
      (resp : Response) :
  body query start st = (Ok resp, st1) ->
  exists r method t, resp = success_response r method t.
Proof.
  cbv beta iota zeta
      delta [thinking_body elapsed_since on_metrics bind gets ret raise].
  destruct (validate_query (_config st) query); [| discriminate].
  destruct query as [| q |]; try discriminate.
  destruct (try_orchestrator (strip q) st) as [[[[| c r] |] | e] st2];
    try discriminate; cbv beta iota.
  - destruct (enable_fallback (_config st2)); [| discriminate].
    destruct (try_langchain_agent (strip q) st2) as [[r | e] st3];
      [| discriminate].
    destruct (update_success (time_time (ext st3) - start) (u "langchain")
                             (_metrics st3)) as [[[] | e] m];
      [| discriminate].
    intros H. injection H as <- _. unfold success_response. eauto.
  - destruct (update_success (time_time (ext st2) - start) (u "orchestrator")
                             (_metrics st2)) as [[[] | e] m];
      [| discriminate].
    intros H. injection H as <- _. unfold success_response. eauto.
  - destruct (enable_fallback (_config st2)); [| discriminate].
    destruct (try_langchain_agent (strip q) st2) as [[r | e] st3];
      [| discriminate].
    destruct (update_success (time_time (ext st3) - start) (u "langchain")
                             (_metrics st3)) as [[[] | e] m];
      [| discriminate].
    intros H. injection H as <- _. unfold success_response. eauto.
Qed.

Lemma dispatch_returns_structured (query : pyval) (st : State S Agent) :
  exists resp st', dispatch query st = (Ok resp, st') /\ structured resp.
Proof.
  destruct (body query (time_time (ext st)) st) as [[resp | e] st1] eqn:Hbody.
  - exists resp, st1. split; [apply dispatch_when_body_returns; exact Hbody |].
    destruct (body_returns_success _ _ _ Hbody) as (r & m & t & ->).
    apply success_response_structured.
  - eexists _, _. split; [apply dispatch_when_body_raises; exact Hbody |].
    apply failure_response_structured.
Qed.

(** A query rejected by [validate_query] makes the [try] block raise at
    once: nothing outside is called and nothing is slept. *)
Lemma body_rejects_invalid (query : pyval) (start : Q) (st : State S Agent) (e : PyExc) :
  validate_query (_config st) query = Raise e ->
  body query start st = (Raise e, st).
Proof.
  intros Hv. unfold thinking_body, bind at 1, gets at 1, bind at 1.
  now rewrite Hv.
Qed.

(** The fallback path when the agent call times out or answers nothing. *)
Lemma try_langchain_agent_timeout (query : str) (st1 st2 : State S Agent)
      (a : Agent) (msg : str) (s3 : S) :
  executor st1 = (Ok a, st2) ->
  wait_for_ainvoke a query (timeout_seconds (_config st2)) (ext st2)
  = (Raise (TimeoutError msg), s3) ->
  exists message,
    try_langchain_agent query st1
    = (Raise (JarvisError message (u "EXECUTION_TIMEOUT") None),
       set_ext st2 s3).
Proof.
  intros Hex Hcall. eexists.
  unfold _try_langchain_agent, try_except at 1, bind at 1. rewrite Hex.
  unfold bind at 1, gets at 1, bind at 1, try_except at 1, outside.
  rewrite Hcall. reflexivity.
Qed.

Lemma try_langchain_agent_blank (query : str) (st1 st2 : State S Agent)
      (a : Agent) (result : agent_result) (s3 : S) :
  executor st1 = (Ok a, st2) ->
  wait_for_ainvoke a query (timeout_seconds (_config st2)) (ext st2)
  = (Ok result, s3) ->
  blank_result result ->
  exists message,
    try_langchain_agent query st1
    = (Raise (JarvisError message (u "EMPTY_RESPONSE") None),
       set_ext st2 s3).
Proof.
  intros Hex Hcall Hblank. eexists.
  unfold _try_langchain_agent, try_except at 1, bind at 1. rewrite Hex.
  unfold bind at 1, gets at 1, bind at 1, try_except at 1, outside.
  rewrite Hcall.
  destruct Hblank as [-> | (s & [-> | ->] & Hs)]; cbn; try rewrite Hs;
    reflexivity.
Qed.

(** When the orchestrator gives no usable answer and the fallback is
    enabled, an exception of the fallback is what the [try] block
    raises. *)
Lemma body_fallback_raises (q : str) (start : Q) (st st1 st2 : State S Agent)
      (r : option str) (e : PyExc) :
  validate_query (_config st) (PyStr q) = Ok tt ->
  try_orchestrator (strip q) st = (Ok r, st1) ->
  r = None \/ r = Some [] ->
  enable_fallback (_config st1) = true ->
  try_langchain_agent (strip q) st1 = (Raise e, st2) ->
  body (PyStr q) start st = (Raise e, st2).
Proof.
  intros Hv Ho Hr Hf Hl.
  unfold thinking_body, bind at 1, gets at 1, bind at 1. rewrite Hv.
  unfold bind at 1, ret at 1, bind at 1. rewrite Ho.
  destruct Hr as [-> | ->]; unfold bind at 1, gets at 1; rewrite Hf;
    unfold bind at 1; now rewrite Hl.
Qed.

End DispatchFacts.

Section DispatchTheorems.

Variables S Agent : Type.
Variable smart_tool_execution : str -> M S str.
Variable build_agent : JarvisConfig -> M S Agent.
Variable wait_for_ainvoke : Agent -> str -> Q -> M S agent_result.
Variable time_time : S -> Q.
Variable str_of_float : Q -> str.

Notation dispatch :=
  (thinking_capability smart_tool_execution build_agent wait_for_ainvoke
                       time_time str_of_float).

(** C5, as amended.  [validate_query] raises INVALID_QUERY for an empty
    query and for a value that is not a string.  For a non-empty string the
    length that counts is the one after [strip()]: below the minimum the
    error is QUERY_TOO_SHORT, otherwise above the maximum it is
    QUERY_TOO_LONG, otherwise the query passes; so a stripped length of
    exactly the minimum or the maximum passes (when minimum <= maximum), one
    less than the minimum is too short and one more than the maximum is too
    long.  A rejected query is answered at once by [thinking_capability]
    with the error code of the rejection: the orchestrator and the agent are
    not called, nothing is slept, only the metrics record the error. *)
Theorem validate_query_boundaries :
  forall (st : State S Agent) (query : pyval),
    let cfg := _config st in
    ((forall q, query = PyStr q -> q = []) ->
     error_code_of (validate_query cfg query) = Some (u "INVALID_QUERY"))
    /\ (forall q,
           query = PyStr q -> q <> [] ->
           let n := len (strip q) in
           ((n < min_query_length cfg)%Z ->
            error_code_of (validate_query cfg query)
            = Some (u "QUERY_TOO_SHORT"))
           /\ ((min_query_length cfg <= n)%Z -> (max_query_length cfg < n)%Z ->
               error_code_of (validate_query cfg query)
               = Some (u "QUERY_TOO_LONG"))
           /\ ((min_query_length cfg <= n <= max_query_length cfg)%Z ->
               validate_query cfg query = Ok tt)
           /\ (n = min_query_length cfg ->
               (min_query_length cfg <= max_query_length cfg)%Z ->
               validate_query cfg query = Ok tt)
           /\ (n = (min_query_length cfg - 1)%Z ->
               error_code_of (validate_query cfg query)
               = Some (u "QUERY_TOO_SHORT"))
           /\ (n = max_query_length cfg ->
               (min_query_length cfg <= max_query_length cfg)%Z ->
               validate_query cfg query = Ok tt)
           /\ (n = (max_query_length cfg + 1)%Z ->
               (min_query_length cfg <= max_query_length cfg + 1)%Z ->
               error_code_of (validate_query cfg query)
               = Some (u "QUERY_TOO_LONG")))
    /\ (forall e,
           validate_query cfg query = Raise e ->
           exists resp st' code,
             dispatch query st = (Ok resp, st')
             /\ error_code_of (validate_query cfg query) = Some code
             /\ dict_get resp (u "success") = Some (FBool false)
             /\ dict_get resp (u "error_code") = Some (FStr code)
             /\ ext st' = ext st
             /\ sleep_log st' = sleep_log st
             /\ _cached_agent st' = _cached_agent st
             /\ _metrics st'
                = snd (update_error (failure_text e) (_metrics st))).
Proof.
  intros st query cfg. split; [| split].
  - intros Hq. destruct query as [| [| c q] |]; try reflexivity.
    specialize (Hq _ eq_refl). discriminate.
  - intros q -> Hq n.
    destruct (validate_query_cases cfg Hq) as (Hshort & Hlong & Hok).
    fold n in Hshort, Hlong, Hok.
    repeat split; intros; first [apply Hshort | apply Hlong | apply Hok]; lia.
  - intros e Hv.
    destruct (validate_query_raises_jarvis _ _ Hv) as (message & code & ->).
    pose proof (body_rejects_invalid smart_tool_execution build_agent
                  wait_for_ainvoke time_time str_of_float query
                  (time_time (ext st)) st Hv) as Hbody.
    apply dispatch_when_body_raises in Hbody.
    eexists _, _, code. split; [exact Hbody |].
    fold cfg in Hv. rewrite Hv. cbn [error_code_of failure_response].
    repeat split; reflexivity.
Qed.

(** C7.  Whatever the orchestrator, the construction of the agent and the
    agent do, [thinking_capability] raises nothing: it returns a dictionary
    with a success flag and an execution time and, when the flag is false,
    an error message and an error code.  When the fallback is reached (the
    query is valid, the orchestrator gave no usable answer, the fallback is
    enabled and an executor is at hand), a call that exceeds the timeout
    gives the code EXECUTION_TIMEOUT and a blank answer gives the code
    EMPTY_RESPONSE. *)
Theorem dispatch_never_raises :
  forall (query : pyval) (st : State S Agent),
  exists resp st',
    dispatch query st = (Ok resp, st')
    /\ structured resp
    /\ (forall q r st1 a st2,
           query = PyStr q ->
           validate_query (_config st) query = Ok tt ->
           _try_orchestrator smart_tool_execution (strip q) st = (Ok r, st1) ->
           r = None \/ r = Some [] ->
           enable_fallback (_config st1) = true ->
           get_executor build_agent time_time st1 = (Ok a, st2) ->
           (forall msg s3,
               wait_for_ainvoke a (strip q) (timeout_seconds (_config st2))
                                (ext st2)
               = (Raise (TimeoutError msg), s3) ->
               dict_get resp (u "success") = Some (FBool false)
               /\ dict_get resp (u "error_code")
                  = Some (FStr (u "EXECUTION_TIMEOUT")))
           /\ (forall result s3,
                  wait_for_ainvoke a (strip q) (timeout_seconds (_config st2))
                                   (ext st2)
                  = (Ok result, s3) ->
                  blank_result result ->
                  dict_get resp (u "success") = Some (FBool false)
                  /\ dict_get resp (u "error_code")
                     = Some (FStr (u "EMPTY_RESPONSE")))).
Proof.
  intros query st.
  destruct (dispatch_returns_structured smart_tool_execution build_agent
              wait_for_ainvoke time_time str_of_float query st)
    as (resp & st' & Hd & Hs).
  exists resp, st'. split; [exact Hd | split; [exact Hs |]].
  intros q r st1 a st2 -> Hv Ho Hr Hf Hex. split.
  - intros msg s3 Hcall.
    destruct (try_langchain_agent_timeout build_agent wait_for_ainvoke
                time_time str_of_float (strip q) st1 Hex Hcall)
      as (message & Hl).
    pose proof (body_fallback_raises smart_tool_execution build_agent
                  wait_for_ainvoke time_time str_of_float q
                  (time_time (ext st)) st Hv Ho Hr Hf Hl) as Hbody.
    apply dispatch_when_body_raises in Hbody.
    rewrite Hbody in Hd. injection Hd as <- _. split; reflexivity.
  - intros result s3 Hcall Hblank.
    destruct (try_langchain_agent_blank build_agent wait_for_ainvoke
                time_time str_of_float (strip q) st1 Hex Hcall Hblank)
      as (message & Hl).
    pose proof (body_fallback_raises smart_tool_execution build_agent
                  wait_for_ainvoke time_time str_of_float q
                  (time_time (ext st)) st Hv Ho Hr Hf Hl) as Hbody.
    apply dispatch_when_body_raises in Hbody.
    rewrite Hbody in Hd. injection Hd as <- _. split; reflexivity.
Qed.

End DispatchTheorems.

(** C5 with the default limits: a query of one letter passes, a query of
    1001 letters is too long, and the empty query is answered at once. *)
Lemma validate_query_boundaries_witness :
  validate_query default_config (PyStr (u "a")) = Ok tt
  /\ error_code_of (validate_query default_config (PyStr (u "x" ++ repeat 120%N 1000)))
     = Some (u "QUERY_TOO_LONG")
  /\ exists resp st' code,
      demo_dispatch 0 1 (u "unused") (Ok (Other (u "unused"))) (PyStr [])
                    (demo_state default_config)
      = (Ok resp, st')
      /\ error_code_of (validate_query default_config (PyStr [])) = Some code
      /\ dict_get resp (u "success") = Some (FBool false)
      /\ dict_get resp (u "error_code") = Some (FStr code)
      /\ ext st' = ext (demo_state default_config)
      /\ sleep_log st' = sleep_log (demo_state default_config)
      /\ _cached_agent st' = _cached_agent (demo_state default_config)
      /\ _metrics st'
         = snd (update_error
                  (failure_text
                     (JarvisError (u "Query must be a non-empty string")
                                  (u "INVALID_QUERY") None))
                  (_metrics (demo_state default_config))).
Proof.
  split; [| split].
  - destruct (validate_query_boundaries
                (demo_orchestrator 0 1 (u "unused")) demo_build_agent
                (demo_agent (Ok (Other (u "unused")))) fst demo_str_of_float
                (demo_state default_config) (PyStr (u "a")))
      as (_ & H & _).
    destruct (H (u "a") eq_refl) as (_ & _ & _ & Hmin & _).
    + discriminate.
    + apply Hmin; [reflexivity | cbn; lia].
  - destruct (validate_query_boundaries
                (demo_orchestrator 0 1 (u "unused")) demo_build_agent
                (demo_agent (Ok (Other (u "unused")))) fst demo_str_of_float
                (demo_state default_config)
                (PyStr (u "x" ++ repeat 120%N 1000)))
      as (_ & H & _).
    destruct (H _ eq_refl) as (_ & _ & _ & _ & _ & _ & Hmax).
    + discriminate.
    + apply Hmax; [vm_compute; reflexivity | cbn; lia].
  - apply (proj2 (proj2 (validate_query_boundaries
                           (demo_orchestrator 0 1 (u "unused")) demo_build_agent
                           (demo_agent (Ok (Other (u "unused")))) fst
                           demo_str_of_float
                           (demo_state default_config) (PyStr [])))).
    reflexivity.
Defined.

(** C7 on a world where the orchestrator answers too little and the agent
    times out, or answers with blanks only. *)
Lemma dispatch_never_raises_witness :
  (exists resp st',
      demo_dispatch 0 1 (u "ok") (Raise (TimeoutError (u "")))
                    (PyStr (u "tell me something"))
                    (demo_state default_config)
      = (Ok resp, st')
      /\ structured resp
      /\ dict_get resp (u "success") = Some (FBool false)
      /\ dict_get resp (u "error_code") = Some (FStr (u "EXECUTION_TIMEOUT")))
  /\ (exists resp st',
         demo_dispatch 0 1 (u "ok") (Ok (Other (u "   ")))
                       (PyStr (u "tell me something"))
                       (demo_state default_config)
         = (Ok resp, st')
         /\ structured resp
         /\ dict_get resp (u "success") = Some (FBool false)
         /\ dict_get resp (u "error_code") = Some (FStr (u "EMPTY_RESPONSE"))).
Proof.
  split.
  - destruct (dispatch_never_raises
                (demo_orchestrator 0 1 (u "ok")) demo_build_agent
                (demo_agent (Raise (TimeoutError (u "")))) fst
                demo_str_of_float
                (PyStr (u "tell me something")) (demo_state default_config))
      as (resp & st' & Hd & Hs & Hfallback).
    exists resp, st'. split; [exact Hd | split; [exact Hs |]].
    eapply (proj1 (Hfallback (u "tell me something") None _ tt _
                             eq_refl eq_refl eq_refl (or_introl eq_refl)
                             eq_refl eq_refl)).
    reflexivity.
  - destruct (dispatch_never_raises
                (demo_orchestrator 0 1 (u "ok")) demo_build_agent
                (demo_agent (Ok (Other (u "   ")))) fst
                demo_str_of_float
                (PyStr (u "tell me something")) (demo_state default_config))
      as (resp & st' & Hd & Hs & Hfallback).
    exists resp, st'. split; [exact Hd | split; [exact Hs |]].
    eapply (proj2 (Hfallback (u "tell me something") None _ tt _
                             eq_refl eq_refl eq_refl (or_introl eq_refl)
                             eq_refl eq_refl)).
    + reflexivity.
    + right. exists (u "   "). split; [right; reflexivity | reflexivity].
Defined.

(** C5, as stated, fails.  With the default limits (1 and 1000) a query of
    one blank has exactly the minimum length and is rejected as too short;
    with a maximum of 3 the query ["ab   "] is longer than the maximum and
    passes; and the empty query, one shorter than the minimum, is rejected
    as INVALID_QUERY, not as QUERY_TOO_SHORT. *)
Lemma validate_query_counts_stripped_length :
  ~ (forall cfg q,
        len q = min_query_length cfg ->
        validate_query cfg (PyStr q) = Ok tt)
  /\ ~ (forall cfg q,
           (max_query_length cfg < len q)%Z ->
           error_code_of (validate_query cfg (PyStr q))
           = Some (u "QUERY_TOO_LONG"))
  /\ ~ (forall cfg q,
           len q = (min_query_length cfg - 1)%Z ->
           error_code_of (validate_query cfg (PyStr q))
           = Some (u "QUERY_TOO_SHORT")).
Proof.
  split; [| split]; intros H.
  - specialize (H default_config (u " ") eq_refl). discriminate H.
  - specialize (H (mkConfig (u "gemini-2.0-flash") 3 30.0 10 true 128 1 3
                            true true)
                  (u "ab   ") eq_refl).
    discriminate H.
  - specialize (H default_config [] eq_refl). discriminate H.
Qed.

(* ================================================================= *)
(** ** Sorting and dictionaries *)

Lemma eqb_eq (a b : str) : PyStr.eqb a b = true <-> a = b.
Proof.
  unfold PyStr.eqb. destruct (list_eq_dec N.eq_dec a b); split;
    congruence.
Qed.

Lemma Qltb_lt (x y : Q) : Qltb x y = true <-> (x < y)%Q.
Proof.
  unfold Qltb. rewrite negb_true_iff.
  destruct (Qle_bool y x) eqn:E.
  - apply Qle_bool_iff in E. split; [discriminate |].
    intros H. exfalso. apply (Qlt_not_le _ _ H E).
  - split; [intros _ | reflexivity].
    apply Qnot_le_lt. intros H. apply Qle_bool_iff in H. congruence.
Qed.

Section SortFacts.

Variable A : Type.
Variable key : A -> Q.

Lemma insert_desc_In (x y : A) (l : list A) :
  In y (insert_desc key x l) <-> y = x \/ In y l.
Proof.
  induction l as [| z l IH]; cbn.
  - intuition.
  - destruct (Qltb (key x) (key z)); cbn; rewrite ?IH; intuition.
Qed.

Lemma sort_desc_In (y : A) (l : list A) :
  In y (sort_desc key l) <-> In y l.
Proof.
  induction l as [| x l IH]; cbn; [reflexivity |].
  rewrite insert_desc_In, IH. intuition.
Qed.

Lemma insert_desc_sorted (x : A) (l : list A) :
  StronglySorted (key_desc key) l -> StronglySorted (key_desc key) (insert_desc key x l).
Proof.
  induction l as [| z l IH]; intros Hs; cbn.
  - constructor; constructor.
  - inversion Hs as [| ? ? Hl Hz]; subst.
    destruct (Qltb (key x) (key z)) eqn:E.
    + constructor; [auto |].
      apply Forall_forall. intros y Hy. apply insert_desc_In in Hy.
      destruct Hy as [-> | Hy].
      * apply Qltb_lt in E. unfold key_desc. now apply Qlt_le_weak.
      * rewrite Forall_forall in Hz. auto.
    + assert (Hzx : (key z <= key x)%Q).
      { apply Qnot_lt_le. intros H. apply Qltb_lt in H. congruence. }
      constructor; [exact Hs |].
      constructor; [exact Hzx |].
      apply Forall_forall. intros y Hy. rewrite Forall_forall in Hz.
      unfold key_desc in *. eapply Qle_trans; [apply Hz; exact Hy | exact Hzx].
Qed.

Lemma sort_desc_sorted (l : list A) : StronglySorted (key_desc key) (sort_desc key l).
Proof.
  induction l as [| x l IH]; cbn.
  - constructor.
  - now apply insert_desc_sorted.
Qed.

Lemma firstn_sorted (R : A -> A -> Prop) (n : nat) (l : list A) :
  StronglySorted R l -> StronglySorted R (firstn n l).
Proof.
  revert l. induction n as [| n IH]; intros l Hs; cbn.
  - constructor.
  - destruct l as [| x l]; [constructor |].
    inversion Hs as [| ? ? Hl Hx]; subst.
    constructor; [auto |].
    apply Forall_forall. intros y Hy. rewrite Forall_forall in Hx.
    apply Hx. revert Hy. clear. revert l.
    induction n as [| n IHn]; intros l; cbn; [tauto |].
    destruct l as [| z l]; cbn; [tauto |]. intuition.
Qed.

End SortFacts.

(* ================================================================= *)
(** ** analyze_query *)

Lemma keyword_score_counts (kws : list str) (query_lower : str) :
  (keyword_score kws query_lower
   == 0.3 * inject_Z (Z.of_nat (keyword_hits kws query_lower)))%Q.
Proof.
  unfold keyword_score, keyword_hits.
  assert (H : forall acc : Q,
             (fold_left
                (fun tool_score keyword =>
                   if contains keyword query_lower
                   then (tool_score + 0.3)%Q else tool_score)
                kws acc
              == acc
                 + 0.3 * inject_Z
                           (Z.of_nat
                              (length
                                 (filter (fun kw => contains kw query_lower)
                                         kws))))%Q).
  { induction kws as [| kw kws IH]; intros acc; cbn [fold_left filter].
    - cbn. ring.
    - destruct (contains kw query_lower); rewrite IH; [| reflexivity].
      cbn [length]. rewrite Nat2Z.inj_succ. unfold Z.succ.
      rewrite inject_Z_plus. ring. }
  rewrite H. ring.
Qed.

Lemma tool_score_formula (intents : list (str * Q)) (query : str)
      (metadata : ToolMetadata) :
  (tool_score intents query metadata
   == (0.3 * inject_Z (Z.of_nat (keyword_hits (keywords metadata) (lower query)))
       + 0.7 * intent_score intents (category metadata))
      * (inject_Z (priority metadata) / 10))%Q.
Proof.
  unfold tool_score, intent_score.
  destruct (dict_get intents (category_value (category metadata))) as [v |];
    rewrite keyword_score_counts.
  - assert (E : (10.0 == 10)%Q) by reflexivity. rewrite E. ring.
  - assert (E : (10.0 == 10)%Q) by reflexivity. rewrite E. ring.
Qed.

Lemma qualifying_tools_In (reg : Registry) (intents : list (str * Q))
      (query : str) (nm : str) (md : ToolMetadata) (s : Q) :
  In (nm, md, s) (qualifying_tools reg intents query)
  <-> In (nm, md) reg
      /\ s = tool_score intents query md
      /\ (min_confidence md <= s)%Q.
Proof.
  unfold qualifying_tools. rewrite in_flat_map. split.
  - intros ([nm' md'] & Hin & Hx). cbn [fst snd] in Hx.
    destruct (Qle_bool (min_confidence md') (tool_score intents query md'))
      eqn:E; [| contradiction].
    destruct Hx as [Hx | []]. injection Hx as -> -> <-.
    apply Qle_bool_iff in E. auto.
  - intros (Hin & -> & Hle). exists (nm, md). split; [exact Hin |].
    cbn [fst snd]. apply Qle_bool_iff in Hle. rewrite Hle. now left.
Qed.



(* ================================================================= *)
(** ** select_tools *)

Lemma ordered_pairs_snoc {A : Type} (R : A -> A -> Prop) (l : list A) (x : A) :
  ForallOrdPairs R l ->
  Forall (fun y => R y x) l ->
  ForallOrdPairs R (l ++ [x]).
Proof.
  induction 1 as [| a l Ha Hl IH]; intros Hx; cbn.
  - constructor; constructor.
  - inversion Hx as [| ? ? Hax Hlx]; subst.
    constructor; [| now apply IH].
    apply Forall_app. split; [exact Ha |]. constructor; [exact Hax | constructor].
Qed.

Lemma ordered_pairs_weaken {A : Type} (R R' : A -> A -> Prop) (l : list A) :
  (forall a b, R a b -> R' a b) ->
  ForallOrdPairs R l -> ForallOrdPairs R' l.
Proof.
  intros Himp. induction 1 as [| a l Ha Hl IH]; constructor; [| exact IH].
  eapply Forall_impl; [| exact Ha]. intros b. apply Himp.
Qed.

Lemma category_eqb_eq (a b : ToolCategory) : category_eqb a b = true <-> a = b.
Proof.
  unfold category_eqb. destruct (category_eq_dec a b); split; congruence.
Qed.

Lemma conflicts_with_false (metadata : ToolMetadata)
      (selected : list (str * ToolMetadata)) :
  conflicts_with metadata selected = false ->
  forall y, In y selected -> ~ In (fst y) (conflicts metadata).
Proof.
  unfold conflicts_with. intros H y Hy Hin.
  assert (E : existsb
                (fun conflict =>
                   existsb (PyStr.eqb conflict) (map fst selected))
                (conflicts metadata) = true).
  { apply existsb_exists. exists (fst y). split; [exact Hin |].
    apply existsb_exists. exists (fst y). split; [now apply in_map |].
    now apply eqb_eq. }
  congruence.
Qed.

Lemma select_take (tool_name : str) (metadata : ToolMetadata)
      (selected : list (str * ToolMetadata)) (used used' : list ToolCategory) :
  select_invariant selected used ->
  conflicts_with metadata selected = false ->
  (category metadata = UTILITIES
   \/ existsb (category_eqb (category metadata)) used = false) ->
  (forall c, In c used -> In c used') ->
  (category metadata <> UTILITIES -> In (category metadata) used') ->
  let selected' := selected ++ [(tool_name, metadata)] in
  length selected' <= 3
  /\ ForallOrdPairs no_category_clash selected'
  /\ ForallOrdPairs not_declared_by_later selected'
  /\ (forall t, In t selected' -> category (snd t) <> UTILITIES ->
                In (category (snd t)) used').
Proof.
  intros (Hlen & Hcat & Hconf & Hused) Hc Hnew Hincl Hadd selected'.
  unfold selected'. repeat split.
  - rewrite length_app. cbn. lia.
  - apply ordered_pairs_snoc; [exact Hcat |].
    apply Forall_forall. intros y Hy. unfold no_category_clash. cbn [snd].
    intros Heq. destruct Hnew as [Hu | Hn]; [congruence |].
    destruct (category_eq_dec (category (snd y)) UTILITIES) as [E | E];
      [exact E |].
    exfalso. specialize (Hused y Hy E).
    assert (Hex : existsb (category_eqb (category metadata)) used = true).
    { apply existsb_exists. exists (category (snd y)).
      split; [exact Hused |]. apply category_eqb_eq. congruence. }
    congruence.
  - apply ordered_pairs_snoc; [exact Hconf |].
    apply Forall_forall. intros y Hy. unfold not_declared_by_later.
    cbn [snd]. now apply (conflicts_with_false metadata selected).
  - intros t Ht Hnu. apply in_app_or in Ht. destruct Ht as [Ht | [<- | []]].
    + apply Hincl. now apply Hused.
    + cbn [snd] in *. now apply Hadd.
Qed.

Lemma select_loop_result (candidates : list (str * ToolMetadata * Q)) :
  forall selected used,
    select_invariant selected used ->
    select_result selected (select_loop candidates selected used) candidates.
Proof.
  induction candidates as [| [[tool_name metadata] score] rest IH];
    intros selected used Hinv.
  - cbn [select_loop]. destruct Hinv as (Hlen & Hcat & Hconf & _).
    repeat split; auto; [lia |].
    exists []. rewrite app_nil_r. split; [reflexivity | constructor].
  - assert (Hskip : select_result selected
                      (select_loop rest selected used)
                      ((tool_name, metadata, score) :: rest)).
    { destruct (IH selected used Hinv) as (H1 & H2 & H3 & extra & H4 & H5).
      repeat split; auto. exists extra. split; [exact H4 |].
      cbn [map]. now apply subseq_skip. }
    assert (Htake : forall used',
               conflicts_with metadata selected = false ->
               (category metadata = UTILITIES
                \/ existsb (category_eqb (category metadata)) used = false) ->
               (forall c, In c used -> In c used') ->
               (category metadata <> UTILITIES ->
                In (category metadata) used') ->
               select_result selected
                 (if 3 <=? length (selected ++ [(tool_name, metadata)])
                  then selected ++ [(tool_name, metadata)]
                  else select_loop rest
                         (selected ++ [(tool_name, metadata)]) used')
                 ((tool_name, metadata, score) :: rest)).
    { intros used' Hc Hnew Hincl Hadd.
      destruct (@select_take tool_name metadata selected used used'
                             Hinv Hc Hnew Hincl Hadd)
        as (Hlen & Hcat & Hconf & Hused).
      destruct (Nat.leb_spec 3 (length (selected ++ [(tool_name, metadata)])))
        as [Hfull | Hroom].
      - repeat split; auto.
        exists [(tool_name, metadata)]. split; [reflexivity |].
        cbn [map fst]. apply subseq_take. constructor.
      - destruct (IH (selected ++ [(tool_name, metadata)]) used')
          as (H1 & H2 & H3 & extra & H4 & H5).
        { repeat split; auto. }
        repeat split; auto.
        exists ((tool_name, metadata) :: extra). split.
        + rewrite H4, <- app_assoc. reflexivity.
        + cbn [map fst]. now apply subseq_take. }
    cbn [select_loop].
    destruct (conflicts_with metadata selected) eqn:Hc; [exact Hskip |].
    destruct (category_eqb (category metadata) UTILITIES) eqn:Hu.
    + apply category_eqb_eq in Hu.
      apply Htake; auto. intros Hn. congruence.
    + destruct (existsb (category_eqb (category metadata)) used) eqn:Hex;
        [exact Hskip |].
      apply Htake; auto.
      * intros c Hin. now right.
      * intros _. now left.
Qed.

(** C3.  For every analysis, the tools returned by [select_tools] are at
    most 3; no two of them have the same category unless it is UTILITIES;
    no two of them declare each other as a conflict (a selected tool never
    declares a tool selected before it); and they are taken from the
    matching tools in the order of that list, which [analyze_query] sorts
    by non-increasing score. *)
Theorem select_tools_invariants :
  forall analysis : Analysis,
    let selected := select_tools analysis in
    length selected <= 3
    /\ ForallOrdPairs no_category_clash selected
    /\ ForallOrdPairs (fun a b => ~ mutually_conflicting a b) selected
    /\ ForallOrdPairs not_declared_by_later selected
    /\ subseq selected (map fst (matching_tools analysis))
    /\ (forall reg query,
           StronglySorted by_score_desc
                          (matching_tools (analyze_query reg query))).
Proof.
  intros analysis. cbv zeta.
  destruct (select_loop_result (matching_tools analysis) (selected := [])
                               (used := []))
    as (Hlen & Hcat & Hconf & extra & Heq & Hsub).
  { repeat split; cbn; try lia; try constructor; intros t []. }
  fold (select_tools analysis) in Hlen, Hcat, Hconf, Heq.
  cbn [app] in Heq. subst extra.
  split; [exact Hlen |]. split; [exact Hcat |].
  split.
  { eapply ordered_pairs_weaken; [| exact Hconf].
    intros a b Hab [_ Hba]. exact (Hab Hba). }
  split; [exact Hconf |]. split; [exact Hsub |].
  intros reg query. cbn [analyze_query matching_tools].
  apply (firstn_sorted (R := by_score_desc)).
  exact (sort_desc_sorted score_of _).
Qed.

(* ================================================================= *)
(** ** create_execution_plan *)

Lemma add_prerequisites_order (reg : Registry) (prereqs : list str) :
  forall acc : list (str * ToolMetadata) * Q,
    map fst (fst (add_prerequisites reg prereqs acc))
    = rev (filter (is_registered reg) prereqs) ++ map fst (fst acc).
Proof.
  unfold add_prerequisites, is_registered.
  induction prereqs as [| p prereqs IH]; intros acc; cbn [fold_left filter].
  - reflexivity.
  - rewrite IH. destruct (dict_get reg p) as [md |]; [| reflexivity].
    cbn [fst map rev]. rewrite <- app_assoc. reflexivity.
Qed.

(** What [create_execution_plan] does with prerequisites: the order of the
    plan is the selection, unchanged, preceded by the registered
    prerequisites that are not selected, one entry for each declaration of
    such a prerequisite, the last declared first. *)
Lemma execution_order_shape (reg : Registry)
      (selected_tools : list (str * ToolMetadata)) (query : str) :
  execution_order (create_execution_plan reg selected_tools query)
  = rev (filter (is_registered reg) (prerequisite_tools selected_tools))
      ++ map fst selected_tools.
Proof.
  unfold create_execution_plan.
  pose proof (add_prerequisites_order reg (prerequisite_tools selected_tools)
                (selected_tools,
                 fold_left (fun t st => (t + estimated_time (snd st))%Q)
                           selected_tools 0%Q)) as H.
  destruct (add_prerequisites reg (prerequisite_tools selected_tools) _)
    as [sorted_tools time1].
  cbn [execution_order fst] in *. exact H.
Qed.

(** C2, evaluated on the initial registry.  [create_code_file] and
    [write_code] both declare [open_vscode_sandbox]: selected together, they
    get it planned twice.  And when [write_code] is selected before its
    prerequisite [open_vscode_sandbox], the plan keeps that order. *)
Theorem shared_prerequisite_is_planned_twice :
  let reg := initial_tool_registry in
  execution_order
    (create_execution_plan
       reg (registered reg "create_code_file" ++ registered reg "write_code")
       (u "create a python script"))
  = [ u "open_vscode_sandbox"; u "open_vscode_sandbox";
      u "create_code_file"; u "write_code" ]
  /\ execution_order
       (create_execution_plan
          reg
          (registered reg "write_code" ++ registered reg "open_vscode_sandbox")
          (u "write code"))
     = [ u "write_code"; u "open_vscode_sandbox" ].
Proof.
  cbv zeta. split; vm_compute; reflexivity.
Qed.

(* ================================================================= *)
(** ** execute_plan *)

Section ExecutionFacts.

Variable W : Type.
Variable run_import : list str -> M W unit.
Variable run_call : str -> list pyval -> M W pyval.
Variable loop_time : W -> Q.

Notation exec := (_execute_tool run_import run_call).
Notation step := (execute_step run_import run_call loop_time).

Lemma execute_step_returns (query : str) (st : ExecState W)
      (t : str * ToolMetadata) (v : pyval) (w1 : W) :
  exec (fst t) query (world st) = (Ok v, w1) ->
  world (step query st t) = w1
  /\ errors (results (step query st t)) = errors (results st)
  /\ success (results (step query st t)) = success (results st).
Proof.
  intros H. unfold execute_step. rewrite H. cbn. auto.
Qed.

Lemma execute_step_raises (query : str) (st : ExecState W)
      (t : str * ToolMetadata) (e : PyExc) (w1 : W) :
  exec (fst t) query (world st) = (Raise e, w1) ->
  world (step query st t) = w1
  /\ errors (results (step query st t))
     = errors (results st)
         ++ [u "Error executing " ++ fst t ++ u ": " ++ exc_str e]
  /\ success (results (step query st t)) = false.
Proof.
  intros H. unfold execute_step. rewrite H. cbn [world results errors success].
  auto.
Qed.

Lemma execute_steps (query : str) (tools : list (str * ToolMetadata)) :
  forall st : ExecState W,
    let run := outcomes exec (map fst tools) query (world st) in
    let st' := fold_left (step query) tools st in
    world st' = snd run
    /\ errors (results st') = errors (results st) ++ error_lines (fst run)
    /\ success (results st') = success (results st) && all_ok (fst run)
    /\ map fst (fst run) = map fst tools.
Proof.
  induction tools as [| t tools IH]; intros st; cbv zeta;
    cbn [map fold_left outcomes].
  - cbn. rewrite app_nil_r, andb_true_r. auto.
  - specialize (IH (step query st t)). cbv zeta in IH.
    destruct (exec (fst t) query (world st)) as [[v | e] w1] eqn:E.
    + destruct (execute_step_returns query st t E) as (Hw & He & Hs).
      rewrite Hw, He, Hs in IH.
      destruct (outcomes exec (map fst tools) query w1) as [os w2].
      cbn [fst snd map] in *. destruct IH as (H1 & H2 & H3 & H4).
      unfold error_lines, all_ok. cbn [flat_map forallb snd app].
      split; [exact H1 |]. split; [exact H2 |]. split; [exact H3 |].
      now rewrite H4.
    + destruct (execute_step_raises query st t E) as (Hw & He & Hs).
      rewrite Hw, He, Hs in IH.
      destruct (outcomes exec (map fst tools) query w1) as [os w2].
      cbn [fst snd map] in *. destruct IH as (H1 & H2 & H3 & H4).
      unfold error_lines, all_ok. cbn [flat_map forallb snd fst].
      split; [exact H1 |].
      split; [rewrite H2, <- app_assoc; reflexivity |].
      split; [rewrite H3, andb_false_r; reflexivity |].
      now rewrite H4.
Qed.

(** C4.  [execute_plan] calls [_execute_tool] once for every tool of the
    plan, in plan order, each call starting in the world the previous one
    left, whether or not an earlier call raised.  Every exception adds its
    text to [errors], in order; [success] is true exactly when no call
    raised. *)
Theorem execute_plan_runs_every_tool :
  forall (plan : ExecutionPlan) (query : str) (history : list UsageRecord)
         (w : W),
    let run := outcomes exec (map fst (tools plan)) query w in
    let out := execute_plan run_import run_call loop_time plan query history w in
    map fst (fst run) = map fst (tools plan)
    /\ snd out = snd run
    /\ errors (fst (fst out)) = error_lines (fst run)
    /\ success (fst (fst out)) = all_ok (fst run)
    /\ (success (fst (fst out)) = false
        <-> exists nm e, In (nm, Raise e) (fst run)).
Proof.
  intros plan query history w run out.
  destruct (execute_steps query (tools plan)
              (mkExecState (mkResult true [] 0 []) history w))
    as (H1 & H2 & H3 & H4).
  cbn [world results errors success app andb] in H1, H2, H3, H4.
  fold run in H1, H2, H3, H4.
  assert (Hs : success (fst (fst out)) = all_ok (fst run)) by exact H3.
  split; [exact H4 |]. split; [exact H1 |]. split; [exact H2 |].
  split; [exact Hs |].
  rewrite Hs. unfold all_ok. split.
  - intros Hf.
    destruct (forallb_forall
                (fun o : str * Result pyval =>
                   match snd o with Ok _ => true | Raise _ => false end)
                (fst run)) as [_ Hall].
    destruct (existsb (fun o : str * Result pyval =>
                         match snd o with Ok _ => false | Raise _ => true end)
                      (fst run)) eqn:Hex.
    + apply existsb_exists in Hex. destruct Hex as ([nm [v | e]] & Hin & Hr);
        [discriminate | eauto].
    + exfalso. rewrite Hall in Hf; [discriminate |].
      intros [nm [v | e]] Hin; cbn; [reflexivity |].
      assert (Hex' : existsb
                       (fun o : str * Result pyval =>
                          match snd o with Ok _ => false | Raise _ => true end)
                       (fst run) = true).
      { apply existsb_exists. exists (nm, Raise e). auto. }
      congruence.
  - intros (nm & e & Hin).
    destruct (forallb (fun o : str * Result pyval =>
                         match snd o with Ok _ => true | Raise _ => false end)
                      (fst run)) eqn:Hall; [| reflexivity].
    rewrite forallb_forall in Hall. specialize (Hall _ Hin). discriminate.
Qed.

End ExecutionFacts.

(** A plan whose second tool raises: the third tool is still called, the
    error is recorded and [success] is false. *)
Example execute_plan_continues_after_failure :
  let reg := initial_tool_registry in
  let plan :=
    create_execution_plan
      reg (registered reg "write_code" ++ registered reg "get_current_datetime")
      (u "write code") in
  let out :=
    execute_plan demo_import demo_call demo_loop_time plan (u "write code")
                 [] [] in
  execution_order plan
  = [ u "open_vscode_sandbox"; u "write_code"; u "get_current_datetime" ]
  /\ snd out
     = [ u "open_vscode_sandbox"; u "write_code"; u "get_current_datetime" ]
  /\ success (fst (fst out)) = false
  /\ errors (fst (fst out))
     = [ u "Error executing write_code: Failed to execute write_code: editor not responding" ].
Proof.
  cbv zeta.
  split; [vm_compute; reflexivity |].
  split; [vm_compute; reflexivity |].
  split; vm_compute; reflexivity.
Qed.

(* ================================================================= *)
(** ** classify_intent *)



Lemma pattern_strength_nonneg (n : nat) : (0 <= pattern_strength n)%Q.
Proof.
  unfold pattern_strength. apply Q.min_glb; [| discriminate].
  apply Qmult_le_0_compat; [| discriminate].
  change 0%Q with (inject_Z 0). rewrite <- Zle_Qle. lia.
Qed.


(** Filling a dictionary with entries of distinct keys appends them. *)
Lemma dict_set_fresh {V : Type} (d : list (str * V)) (k : str) (v : V) :
  ~ In k (map fst d) -> dict_set d k v = d ++ [(k, v)].
Proof.
  induction d as [| [k' v'] d IH]; intros Hk; cbn [dict_set app].
  - reflexivity.
  - cbn [map fst In] in Hk.
    destruct (PyStr.eqb k' k) eqn:E.
    + apply eqb_eq in E. tauto.
    + rewrite IH; [reflexivity | tauto].
Qed.

Lemma fill_distinct {X V : Type} (f : str * X -> bool) (h : str * X -> V)
      (l : list (str * X)) :
  NoDup (map fst l) ->
  forall acc : list (str * V),
    (forall k, In k (map fst l) -> ~ In k (map fst acc)) ->
    fold_left
      (fun d ip => if f ip then dict_set d (fst ip) (h ip) else d) l acc
    = acc ++ flat_map (fun ip => if f ip then [(fst ip, h ip)] else []) l.
Proof.
  induction l as [| ip l IH]; intros Hnd acc Hfresh; cbn [fold_left flat_map].
  - now rewrite app_nil_r.
  - cbn [map] in Hnd. inversion Hnd as [| ? ? Hip Hl]; subst.
    destruct (f ip).
    + rewrite dict_set_fresh by (apply Hfresh; now left).
      rewrite IH; [now rewrite <- app_assoc | exact Hl |].
      intros k Hk. rewrite map_app, in_app_iff. cbn [map fst In].
      intros [Hacc | [<- | []]].
      * apply (Hfresh k); [now right | exact Hacc].
      * contradiction.
    + cbn [app]. apply IH; [exact Hl |].
      intros k Hk. apply Hfresh. now right.
Qed.

Lemma distinct_names_NoDup (l : list str) :
  distinct_names l = true -> NoDup l.
Proof.
  induction l as [| x l IH]; cbn [distinct_names]; intros H.
  - constructor.
  - apply andb_true_iff in H. destruct H as [Hx Hl].
    constructor; [| now apply IH].
    intros Hin. apply negb_true_iff in Hx.
    assert (E : existsb (PyStr.eqb x) l = true).
    { apply existsb_exists. exists x. split; [exact Hin | now apply eqb_eq]. }
    congruence.
Qed.

Lemma intent_names_distinct : NoDup (map fst intent_patterns).
Proof.
  apply distinct_names_NoDup. vm_compute. reflexivity.
Qed.

Lemma score_intents_In (text : str) (c : str) (s : Q) :
  In (c, s) (score_intents text)
  <-> exists ps, In (c, ps) intent_patterns
                 /\ (0 < max_score_of ps text)%Q
                 /\ s = max_score_of ps text.
Proof.
  unfold score_intents.
  rewrite (fill_distinct
             (fun ip : str * list str => Qltb 0 (max_score_of (snd ip) text))
             (fun ip : str * list str => max_score_of (snd ip) text)
             intent_patterns intent_names_distinct []);
    [| intros k _ []].
  cbn [app]. rewrite in_flat_map. split.
  - intros ([c' ps] & Hin & Hx). cbn [fst snd] in Hx.
    destruct (Qltb 0 (max_score_of ps text)) eqn:E; [| contradiction].
    destruct Hx as [Hx | []]. injection Hx as -> <-.
    apply Qltb_lt in E. eauto.
  - intros (ps & Hin & Hpos & ->). exists (c, ps). split; [exact Hin |].
    cbn [fst snd]. apply Qltb_lt in Hpos. rewrite Hpos. now left.
Qed.

Lemma boost_In (text : str) (scores : list (str * Q)) (c : str) (s : Q) :
  In (c, s) (boost text scores)
  <-> exists s0, In (c, s0) scores
                 /\ s = if contains c text then Qmin (s0 + 0.2) 1.0 else s0.
Proof.
  unfold boost. rewrite in_map_iff. split.
  - intros ([c' s0] & Hx & Hin). cbn [fst snd] in Hx.
    destruct (contains c' text) eqn:E; injection Hx as -> <-;
      exists s0; rewrite E; auto.
  - intros (s0 & Hin & ->). exists (c, s0). cbn [fst snd].
    destruct (contains c text); auto.
Qed.







(* ================================================================= *)
(** ** The registry *)

Lemma eqb_refl (a : str) : PyStr.eqb a a = true.
Proof. now apply eqb_eq. Qed.

Lemma eqb_neq (a b : str) : PyStr.eqb a b = false <-> a <> b.
Proof.
  destruct (PyStr.eqb a b) eqn:E.
  - apply eqb_eq in E. split; [discriminate | congruence].
  - split; [| reflexivity]. intros _ H. apply eqb_eq in H. congruence.
Qed.

Lemma dict_get_set {V : Type} (d : list (str * V)) (k : str) (v : V)
      (k' : str) :
  dict_get (dict_set d k v) k'
  = if PyStr.eqb k k' then Some v else dict_get d k'.
Proof.
  induction d as [| [k0 v0] d IH]; cbn [dict_set dict_get].
  - reflexivity.
  - destruct (PyStr.eqb k0 k) eqn:E0; cbn [dict_get].
    + apply eqb_eq in E0. subst k0. destruct (PyStr.eqb k k'); reflexivity.
    + rewrite IH. destruct (PyStr.eqb k0 k') eqn:E1; [| reflexivity].
      apply eqb_eq in E1. subst k'. now rewrite (proj2 (eqb_neq k k0))
        by (apply eqb_neq in E0; congruence).
Qed.

Lemma dict_get_In {V : Type} (d : list (str * V)) (k : str) (v : V) :
  dict_get d k = Some v -> In (k, v) d.
Proof.
  induction d as [| [k0 v0] d IH]; cbn [dict_get]; [discriminate |].
  destruct (PyStr.eqb k0 k) eqn:E.
  - apply eqb_eq in E. intros H. injection H as ->. subst. now left.
  - intros H. right. now apply IH.
Qed.

Lemma dict_get_None {V : Type} (d : list (str * V)) (k : str) :
  dict_get d k = None <-> ~ In k (map fst d).
Proof.
  induction d as [| [k0 v0] d IH]; cbn [dict_get map fst In].
  - tauto.
  - destruct (PyStr.eqb k0 k) eqn:E.
    + apply eqb_eq in E. split; [discriminate | tauto].
    + apply eqb_neq in E. rewrite IH. tauto.
Qed.

Lemma dict_get_NoDup {V : Type} (d : list (str * V)) (k : str) (v : V) :
  NoDup (map fst d) -> In (k, v) d -> dict_get d k = Some v.
Proof.
  induction d as [| [k0 v0] d IH]; cbn [map fst dict_get]; intros Hnd Hin.
  - destruct Hin.
  - inversion Hnd as [| ? ? Hk0 Hd]; subst.
    destruct Hin as [Hin | Hin].
    + injection Hin as -> ->. now rewrite eqb_refl.
    + destruct (PyStr.eqb k0 k) eqn:E; [| now apply IH].
      apply eqb_eq in E. subst k0. exfalso. apply Hk0.
      change k with (fst (k, v)). now apply in_map.
Qed.

Lemma dict_set_keys {V : Type} (d : list (str * V)) (k : str) (v : V) :
  map fst (dict_set d k v)
  = match dict_get d k with
    | Some _ => map fst d
    | None => map fst d ++ [k]
    end.
Proof.
  induction d as [| [k0 v0] d IH]; cbn [dict_set dict_get map fst app].
  - reflexivity.
  - destruct (PyStr.eqb k0 k) eqn:E; cbn [map fst].
    + apply eqb_eq in E. now subst.
    + rewrite IH. now destruct (dict_get d k).
Qed.

(** [register_tool] and the lookup of a tool.  After a registration the
    name is bound to the new metadata and every other name is bound as
    before; a new name is added at the end of the registry, a name that
    was registered keeps its place. *)
Theorem register_tool_lookup :
  forall (reg : Registry) (tool_name : str) (metadata : ToolMetadata),
    (forall k,
        dict_get (register_tool reg tool_name metadata) k
        = if PyStr.eqb tool_name k then Some metadata else dict_get reg k)
    /\ dict_get (register_tool reg tool_name metadata) tool_name
       = Some metadata
    /\ map fst (register_tool reg tool_name metadata)
       = (if is_registered reg tool_name then map fst reg
          else map fst reg ++ [tool_name]).
Proof.
  intros reg tool_name metadata. unfold register_tool.
  split; [intros k; apply dict_get_set |].
  split; [rewrite dict_get_set; now rewrite eqb_refl |].
  rewrite dict_set_keys. unfold is_registered.
  now destruct (dict_get reg tool_name).
Qed.

Lemma register_tool_NoDup (reg : Registry) (tool_name : str)
      (metadata : ToolMetadata) :
  NoDup (map fst reg) ->
  NoDup (map fst (register_tool reg tool_name metadata)).
Proof.
  intros Hnd. unfold register_tool. rewrite dict_set_keys.
  destruct (dict_get reg tool_name) eqn:E; [exact Hnd |].
  apply dict_get_None in E.
  apply NoDup_app; [exact Hnd | repeat constructor; intros [] |].
  intros x Hx [<- | []]. contradiction.
Qed.

Lemma initial_names_distinct : NoDup (map fst initial_tool_registry).
Proof. apply distinct_names_NoDup. vm_compute. reflexivity. Qed.

Lemma register_all_NoDup (l : list (str * ToolMetadata)) :
  forall reg, NoDup (map fst reg) -> NoDup (map fst (register_all reg l)).
Proof.
  unfold register_all.
  induction l as [| t l IH]; intros reg Hnd; cbn [fold_left]; [exact Hnd |].
  apply IH. now apply register_tool_NoDup.
Qed.

(* ================================================================= *)
(** ** analyze_query: the tools listed *)

Section SortPermutation.

Variable A : Type.
Variable key : A -> Q.

Lemma insert_desc_perm (x : A) (l : list A) :
  Permutation (insert_desc key x l) (x :: l).
Proof.
  induction l as [| y l IH]; cbn [insert_desc]; [reflexivity |].
  destruct (Qltb (key x) (key y)); [| reflexivity].
  rewrite IH. apply perm_swap.
Qed.

Lemma sort_desc_perm (l : list A) : Permutation (sort_desc key l) l.
Proof.
  induction l as [| x l IH]; cbn [sort_desc fold_right]; [reflexivity |].
  fold (sort_desc key l). rewrite insert_desc_perm. now constructor.
Qed.

End SortPermutation.

Lemma firstn_incl {A : Type} (n : nat) (l : list A) (x : A) :
  In x (firstn n l) -> In x l.
Proof.
  intros H. rewrite <- (firstn_skipn n l). apply in_or_app. now left.
Qed.

Lemma firstn_NoDup {A : Type} (n : nat) (l : list A) :
  NoDup l -> NoDup (firstn n l).
Proof.
  intros H. rewrite <- (firstn_skipn n l) in H.
  exact (NoDup_app_remove_r _ _ H).
Qed.

Lemma qualifying_tools_names (reg : Registry) (intents : list (str * Q))
      (query : str) :
  NoDup (map fst reg) ->
  NoDup (tool_names (qualifying_tools reg intents query)).
Proof.
  unfold tool_names, qualifying_tools.
  induction reg as [| [nm md] reg IH]; cbn [map fst flat_map]; intros Hnd.
  - constructor.
  - inversion Hnd as [| ? ? Hnm Hreg]; subst. cbn [fst snd].
    destruct (Qle_bool (min_confidence md) (tool_score intents query md));
      cbn [app map fst]; [| now apply IH].
    constructor; [| now apply IH].
    intros Hin. apply Hnm. apply in_map_iff in Hin.
    destruct Hin as ([[nm' md'] s] & Heq & Hin). cbn [fst] in Heq. subst nm'.
    apply (qualifying_tools_In reg intents query nm md' s) in Hin.
    destruct Hin as (Hin & _). change nm with (fst (nm, md')).
    now apply in_map.
Qed.

(** The tools listed by [analyze_query].  Whatever was registered on top
    of the initial registry, no tool is listed twice, and every tool listed
    is registered under its name with the metadata listed. *)
Theorem matching_tools_are_registered_once :
  forall (registrations : list (str * ToolMetadata)) (query : str),
    let reg := register_all initial_tool_registry registrations in
    let listed := matching_tools (analyze_query reg query) in
    NoDup (tool_names listed)
    /\ (forall nm md s, In (nm, md, s) listed -> dict_get reg nm = Some md)
    /\ NoDup (map fst reg).
Proof.
  intros registrations query reg listed.
  assert (Hreg : NoDup (map fst reg))
    by (apply register_all_NoDup, initial_names_distinct).
  split; [| split; [| exact Hreg]].
  - unfold listed, tool_names. cbn [analyze_query matching_tools].
    rewrite <- firstn_map. apply firstn_NoDup.
    unfold ranked_tools.
    eapply Permutation_NoDup;
      [apply Permutation_map; symmetry; apply sort_desc_perm |].
    now apply qualifying_tools_names.
  - intros nm md s Hin. unfold listed in Hin.
    cbn [analyze_query matching_tools] in Hin. apply firstn_incl in Hin.
    unfold ranked_tools in Hin. apply sort_desc_In in Hin.
    apply qualifying_tools_In in Hin. destruct Hin as (Hin & _).
    now apply dict_get_NoDup.
Qed.

(* ================================================================= *)
(** ** analyze_query: the intents *)

Lemma max_score_of_le_1 (patterns : list str) (text : str) :
  (max_score_of patterns text <= 1)%Q.
Proof.
  unfold max_score_of.
  assert (H : forall m : Q,
             (m <= 1)%Q ->
             (fold_left
                (fun max_score pattern =>
                   let r := Re.compile pattern in
                   if Re.search r text
                   then Qmax max_score
                             (pattern_strength (Re.findall_count r text))
                   else max_score)
                patterns m <= 1)%Q).
  { induction patterns as [| p patterns IH]; intros m Hm; cbn [fold_left];
      [exact Hm |].
    cbv zeta. apply IH.
    destruct (Re.search (Re.compile p) text); [| exact Hm].
    apply Q.max_lub; [exact Hm |].
    unfold pattern_strength.
    eapply Qle_trans; [apply Q.le_min_r | discriminate]. }
  apply H. discriminate.
Qed.

Lemma classify_intent_In (query : str) (c : str) (s : Q) :
  In (c, s) (classify_intent query) ->
  In c (map fst intent_patterns) /\ (0 < s)%Q /\ (s <= 1)%Q.
Proof.
  unfold classify_intent. cbv zeta. intros Hin.
  apply sort_desc_In in Hin. apply boost_In in Hin.
  destruct Hin as (s0 & Hin & ->). apply score_intents_In in Hin.
  destruct Hin as (ps & Hps & Hpos & ->).
  split; [change c with (fst (c, ps)); now apply in_map |].
  pose proof (max_score_of_le_1 ps (normalize query)) as Hle.
  destruct (contains c (normalize query)); [| now split].
  split.
  - apply Q.min_glb_lt; [| reflexivity].
    apply Qlt_trans with (max_score_of ps (normalize query)); [exact Hpos |].
    rewrite <- (Qplus_0_r (max_score_of ps (normalize query))) at 1.
    apply Qplus_lt_r. reflexivity.
  - eapply Qle_trans; [apply Q.le_min_r | discriminate].
Qed.

(** The intents reported by [analyze_query].  Every score lies in (0, 1].
    With no intent the analysis reports [general] with confidence 0.5;
    otherwise it reports the first intent of the classifier, whose score
    is the largest. *)
Theorem analyze_query_primary_intent :
  forall (reg : Registry) (query : str),
    let a := analyze_query reg query in
    intents a = classify_intent query
    /\ (forall c s, In (c, s) (intents a) ->
                    (0 < s)%Q /\ (s <= 1)%Q /\ (s <= confidence a)%Q)
    /\ (0 < confidence a)%Q /\ (confidence a <= 1)%Q
    /\ (intents a = [] <->
        primary_intent a = u "general")
    /\ (intents a = [] -> confidence a = 0.5%Q)
    /\ (intents a <> [] ->
        In (primary_intent a, confidence a) (intents a)).
Proof.
  intros reg query a. unfold a. cbn [analyze_query intents primary_intent
                                     confidence].
  pose proof (classify_intent_In query) as Hin.
  assert (Hsorted : StronglySorted by_intent_desc (classify_intent query))
    by exact (sort_desc_sorted (@snd str Q) _).
  destruct (classify_intent query) as [| [k v] rest] eqn:E.
  - split; [reflexivity |]. split; [intros c s [] |].
    split; [reflexivity |]. split; [discriminate |].
    split; [tauto |]. split; [reflexivity | congruence].
  - split; [reflexivity |].
    destruct (Hin k v (or_introl eq_refl)) as (Hk & Hpos & Hle).
    split.
    { intros c s Hcs. destruct (Hin c s Hcs) as (_ & H0 & H1).
      split; [exact H0 |]. split; [exact H1 |].
      destruct Hcs as [Hcs | Hcs].
      - injection Hcs as _ <-. apply Qle_refl.
      - inversion Hsorted as [| ? ? _ Hall]; subst.
        rewrite Forall_forall in Hall. exact (Hall _ Hcs). }
    split; [exact Hpos |]. split; [exact Hle |].
    split.
    { split; [discriminate |]. intros Hg. exfalso. subst k.
      revert Hk. clear. vm_compute. intuition discriminate. }
    split; [discriminate |]. intros _. now left.
Qed.

Lemma category_without_intent (c : ToolCategory) (query : str) :
  has_intent_of_its_name c = false ->
  dict_get (classify_intent query) (category_value c) = None.
Proof.
  intros H. apply dict_get_None. intros Hin.
  apply in_map_iff in Hin. destruct Hin as ([k v] & Hk & Hin).
  cbn [fst] in Hk. subst k.
  apply classify_intent_In in Hin. destruct Hin as (Hin & _).
  unfold has_intent_of_its_name in H.
  assert (E : existsb (PyStr.eqb (category_value c))
                      (map fst intent_patterns) = true).
  { apply existsb_exists. exists (category_value c).
    split; [exact Hin | apply eqb_refl]. }
  congruence.
Qed.

(** Categories without an intent.  The categories [FILE_MANAGEMENT] and
    [UTILITIES] are the two whose value is not the name of an intent of the
    classifier, so the score of a tool of these categories never has an
    intent term: it is 0.3 for every keyword hit, times priority / 10. *)
Theorem score_without_intent_term :
  forall (query : str) (md : ToolMetadata),
    (forall c, has_intent_of_its_name c = false
               <-> c = FILE_MANAGEMENT \/ c = UTILITIES)
    /\ (category md = FILE_MANAGEMENT \/ category md = UTILITIES ->
        (tool_score (classify_intent query) query md
         == 0.3 * inject_Z (Z.of_nat (keyword_hits (keywords md) (lower query)))
            * (inject_Z (priority md) / 10))%Q).
Proof.
  intros query md. split.
  - intros c. split.
    + destruct c; vm_compute; intros H; try discriminate H; tauto.
    + intros [-> | ->]; vm_compute; reflexivity.
  - intros Hc.
    assert (Hno : has_intent_of_its_name (category md) = false)
      by (destruct Hc as [-> | ->]; vm_compute; reflexivity).
    rewrite tool_score_formula. unfold intent_score.
    rewrite (category_without_intent _ query Hno). ring.
Qed.

(* ================================================================= *)
(** ** select_tools: the first choice *)

Lemma conflicts_with_nothing (metadata : ToolMetadata) :
  conflicts_with metadata [] = false.
Proof.
  unfold conflicts_with. cbn [map].
  induction (conflicts metadata) as [| c l IH]; cbn [existsb]; [reflexivity |].
  exact IH.
Qed.

Lemma select_loop_prefix (candidates : list (str * ToolMetadata * Q)) :
  forall selected used,
  exists more, select_loop candidates selected used = selected ++ more.
Proof.
  induction candidates as [| [[nm md] s] rest IH]; intros selected used;
    cbn [select_loop].
  - exists []. now rewrite app_nil_r.
  - destruct (conflicts_with md selected); [apply IH |].
    cbv zeta.
    assert (Htake : forall used',
               exists more,
                 (if 3 <=? length (selected ++ [(nm, md)])
                  then selected ++ [(nm, md)]
                  else select_loop rest (selected ++ [(nm, md)]) used')
                 = selected ++ more).
    { intros used'. destruct (3 <=? length (selected ++ [(nm, md)])).
      - now exists [(nm, md)].
      - destruct (IH (selected ++ [(nm, md)]) used') as [more ->].
        exists ((nm, md) :: more). now rewrite <- app_assoc. }
    destruct (category_eqb (category md) UTILITIES); [apply Htake |].
    destruct (existsb (category_eqb (category md)) used);
      [apply IH | apply Htake].
Qed.

Lemma select_tools_first (analysis : Analysis) (nm : str)
      (md : ToolMetadata) (s : Q) (rest : list (str * ToolMetadata * Q)) :
  matching_tools analysis = (nm, md, s) :: rest ->
  exists more, select_tools analysis = (nm, md) :: more.
Proof.
  intros E. unfold select_tools. rewrite E. cbn [select_loop].
  rewrite conflicts_with_nothing. cbv zeta. cbn [app length existsb].
  change (3 <=? 1) with false. cbv iota.
  assert (H : forall used,
             exists more,
               select_loop rest [(nm, md)] used = (nm, md) :: more).
  { intros used. destruct (select_loop_prefix rest [(nm, md)] used)
      as [more ->]. now exists more. }
  destruct (category_eqb (category md) UTILITIES); apply H.
Qed.

(** The best match is always taken.  The first tool selected by
    [select_tools] is the first of the matching tools, the one of the
    highest score; the selection is empty only when nothing matched. *)
Theorem select_tools_takes_the_best :
  forall analysis : Analysis,
    hd_error (select_tools analysis)
    = option_map fst (hd_error (matching_tools analysis))
    /\ (select_tools analysis = [] <-> matching_tools analysis = []).
Proof.
  intros analysis.
  destruct (matching_tools analysis) as [| [[nm md] s] rest] eqn:E.
  - unfold select_tools. rewrite E. cbn. tauto.
  - destruct (select_tools_first analysis E) as [more ->].
    cbn [hd_error option_map fst]. split; [reflexivity |].
    split; discriminate.
Qed.

(* ================================================================= *)
(** ** create_execution_plan: the plan *)

Lemma total_app (l1 l2 : list Q) : (total (l1 ++ l2) == total l1 + total l2)%Q.
Proof.
  unfold total. induction l1 as [| x l1 IH]; cbn [app fold_right].
  - ring.
  - rewrite IH. ring.
Qed.

Lemma total_rev (l : list Q) : (total (rev l) == total l)%Q.
Proof.
  induction l as [| x l IH]; cbn [rev]; [reflexivity |].
  rewrite total_app, IH. unfold total. cbn [fold_right]. ring.
Qed.

Lemma selected_time (selected : list (str * ToolMetadata)) :
  forall acc : Q,
    (fold_left (fun t st => (t + estimated_time (snd st))%Q) selected acc
     == acc + total_estimated_time selected)%Q.
Proof.
  unfold total_estimated_time, total.
  induction selected as [| t selected IH]; intros acc;
    cbn [fold_left map fold_right].
  - ring.
  - rewrite IH. ring.
Qed.

Lemma add_prerequisites_tools (reg : Registry) (prereqs : list str) :
  forall acc : list (str * ToolMetadata) * Q,
    fst (add_prerequisites reg prereqs acc)
    = rev (registered_entries reg prereqs) ++ fst acc
    /\ (snd (add_prerequisites reg prereqs acc)
        == snd acc + total_estimated_time (registered_entries reg prereqs))%Q.
Proof.
  unfold add_prerequisites, registered_entries, total_estimated_time.
  induction prereqs as [| p prereqs IH]; intros acc;
    cbn [fold_left flat_map].
  - cbn. split; [reflexivity | unfold total; cbn; ring].
  - destruct (dict_get reg p) as [md |].
    + destruct (IH ((p, md) :: fst acc, (snd acc + estimated_time md)%Q))
        as [H1 H2].
      split.
      * rewrite H1. cbn [fst app rev]. now rewrite <- app_assoc.
      * rewrite H2. cbn [snd app map]. unfold total. cbn [fold_right]. ring.
    + cbn [app]. apply IH.
Qed.

Lemma prerequisite_tools_In (selected : list (str * ToolMetadata))
      (p : str) :
  In p (prerequisite_tools selected)
  <-> exists t, In t selected /\ In p (prerequisites (snd t))
                /\ ~ In p (map fst selected).
Proof.
  unfold prerequisite_tools, missing_prerequisites.
  rewrite in_flat_map. split.
  - intros (t & Ht & Hp). apply filter_In in Hp. destruct Hp as [Hp Hn].
    exists t. split; [exact Ht |]. split; [exact Hp |].
    intros Hin. apply negb_true_iff in Hn.
    assert (E : existsb (PyStr.eqb p) (map fst selected) = true).
    { apply existsb_exists. exists p. split; [exact Hin | apply eqb_refl]. }
    congruence.
  - intros (t & Ht & Hp & Hn). exists t. split; [exact Ht |].
    apply filter_In. split; [exact Hp |]. apply negb_true_iff.
    destruct (existsb (PyStr.eqb p) (map fst selected)) eqn:E;
      [| reflexivity].
    apply existsb_exists in E. destruct E as (x & Hx & Heq).
    apply eqb_eq in Heq. subst x. contradiction.
Qed.

(** The plan made by [create_execution_plan].  The selected tools are
    kept, in their order, at the end of the plan.  What stands before them
    are registry entries of prerequisites that a selected tool declares and
    that are not selected, the last collected first; a prerequisite that is
    not registered is left out, although [requires_prerequisites] is set
    for it too.  The estimated time is the sum over the tools of the plan,
    and [has_conflicts] is never set. *)
Theorem create_execution_plan_shape :
  forall (reg : Registry) (selected : list (str * ToolMetadata))
         (query : str),
    let plan := create_execution_plan reg selected query in
    let added := registered_entries reg (prerequisite_tools selected) in
    tools plan = rev added ++ selected
    /\ execution_order plan = map fst (tools plan)
    /\ (plan_estimated_time plan == total_estimated_time (tools plan))%Q
    /\ (forall p md,
           In (p, md) added ->
           dict_get reg p = Some md
           /\ ~ In p (map fst selected)
           /\ exists t, In t selected /\ In p (prerequisites (snd t)))
    /\ (requires_prerequisites plan = true
        <-> exists t p, In t selected /\ In p (prerequisites (snd t))
                        /\ ~ In p (map fst selected))
    /\ has_conflicts plan = false.
Proof.
  intros reg selected query plan added. unfold plan, create_execution_plan.
  destruct (add_prerequisites_tools reg (prerequisite_tools selected)
              (selected,
               fold_left (fun t st => (t + estimated_time (snd st))%Q)
                         selected 0%Q)) as [Htools Htime].
  destruct (add_prerequisites reg (prerequisite_tools selected) _)
    as [sorted_tools time1].
  cbn [fst snd] in Htools, Htime.
  cbn [tools execution_order plan_estimated_time requires_prerequisites
       has_conflicts].
  fold added in Htools, Htime.
  split; [exact Htools |]. split; [reflexivity |].
  split.
  { rewrite Htime, selected_time, Htools. unfold total_estimated_time.
    rewrite map_app, total_app, map_rev, total_rev. ring. }
  split.
  { intros p md Hin. unfold added, registered_entries in Hin.
    apply in_flat_map in Hin. destruct Hin as (p' & Hp' & Hin).
    destruct (dict_get reg p') as [md' |] eqn:E; [| destruct Hin].
    destruct Hin as [Hin | []]. injection Hin as -> ->.
    split; [exact E |].
    apply prerequisite_tools_In in Hp'. destruct Hp' as (t & Ht & Hp & Hn).
    split; [exact Hn | eauto]. }
  split; [| reflexivity].
  split.
  - intros H. destruct (prerequisite_tools selected) as [| p l] eqn:E;
      [discriminate |].
    assert (Hp : In p (prerequisite_tools selected))
      by (rewrite E; now left).
    apply prerequisite_tools_In in Hp. destruct Hp as (t & Ht & Hp & Hn).
    eauto.
  - intros (t & p & Ht & Hp & Hn).
    assert (Hin : In p (prerequisite_tools selected))
      by (apply prerequisite_tools_In; eauto).
    destruct (prerequisite_tools selected); [destruct Hin | reflexivity].
Qed.

(* ================================================================= *)
(** ** execute_plan: what is recorded *)

Lemma last_result_from (os : list (str * Result pyval)) (nm : str) :
  forall acc : option pyval,
    fold_left
      (fun acc o =>
         match snd o with
         | Ok v => if PyStr.eqb (fst o) nm then Some v else acc
         | Raise _ => acc
         end)
      os acc
    = match last_result os nm with
      | Some v => Some v
      | None => acc
      end.
Proof.
  unfold last_result.
  induction os as [| [n r] os IH]; intros acc; cbn [fold_left fst snd].
  - reflexivity.
  - rewrite IH. symmetry. rewrite IH.
    destruct (fold_left _ os None) as [v |]; [reflexivity |].
    destruct r as [v | e]; [| reflexivity].
    now destruct (PyStr.eqb n nm).
Qed.

Section RecordFacts.

Variable W : Type.
Variable run_import : list str -> M W unit.
Variable run_call : str -> list pyval -> M W pyval.
Variable loop_time : W -> Q.

Notation exec := (_execute_tool run_import run_call).
Notation step := (execute_step run_import run_call loop_time).

Lemma execute_step_ok (query : str) (st : ExecState W)
      (t : str * ToolMetadata) (v : pyval) (w1 : W) :
  exec (fst t) query (world st) = (Ok v, w1) ->
  step query st t
  = {| results :=
         {| success := success (results st);
            tool_results := dict_set (tool_results (results st)) (fst t) v;
            execution_time := execution_time (results st);
            errors := errors (results st) |};
       tool_usage_history :=
         tool_usage_history st ++ [mkUsage (fst t) query true (loop_time w1)];
       world := w1 |}.
Proof. intros H. unfold execute_step. now rewrite H. Qed.

Lemma execute_step_failed (query : str) (st : ExecState W)
      (t : str * ToolMetadata) (e : PyExc) (w1 : W) :
  exec (fst t) query (world st) = (Raise e, w1) ->
  tool_usage_history (step query st t) = tool_usage_history st
  /\ tool_results (results (step query st t)) = tool_results (results st)
  /\ world (step query st t) = w1.
Proof. intros H. unfold execute_step. rewrite H. cbn. auto. Qed.

Lemma execute_steps_records (query : str)
      (tools : list (str * ToolMetadata)) :
  forall st : ExecState W,
    let run := outcomes exec (map fst tools) query (world st) in
    let st' := fold_left (step query) tools st in
    exists records,
      tool_usage_history st' = tool_usage_history st ++ records
      /\ map usage_tool records = ok_names (fst run)
      /\ Forall (fun r => usage_query r = query /\ usage_success r = true)
                records
      /\ (forall nm,
             dict_get (tool_results (results st')) nm
             = match last_result (fst run) nm with
               | Some v => Some v
               | None => dict_get (tool_results (results st)) nm
               end).
Proof.
  induction tools as [| t tools IH]; intros st; cbv zeta;
    cbn [map fold_left outcomes].
  - exists []. cbn. rewrite app_nil_r. repeat split; auto.
  - destruct (IH (step query st t)) as (records & Hh & Hn & Hq & Hr).
    clear IH.
    destruct (exec (fst t) query (world st)) as [[v | e] w1] eqn:E.
    + rewrite (execute_step_ok query st t E) in Hh, Hn, Hr.
      cbn [world results tool_results tool_usage_history] in Hh, Hn, Hr.
      rewrite (execute_step_ok query st t E).
      destruct (outcomes exec (map fst tools) query w1) as [os w2].
      cbn [fst snd] in *.
      exists (mkUsage (fst t) query true (loop_time w1) :: records).
      split; [rewrite Hh, <- app_assoc; reflexivity |].
      split; [cbn [map usage_tool ok_names flat_map snd fst app];
              fold (ok_names os); now rewrite Hn |].
      split; [constructor; [now split | exact Hq] |].
      intros nm. rewrite Hr. unfold last_result at 2.
      cbn [fold_left fst snd]. rewrite last_result_from.
      destruct (last_result os nm); [reflexivity |].
      rewrite dict_get_set. now destruct (PyStr.eqb (fst t) nm).
    + destruct (execute_step_failed query st t E) as (E1 & E2 & E3).
      rewrite E1, E2, E3 in *.
      destruct (outcomes exec (map fst tools) query w1) as [os w2].
      cbn [fst snd] in *.
      exists records.
      split; [exact Hh |]. split; [exact Hn |]. split; [exact Hq |].
      intros nm. rewrite Hr. unfold last_result at 2.
      cbn [fold_left fst snd]. reflexivity.
Qed.

Lemma execute_plan_history (plan : ExecutionPlan) (query : str)
      (history : list UsageRecord) (w : W) :
  exists records,
    snd (fst (execute_plan run_import run_call loop_time plan query
                           history w))
    = history ++ records.
Proof.
  destruct (execute_steps_records query (tools plan)
              (mkExecState (mkResult true [] 0 []) history w))
    as (records & Hh & _).
  exists records. exact Hh.
Qed.

(** What [execute_plan] records.  The usage history grows by one record
    for every call that returned, in the order of the calls, each with the
    query and the flag [success] set; a call that raised leaves no record.
    [tool_results] binds a name to the value its last successful call
    returned.  The execution time is the time of the event loop at the
    end less the time at the start. *)
Theorem execute_plan_records :
  forall (plan : ExecutionPlan) (query : str) (history : list UsageRecord)
         (w : W),
    let run := outcomes exec (map fst (tools plan)) query w in
    let out := execute_plan run_import run_call loop_time plan query history w in
    exists records,
      snd (fst out) = history ++ records
      /\ map usage_tool records = ok_names (fst run)
      /\ Forall (fun r => usage_query r = query /\ usage_success r = true)
                records
      /\ (forall nm,
             dict_get (tool_results (fst (fst out))) nm
             = last_result (fst run) nm)
      /\ execution_time (fst (fst out)) = (loop_time (snd out) - loop_time w)%Q.
Proof.
  intros plan query history w run out.
  destruct (execute_steps_records query (tools plan)
              (mkExecState (mkResult true [] 0 []) history w))
    as (records & Hh & Hn & Hq & Hr).
  cbn [world results tool_usage_history tool_results dict_get] in Hh, Hn, Hr.
  exists records. unfold out, execute_plan. cbn [fst snd tool_results
                                                  execution_time].
  split; [exact Hh |]. split; [exact Hn |]. split; [exact Hq |].
  split; [| reflexivity].
  intros nm. rewrite Hr. fold run. now destruct (last_result (fst run) nm).
Qed.

End RecordFacts.

(* ================================================================= *)
(** ** _execute_tool: the names of no branch *)


Section DispatchByName.

Variable W : Type.
Variable run_import : list str -> M W unit.
Variables run_call run_call' : str -> list pyval -> M W pyval.



End DispatchByName.


(* ================================================================= *)
(** ** process_query and smart_tool_execution *)

Section ProcessFacts.

Variable W : Type.
Variable run_import : list str -> M W unit.
Variable run_call : str -> list pyval -> M W pyval.
Variable loop_time : W -> Q.

Notation exec := (_execute_tool run_import run_call).
Notation process := (process_query run_import run_call loop_time).
Notation run_plan := (execute_plan run_import run_call loop_time).

(** The two ways through [process_query]. *)
Lemma process_query_cases (query : str) (self : ToolOrchestrator) (w : W) :
  let analysis := analyze_query (tool_registry self) query in
  let plan :=
    create_execution_plan (tool_registry self) (select_tools analysis)
                          query in
  let out := run_plan plan query (usage_history self) w in
  process query (self, w)
  = match matching_tools analysis with
    | [] => (Ok not_sure_reply, (self, w))
    | _ :: _ =>
        (Ok (format_results (fst (fst out))),
         (mkOrchestrator (tool_registry self) (snd (fst out)), snd out))
    end.
Proof.
  intros analysis plan out. unfold process_query, try_except.
  cbn [fst snd]. fold analysis.
  destruct (matching_tools analysis) as [| [[nm md] s] rest] eqn:E.
  - unfold not_sure_reply. reflexivity.
  - destruct (select_tools_first analysis E) as [more Hsel].
    fold plan. unfold out. rewrite Hsel at 1. cbv beta iota.
    destruct (run_plan plan query (usage_history self) w) as [[r h] w'].
    cbn [fst snd]. reflexivity.
Qed.

Lemma format_results_cases (r : ExecutionResult) :
  format_results r
  = if success r
    then match tool_outputs (tool_results r) with
         | [] => completed_reply
         | (_ :: _) as outputs => join (u "\n\n") outputs
         end
    else failed_reply (errors r).
Proof.
  unfold format_results, completed_reply, failed_reply.
  destruct (success r); reflexivity.
Qed.

(** The reply of [process_query].  The method never raises.  When no tool
    matches it answers that it is not sure, and touches nothing.
    Otherwise the tools of the plan are all called, in order; if none
    raised, the reply is the non-empty string results joined by the four
    characters backslash, n, backslash, n, or the sentence that the task is
    completed when there is none; if one raised, the reply is the heading
    and the first three error lines, joined by backslash, n.  The reply
    that no appropriate tool was found is never given: the selection is not
    empty when something matched.  The registry is left as it was. *)
Theorem process_query_reply :
  forall (query : str) (self : ToolOrchestrator) (w : W),
    let analysis := analyze_query (tool_registry self) query in
    let plan :=
      create_execution_plan (tool_registry self) (select_tools analysis)
                            query in
    let run := outcomes exec (map fst (tools plan)) query w in
    let out := run_plan plan query (usage_history self) w in
    exists reply self' w',
      process query (self, w) = (Ok reply, (self', w'))
      /\ tool_registry self' = tool_registry self
      /\ (matching_tools analysis = [] ->
          reply = not_sure_reply /\ self' = self /\ w' = w)
      /\ (matching_tools analysis <> [] ->
          select_tools analysis <> []
          /\ w' = snd run
          /\ usage_history self' = snd (fst out)
          /\ (all_ok (fst run) = true ->
              reply = match tool_outputs (tool_results (fst (fst out))) with
                      | [] => completed_reply
                      | (_ :: _) as outputs => join (u "\n\n") outputs
                      end)
          /\ (all_ok (fst run) = false ->
              reply = failed_reply (error_lines (fst run)))).
Proof.
  intros query self w analysis plan run out.
  pose proof (process_query_cases query self w) as Hp. cbv zeta in Hp.
  fold analysis plan out in Hp. rewrite Hp. clear Hp.
  destruct (matching_tools analysis) as [| t rest] eqn:E.
  - exists not_sure_reply, self, w.
    split; [reflexivity |]. split; [reflexivity |].
    split; [auto | congruence].
  - eexists _, _, _. split; [reflexivity |].
    cbn [tool_registry usage_history]. split; [reflexivity |].
    split; [discriminate |]. intros _.
    split.
    { destruct t as [[nm md] s].
      destruct (select_tools_first analysis E) as [more ->]. discriminate. }
    destruct (execute_steps run_import run_call loop_time query (tools plan)
                (mkExecState (mkResult true [] 0 []) (usage_history self) w))
      as (Hw & He & Hs & _).
    cbn [world results errors success app andb] in Hw, He, Hs.
    fold run in Hw, He, Hs.
    assert (Hsucc : success (fst (fst out)) = all_ok (fst run)) by exact Hs.
    assert (Herr : errors (fst (fst out)) = error_lines (fst run))
      by exact He.
    split; [exact Hw |]. split; [reflexivity |].
    rewrite format_results_cases, Hsucc, Herr.
    split; intros ->; reflexivity.
Qed.

Notation smart := (smart_tool_execution run_import run_call loop_time).

(** The shared orchestrator.  [smart_tool_execution] never raises.  The
    first call creates the orchestrator with the initial registry; every
    call runs [process_query] on the orchestrator the module holds and
    leaves it there, with the registry it had and a usage history that has
    only grown. *)
Theorem smart_tool_execution_keeps_the_orchestrator :
  forall (query : str) (g : option ToolOrchestrator) (w : W),
    let before := match g with
                  | Some orchestrator => orchestrator
                  | None => new_orchestrator
                  end in
    exists reply after w',
      smart query (g, w) = (Ok reply, (Some after, w'))
      /\ process query (before, w) = (Ok reply, (after, w'))
      /\ tool_registry after = tool_registry before
      /\ (g = None -> tool_registry after = initial_tool_registry)
      /\ exists records,
           usage_history after = usage_history before ++ records.
Proof.
  intros query g w before.
  assert (Hsmart : smart query (g, w)
                   = let '(r, (o', w')) := process query (before, w) in
                     (r, (Some o', w'))).
  { unfold smart_tool_execution, bind, get_orchestrator. cbn [fst snd].
    unfold before. destruct g as [o |]; reflexivity. }
  rewrite Hsmart. clear Hsmart.
  pose proof (process_query_cases query before w) as Hp. cbv zeta in Hp.
  rewrite Hp. clear Hp.
  set (plan := create_execution_plan
                 (tool_registry before)
                 (select_tools (analyze_query (tool_registry before) query))
                 query).
  destruct (matching_tools (analyze_query (tool_registry before) query)).
  - exists not_sure_reply, before, w.
    split; [reflexivity |]. split; [reflexivity |]. split; [reflexivity |].
    split; [intros ->; reflexivity |].
    exists []. now rewrite app_nil_r.
  - eexists _, _, _. split; [reflexivity |]. split; [reflexivity |].
    cbn [tool_registry usage_history]. split; [reflexivity |].
    split; [intros ->; reflexivity |].
    destruct (execute_plan_history run_import run_call loop_time plan query
                (usage_history before) w) as (records & Hh).
    exists records. exact Hh.
Qed.

End ProcessFacts.

(* ================================================================= *)
(** ** The metrics and the success rate *)

Section CounterFacts.

Lemma update_success_returns (t : Q) (method : str) (m : PerformanceMetrics) :
  (0 <= total_queries m)%Z -> fst (update_success t method m) = Ok tt.
Proof.
  intros Hnn. unfold update_success.
  destruct (Z.eqb_spec (total_queries m + 1) 0) as [E | _]; [lia |].
  destruct (PyStr.eqb method (u "orchestrator")); reflexivity.
Qed.

Lemma apply_op_nonneg {S Agent : Type} (st : State S Agent)
      (op : metrics_op) :
  metrics_invariant (_metrics st) -> counters_nonneg (_metrics st) ->
  metrics_invariant (_metrics (apply_op st op))
  /\ counters_nonneg (_metrics (apply_op st op)).
Proof.
  intros [Htot Hsucc] [H1 H2]. destruct op as [t method | e |];
    cbn [apply_op]; unfold on_metrics, reset_performance_metrics, modify.
  - unfold update_success.
    destruct (Z.eqb_spec (total_queries (_metrics st) + 1) 0) as [E | _];
      [lia |].
    destruct (PyStr.eqb method (u "orchestrator")); cbn;
      unfold metrics_invariant, counters_nonneg; cbn; lia.
  - unfold update_error; cbn.
    unfold metrics_invariant, counters_nonneg; cbn; lia.
  - cbn. unfold metrics_invariant, counters_nonneg; cbn; lia.
Qed.

Lemma run_ops_nonneg {S Agent : Type} (ops : list metrics_op) :
  forall st : State S Agent,
    metrics_invariant (_metrics st) -> counters_nonneg (_metrics st) ->
    metrics_invariant (_metrics (fold_left apply_op ops st))
    /\ counters_nonneg (_metrics (fold_left apply_op ops st)).
Proof.
  induction ops as [| op ops IH]; intros st Hinv Hnn; cbn [fold_left].
  - now split.
  - destruct (apply_op_nonneg st op Hinv Hnn) as [H1 H2]. now apply IH.
Qed.

Lemma success_rate_range (m : PerformanceMetrics) :
  metrics_invariant m -> counters_nonneg m ->
  (0 <= get_success_rate m)%Q /\ (get_success_rate m <= 100)%Q
  /\ ((get_success_rate m == 100)%Q
      <-> (0 < total_queries m)%Z /\ error_count m = 0%Z).
Proof.
  intros [Htot _] [Hs He]. unfold get_success_rate.
  destruct (Z.eqb_spec (total_queries m) 0) as [E | E].
  - split; [discriminate |]. split; [discriminate |].
    split; [discriminate | lia].
  - assert (Hpos : (0 < inject_Z (total_queries m))%Q).
    { change 0%Q with (inject_Z 0). rewrite <- Zlt_Qlt. lia. }
    assert (Hle : (inject_Z (successful_queries m)
                   <= inject_Z (total_queries m))%Q)
      by (rewrite <- Zle_Qle; lia).
    assert (H0 : (0 <= inject_Z (successful_queries m))%Q).
    { change 0%Q with (inject_Z 0). rewrite <- Zle_Qle. lia. }
    assert (Hratio0 : (0 <= inject_Z (successful_queries m)
                            / inject_Z (total_queries m))%Q).
    { apply Qle_shift_div_l; [exact Hpos |]. now rewrite Qmult_0_l. }
    assert (Hratio1 : (inject_Z (successful_queries m)
                       / inject_Z (total_queries m) <= 1)%Q).
    { apply Qle_shift_div_r; [exact Hpos |]. now rewrite Qmult_1_l. }
    split; [apply Qmult_le_0_compat; [exact Hratio0 | discriminate] |].
    split.
    { setoid_replace 100%Q with (1 * 100)%Q at 2 by ring.
      apply Qmult_le_compat_r; [exact Hratio1 | discriminate]. }
    split.
    + intros H.
      assert (H1 : (inject_Z (successful_queries m)
                    / inject_Z (total_queries m) == 1)%Q).
      { apply (Qmult_inj_r _ _ 100); [discriminate |].
        rewrite H. ring. }
      assert (H2 : (inject_Z (successful_queries m)
                    == inject_Z (total_queries m))%Q).
      { rewrite <- (Qmult_div_r (inject_Z (successful_queries m))
                                (inject_Z (total_queries m)))
          by (intros Hz; rewrite Hz in Hpos; discriminate Hpos).
        rewrite H1. ring. }
      unfold Qeq, inject_Z in H2. cbn [Qnum Qden] in H2. lia.
    + intros [Hp Herr].
      assert (Heq : successful_queries m = total_queries m) by lia.
      rewrite Heq. field.
      intros Hz. rewrite Hz in Hpos. discriminate Hpos.
Qed.

End CounterFacts.

(** The success rate reported.  After any sequence of updates and resets
    of the metrics, [get_performance_metrics] reports a success rate
    between 0 and 100, which is 100 exactly when there was a query and no
    error, and is 0.0 when there was no query; the total it reports is the
    sum of the two usage counts and the error count. *)
Theorem success_rate_is_a_percentage :
  forall (S Agent : Type) (cfg : JarvisConfig) (agent : option Agent)
         (t : Q) (log : list Q) (s : S) (ops : list metrics_op),
    let st := fold_left apply_op ops
                        (mkState cfg initial_metrics agent t log s) in
    exists report,
      get_performance_metrics st = (Ok report, st)
      /\ (0 <= success_rate report)%Q /\ (success_rate report <= 100)%Q
      /\ ((success_rate report == 100)%Q
          <-> (0 < report_total_queries report)%Z
              /\ report_error_count report = 0%Z)
      /\ (report_total_queries report = 0%Z ->
          success_rate report = 0.0%Q)
      /\ report_total_queries report
         = (orchestrator_usage report + langchain_usage report
            + report_error_count report)%Z.
Proof.
  intros S Agent cfg agent t log s ops st.
  destruct (run_ops_nonneg ops (mkState cfg initial_metrics agent t log s))
    as [Hinv Hnn].
  { unfold metrics_invariant; cbn. split; reflexivity. }
  { unfold counters_nonneg; cbn. lia. }
  fold st in Hinv, Hnn.
  destruct (success_rate_range Hinv Hnn) as (H0 & H100 & Hiff).
  eexists. split; [reflexivity |].
  cbn [success_rate report_total_queries report_error_count
       orchestrator_usage langchain_usage].
  split; [exact H0 |]. split; [exact H100 |]. split; [exact Hiff |].
  split.
  - intros Hz. unfold get_success_rate. now rewrite Hz.
  - destruct Hinv as [Htot Hsucc]. lia.
Qed.

(* ================================================================= *)
(** ** What a call of thinking_capability does to the metrics *)

Section MetricsOfDispatch.

Variables S Agent : Type.
Variable smart_tool_execution : str -> M S str.
Variable build_agent : JarvisConfig -> M S Agent.
Variable wait_for_ainvoke : Agent -> str -> Q -> M S agent_result.
Variable time_time : S -> Q.
Variable str_of_float : Q -> str.

Notation dispatch :=
  (thinking_capability smart_tool_execution build_agent wait_for_ainvoke
                       time_time str_of_float).
Notation body :=
  (thinking_body smart_tool_execution build_agent wait_for_ainvoke
                 time_time str_of_float).
Notation try_orchestrator :=
  (_try_orchestrator (Agent := Agent) smart_tool_execution).
Notation try_langchain_agent :=
  (_try_langchain_agent build_agent wait_for_ainvoke time_time str_of_float).
Notation executor := (get_executor build_agent time_time).

(** Nothing but [update_success] and [update_error] writes [_metrics],
    and nothing writes [_config]. *)

Lemma pair_snd_eq {A B : Type} (a c : A) (b d : B) :
  (a, b) = (c, d) -> b = d.
Proof. intros H. exact (f_equal snd H). Qed.

Lemma same_globals_refl (st : State S Agent) : same_globals st st.
Proof. split; reflexivity. Qed.

Lemma same_globals_trans (st1 st2 st3 : State S Agent) :
  same_globals st1 st2 -> same_globals st2 st3 -> same_globals st1 st3.
Proof. intros [H1 H2] [H3 H4]. split; congruence. Qed.

Lemma outside_frame {A : Type} (c : M S A) (st st' : State S Agent)
      (r : Result A) :
  outside c st = (r, st') -> same_globals st st'.
Proof.
  unfold outside. destruct (c (ext st)) as [r0 s1].
  intros H. injection H as _ <-. split; reflexivity.
Qed.

Lemma retry_loop_frame {A : Type} (func : M S A) (max_retries : Z)
      (base_delay : Q) (attempts : list Z) :
  forall last (st st' : State S Agent) (r : Result A),
    retry_loop func max_retries base_delay attempts last st = (r, st') ->
    same_globals st st'.
Proof.
  induction attempts as [| attempt rest IH]; intros last st st' r;
    cbn [retry_loop].
  - unfold raise. intros H. injection H as _ <-. apply same_globals_refl.
  - unfold try_except.
    destruct (outside func st) as [[a | e] st1] eqn:E;
      apply outside_frame in E.
    + unfold ret. intros H. injection H as _ <-. exact E.
    + unfold bind.
      destruct (attempt <? max_retries)%Z;
        unfold asyncio_sleep, modify, ret; intros H; apply IH in H;
        destruct E as [E1 E2]; destruct H as [H1 H2];
        cbn [_config _metrics] in H1, H2; split; congruence.
Qed.

Lemma try_orchestrator_frame (query : str) (st st' : State S Agent)
      (r : Result (option str)) :
  try_orchestrator query st = (r, st') -> same_globals st st'.
Proof.
  unfold _try_orchestrator, retry_with_backoff.
  cbv beta iota zeta delta [bind gets try_except ret raise].
  destruct (retry_loop (smart_tool_execution query) (max_retries (_config st))
                       _ _ _ st)
    as [[res | e] st1] eqn:E; apply retry_loop_frame in E.
  - destruct res as [| c res];
      [| destruct (orchestrator_threshold (_config st1)
                   <? len (strip (c :: res)))%Z];
      intros H; injection H as _ <-; exact E.
  - destruct (negb (enable_fallback (_config st1)));
      intros H; injection H as _ <-; exact E.
Qed.

Lemma executor_frame (st st' : State S Agent) (r : Result Agent) :
  executor st = (r, st') -> same_globals st st'.
Proof.
  unfold get_executor, get_cached_agent, _create_langchain_agent, cache_agent.
  cbv beta iota zeta delta [bind gets try_except ret raise modify].
  destruct (_cached_agent st) as [a |];
    [destruct (Qltb (time_time (ext st) - _last_cache_time st) CACHE_TIMEOUT);
     [intros H; injection H as _ <-; apply same_globals_refl |] |];
    (destruct (outside (build_agent (_config st)) st) as [[b | e] st1] eqn:E;
     apply outside_frame in E; destruct E as [E1 E2];
     intros H; injection H as _ <-; split; assumption).
Qed.

Lemma try_langchain_agent_frame (query : str) (st st' : State S Agent)
      (r : Result str) :
  try_langchain_agent query st = (r, st') -> same_globals st st'.
Proof.
  unfold _try_langchain_agent.
  cbv beta iota zeta delta [bind gets try_except ret raise].
  destruct (executor st) as [[a | e] st1] eqn:E; apply executor_frame in E.
  - destruct (outside (wait_for_ainvoke a query (timeout_seconds (_config st1)))
                      st1) as [[res | e] st2] eqn:E2;
      apply outside_frame in E2;
      pose proof (same_globals_trans E E2) as E3.
    + destruct res as [[| s |] | s]; cbv beta iota;
        try destruct (strip s); cbv beta iota delta [is_jarvis_error];
        intros H; apply pair_snd_eq in H; subst st'; exact E3.
    + destruct e; cbv beta iota delta [is_jarvis_error];
        intros H; apply pair_snd_eq in H; subst st'; exact E3.
  - destruct e; cbv beta iota delta [is_jarvis_error];
      intros H; apply pair_snd_eq in H; subst st'; exact E.
Qed.

(** The [try] block either raises with the metrics untouched, or updates
    them once, by [update_success], as its last step. *)
Lemma body_metrics (query : pyval) (start : Q) (st st' : State S Agent)
      (r : Result Response) :
  (0 <= total_queries (_metrics st))%Z ->
  body query start st = (r, st') ->
  (exists e, r = Raise e /\ _metrics st' = _metrics st)
  \/ (exists text method t,
         r = Ok (success_response text method t)
         /\ (method = u "orchestrator" \/ method = u "langchain")
         /\ update_success t method (_metrics st) = (Ok tt, _metrics st')).
Proof.
  intros Hnn.
  cbv beta iota zeta
      delta [thinking_body elapsed_since on_metrics bind gets ret raise].
  destruct (validate_query (_config st) query) as [[] | e].
  2: { intros H. injection H as <- <-. left. eexists. split; reflexivity. }
  destruct query as [| q |].
  1, 3: intros H; injection H as <- <-; left; eexists; split; reflexivity.
  destruct (try_orchestrator (strip q) st) as [[res | e] st2] eqn:Eo;
    apply try_orchestrator_frame in Eo; destruct Eo as [Ec Em].
  2: { intros H. injection H as <- <-. left. eexists.
       split; [reflexivity | exact Em]. }
  destruct res as [[| c res] |]; cbv beta iota.
  1, 3: destruct (enable_fallback (_config st2));
    [| intros H; injection H as <- <-; left; eexists;
       split; [reflexivity | exact Em]];
    destruct (try_langchain_agent (strip q) st2) as [[a | e] st3] eqn:El;
    apply try_langchain_agent_frame in El; destruct El as [Ec3 Em3];
    [| intros H; injection H as <- <-; left; exists e;
       split; [reflexivity | congruence]];
    rewrite Em3, Em;
    pose proof (update_success_returns (time_time (ext st3) - start)
                                       (u "langchain") (_metrics st) Hnn)
      as Hok;
    destruct (update_success (time_time (ext st3) - start) (u "langchain")
                             (_metrics st)) as [r1 m'] eqn:Eu;
    cbn [fst] in Hok; subst r1;
    intros H; injection H as <- <-; right;
    exists a, (u "langchain"), (time_time (ext st3) - start)%Q;
    split; [reflexivity |]; split; [right; reflexivity |];
    unfold set_metrics; cbn [_metrics]; exact Eu.
  rewrite Em.
  pose proof (update_success_returns (time_time (ext st2) - start)
                                     (u "orchestrator") (_metrics st) Hnn)
    as Hok.
  destruct (update_success (time_time (ext st2) - start) (u "orchestrator")
                           (_metrics st)) as [r1 m'] eqn:Eu.
  cbn [fst] in Hok. subst r1.
  intros H. injection H as <- <-. right.
  exists (c :: res), (u "orchestrator"), (time_time (ext st2) - start)%Q.
  split; [reflexivity |]. split; [left; reflexivity |].
  unfold set_metrics; cbn [_metrics]; exact Eu.
Qed.

Lemma dispatch_metrics (query : pyval) (st st' : State S Agent)
      (resp : Response) :
  (0 <= total_queries (_metrics st))%Z ->
  dispatch query st = (Ok resp, st') ->
  (exists text method t,
      resp = success_response text method t
      /\ (method = u "orchestrator" \/ method = u "langchain")
      /\ update_success t method (_metrics st) = (Ok tt, _metrics st'))
  \/ (exists e t,
         resp = failure_response e t
         /\ _metrics st'
            = snd (update_error (failure_text e) (_metrics st))).
Proof.
  intros Hnn.
  destruct (body query (time_time (ext st)) st) as [[resp0 | e] st1] eqn:Hb;
    pose proof (body_metrics _ _ _ Hnn Hb) as Hm.
  - erewrite dispatch_when_body_returns by exact Hb.
    intros H. injection H as <- <-.
    destruct Hm as [(e & He & _) | (text & method & t & Hr & Hmeth & Hu)];
      [discriminate |].
    injection Hr as ->. left. exists text, method, t. auto.
  - erewrite dispatch_when_body_raises by exact Hb.
    intros H. injection H as <- <-.
    destruct Hm as [(e' & He & Hm) | (text & method & t & Hr & _)];
      [| discriminate].
    right. exists e, (time_time (ext st1) - time_time (ext st))%Q.
    split; [reflexivity |].
    unfold set_metrics; cbn [_metrics]. rewrite Hm. reflexivity.
Qed.

(** Every call counts as one query.  A call of [thinking_capability] in
    a state whose query count is not negative adds 1 to [total_queries].
    A success adds 1 to [successful_queries] and to the counter of the
    method it reports, adds its execution time to [total_response_time]
    and sets [average_response_time] to that sum divided by the new
    [total_queries]; a failure adds 1 to [error_count], records its text as
    [last_error] and leaves the other counters and both time fields as they
    were. *)
Theorem dispatch_counts_the_query :
  forall (query : pyval) (st st' : State S Agent) (resp : Response),
    (0 <= total_queries (_metrics st))%Z ->
    dispatch query st = (Ok resp, st') ->
    let m := _metrics st in
    let m' := _metrics st' in
    total_queries m' = (total_queries m + 1)%Z
    /\ ((exists t,
            dict_get resp (u "success") = Some (FBool true)
            /\ dict_get resp (u "execution_time") = Some (FFloat t)
            /\ successful_queries m' = (successful_queries m + 1)%Z
            /\ error_count m' = error_count m
            /\ last_error m' = last_error m
            /\ total_response_time m' = (total_response_time m + t)%Q
            /\ average_response_time m'
               = (total_response_time m' / inject_Z (total_queries m'))%Q
            /\ ((dict_get resp (u "method") = Some (FStr (u "orchestrator"))
                 /\ orchestrator_queries m' = (orchestrator_queries m + 1)%Z
                 /\ langchain_queries m' = langchain_queries m)
                \/ (dict_get resp (u "method") = Some (FStr (u "langchain"))
                    /\ orchestrator_queries m' = orchestrator_queries m
                    /\ langchain_queries m' = (langchain_queries m + 1)%Z)))
        \/ (dict_get resp (u "success") = Some (FBool false)
            /\ successful_queries m' = successful_queries m
            /\ orchestrator_queries m' = orchestrator_queries m
            /\ langchain_queries m' = langchain_queries m
            /\ error_count m' = (error_count m + 1)%Z
            /\ (exists msg, last_error m' = Some msg)
            /\ total_response_time m' = total_response_time m
            /\ average_response_time m' = average_response_time m)).
Proof.
  intros query st st' resp Hnn Hd m m'. subst m m'.
  destruct (dispatch_metrics _ _ Hnn Hd)
    as [(text & method & t & -> & Hmeth & Hu) | (e & t & -> & ->)].
  - unfold update_success in Hu.
    destruct (Z.eqb_spec (total_queries (_metrics st) + 1) 0) as [E | _];
      [lia |].
    assert (Hl : PyStr.eqb (u "langchain") (u "orchestrator") = false)
      by (vm_compute; reflexivity).
    destruct Hmeth as [-> | ->];
      [rewrite eqb_refl in Hu | rewrite Hl in Hu];
      injection Hu as <-;
      cbn [total_queries successful_queries error_count last_error
           orchestrator_queries langchain_queries
           total_response_time average_response_time];
      (split; [reflexivity |]); left; exists t;
      (split; [vm_compute; reflexivity |]);
      (split; [vm_compute; reflexivity |]);
      do 5 (split; [reflexivity |]);
      [left | right]; (split; [vm_compute; reflexivity |]);
      split; reflexivity.
  - unfold update_error.
    cbn [snd total_queries successful_queries error_count last_error
         orchestrator_queries langchain_queries
         total_response_time average_response_time].
    split; [reflexivity |]. right.
    split; [destruct e; vm_compute; reflexivity |].
    do 4 (split; [reflexivity |]).
    split; [eexists; reflexivity |]. split; reflexivity.
Qed.

End MetricsOfDispatch.

(** On the example world: a query answered by the orchestrator after 4
    seconds, from the initial metrics. *)
Lemma dispatch_counts_the_query_witness :
  exists resp st',
    demo_dispatch 0 4 (u "CPU 12%, memory 48%, disk 71%")
                  (Ok (Other (u "unused")))
                  (PyStr (u "show system info")) (demo_state default_config)
    = (Ok resp, st')
    /\ total_queries (_metrics st') = 1%Z
    /\ dict_get resp (u "success") = Some (FBool true)
    /\ successful_queries (_metrics st') = 1%Z.
Proof.
  eexists. eexists. split; [vm_compute; reflexivity |].
  match goal with
  | |- total_queries (_metrics ?s) = _ /\ dict_get ?r _ = _ /\ _ =>
      destruct (@dispatch_counts_the_query
                  demo_world unit
                  (demo_orchestrator 0 4 (u "CPU 12%, memory 48%, disk 71%"))
                  demo_build_agent (demo_agent (Ok (Other (u "unused"))))
                  fst demo_str_of_float
                  (PyStr (u "show system info")) (demo_state default_config)
                  s r)
        as [Htotal [(t & Hs & _ & Hsucc & _) | (Hf & _)]]
  end.
  - cbn. lia.
  - vm_compute. reflexivity.
  - split; [exact Htotal |]. split; [exact Hs | exact Hsucc].
  - vm_compute in Hf. discriminate Hf.
Defined.

(* ================================================================= *)
(** ** Stripped strings *)

Lemma lstrip_head (s : str) (c : N) (r : str) :
  lstrip s = c :: r -> isspace c = false.
Proof.
  induction s as [| a s IH]; cbn [lstrip]; [discriminate |].
  destruct (isspace a) eqn:E; [exact IH |].
  intros H. injection H as <- _. exact E.
Qed.

Lemma lstrip_suffix (s : str) : exists sp, s = sp ++ lstrip s.
Proof.
  induction s as [| a s [sp IH]]; cbn [lstrip].
  - now exists [].
  - destruct (isspace a); [| now exists []].
    exists (a :: sp). cbn [app]. now rewrite <- IH.
Qed.

Lemma lstrip_fixed (s : str) :
  match s with
  | [] => True
  | c :: _ => isspace c = false
  end ->
  lstrip s = s.
Proof.
  destruct s as [| c s]; cbn [lstrip]; [reflexivity |].
  now intros ->.
Qed.

Lemma lstrip_idem (s : str) : lstrip (lstrip s) = lstrip s.
Proof.
  apply lstrip_fixed. destruct (lstrip s) as [| c r] eqn:E; [exact I |].
  exact (lstrip_head s E).
Qed.

Lemma rstrip_prefix (s : str) : exists z, s = rstrip s ++ z.
Proof.
  unfold rstrip. destruct (lstrip_suffix (rev s)) as [sp H].
  exists (rev sp). rewrite <- rev_app_distr, <- H. now rewrite rev_involutive.
Qed.

Lemma rstrip_idem (s : str) : rstrip (rstrip s) = rstrip s.
Proof. unfold rstrip. now rewrite rev_involutive, lstrip_idem. Qed.

Lemma strip_idem (s : str) : strip (strip s) = strip s.
Proof.
  unfold strip.
  assert (H : lstrip (rstrip (lstrip s)) = rstrip (lstrip s)).
  { apply lstrip_fixed.
    destruct (rstrip (lstrip s)) as [| c r] eqn:E; [exact I |].
    destruct (rstrip_prefix (lstrip s)) as [z Hz]. rewrite E in Hz.
    exact (lstrip_head s Hz). }
  rewrite H. apply rstrip_idem.
Qed.

(* ================================================================= *)
(** ** The edges of the reasoning module *)

Lemma validate_query_codes (cfg : JarvisConfig) (query : pyval) (e : PyExc) :
  validate_query cfg query = Raise e ->
  exists message code,
    e = JarvisError message code None
    /\ is_one_of code validation_codes = true.
Proof.
  unfold validate_query.
  destruct query as [| [| c q] |]; cbv beta iota zeta;
    try (intros H; injection H as <-; eexists; eexists;
         split; [reflexivity | vm_compute; reflexivity]).
  destruct (len (strip (c :: q)) <? min_query_length cfg)%Z;
    [intros H; injection H as <-; eexists; eexists;
     split; [reflexivity | vm_compute; reflexivity] |].
  destruct (max_query_length cfg <? len (strip (c :: q)))%Z;
    [intros H; injection H as <-; eexists; eexists;
     split; [reflexivity | vm_compute; reflexivity] | discriminate].
Qed.

(** When the configured maximum length is below the minimum,
    [validate_query] rejects every value. *)
Lemma validate_query_rejects_everything (cfg : JarvisConfig) (query : pyval) :
  (max_query_length cfg < min_query_length cfg)%Z ->
  exists message code,
    validate_query cfg query = Raise (JarvisError message code None)
    /\ is_one_of code validation_codes = true.
Proof.
  intros Hlim.
  destruct (validate_query cfg query) as [[] | e] eqn:E.
  - exfalso. revert E. unfold validate_query.
    destruct query as [| [| c q] |]; cbv beta iota zeta; try discriminate.
    destruct (Z.ltb_spec (len (strip (c :: q))) (min_query_length cfg));
      [discriminate |].
    destruct (Z.ltb_spec (max_query_length cfg) (len (strip (c :: q))));
      [discriminate | lia].
  - destruct (validate_query_codes cfg query E) as (message & code & -> & Hc).
    now exists message, code.
Qed.

Lemma validation_codes_incl (code : str) :
  is_one_of code validation_codes = true ->
  is_one_of code failure_codes = true.
Proof.
  unfold is_one_of, validation_codes. cbn [existsb].
  rewrite !orb_true_iff. intros [H | [H | [H | H]]]; try discriminate H;
    apply eqb_eq in H; subst code; vm_compute; reflexivity.
Qed.

Lemma pair_fst_eq {A B : Type} (a c : A) (b d : B) :
  (a, b) = (c, d) -> a = c.
Proof. intros H. exact (f_equal fst H). Qed.

Lemma Ok_value {A : Type} (a b : A) : Ok a = Ok b -> a = b.
Proof. intros H. now injection H. Qed.

Lemma Raise_inj {A : Type} (e1 e2 : PyExc) :
  @Raise A e1 = Raise e2 -> e1 = e2.
Proof. intros H. now injection H. Qed.

Section ReasoningEdges.

Variables S Agent : Type.
Variable smart_tool_execution : str -> M S str.
Variable build_agent : JarvisConfig -> M S Agent.
Variable wait_for_ainvoke : Agent -> str -> Q -> M S agent_result.
Variable time_time : S -> Q.
Variable str_of_float : Q -> str.

Notation dispatch :=
  (thinking_capability smart_tool_execution build_agent wait_for_ainvoke
                       time_time str_of_float).
Notation body :=
  (thinking_body smart_tool_execution build_agent wait_for_ainvoke
                 time_time str_of_float).
Notation try_orchestrator :=
  (_try_orchestrator (Agent := Agent) smart_tool_execution).
Notation try_langchain_agent :=
  (_try_langchain_agent build_agent wait_for_ainvoke time_time str_of_float).
Notation executor := (get_executor build_agent time_time).

Lemma retry_without_attempts {A : Type} (func : M S A) (max_retries : Z)
      (base_delay : Q) (st : State S Agent) :
  (max_retries < 0)%Z ->
  retry_with_backoff func max_retries base_delay st
  = (Raise (retry_exhausted max_retries None), st).
Proof.
  intros H. unfold retry_with_backoff, range.
  replace (Z.to_nat (max_retries + 1)) with 0 by lia.
  cbn [seq map retry_loop]. unfold raise, retry_exhausted. reflexivity.
Qed.

(** What [_try_orchestrator] makes of the outcome of the retries. *)
Lemma try_orchestrator_cases (query : str) (st st1 : State S Agent)
      (r : Result str) :
  retry_with_backoff (smart_tool_execution query)
                     (max_retries (_config st)) 1.0 st = (r, st1) ->
  try_orchestrator query st
  = (match r with
     | Ok [] => Ok None
     | Ok ((_ :: _) as answer) =>
         if (orchestrator_threshold (_config st1) <? len (strip answer))%Z
         then Ok (Some (strip answer))
         else Ok None
     | Raise e =>
         if negb (enable_fallback (_config st1))
         then Raise (JarvisError
                       (u "Orchestrator failed and fallback disabled: "
                          ++ exc_str e)
                       (u "ORCHESTRATOR_FAILED") None)
         else Ok None
     end, st1).
Proof.
  intros H. unfold _try_orchestrator.
  cbv beta iota zeta delta [bind gets try_except ret raise].
  rewrite H. destruct r as [[| c answer] | e]; cbv beta iota.
  - reflexivity.
  - now destruct (orchestrator_threshold (_config st1)
                  <? len (strip (c :: answer)))%Z.
  - now destruct (negb (enable_fallback (_config st1))).
Qed.

(** A negative number of retries.  With [max_retries] below zero the loop
    of [retry_with_backoff] has no iteration, so [_try_orchestrator] never
    calls the orchestrator: whatever the orchestrator would do, the state
    is left as it is and the result is [None], or the error
    ORCHESTRATOR_FAILED when the fallback is disabled. *)
Theorem negative_max_retries_skip_the_orchestrator :
  forall (query : str) (st : State S Agent),
    (max_retries (_config st) < 0)%Z ->
    retry_with_backoff (smart_tool_execution query)
                       (max_retries (_config st)) 1.0 st
    = (Raise (retry_exhausted (max_retries (_config st)) None), st)
    /\ (enable_fallback (_config st) = true ->
        try_orchestrator query st = (Ok None, st))
    /\ (enable_fallback (_config st) = false ->
        exists message,
          try_orchestrator query st
          = (Raise (JarvisError message (u "ORCHESTRATOR_FAILED") None), st)).
Proof.
  intros query st Hneg.
  pose proof (retry_without_attempts (smart_tool_execution query) 1.0 st Hneg)
    as Hretry.
  split; [exact Hretry |].
  rewrite (try_orchestrator_cases query st Hretry). cbv beta iota.
  split; intros ->; cbn [negb]; [reflexivity |].
  eexists. reflexivity.
Qed.

(** The answer of [_try_orchestrator].  The configuration and the metrics
    are left as they were.  An answer has no white space at either end and
    is longer than [orchestrator_threshold]; an exception is raised only
    when the fallback is disabled, and it is a [JarvisError] with the code
    ORCHESTRATOR_FAILED. *)
Theorem try_orchestrator_answer :
  forall (query : str) (st st' : State S Agent) (r : Result (option str)),
    try_orchestrator query st = (r, st') ->
    same_globals st st'
    /\ match r with
       | Ok (Some answer) =>
           stripped answer
           /\ (orchestrator_threshold (_config st) < len answer)%Z
       | Ok None => True
       | Raise e =>
           enable_fallback (_config st) = false
           /\ exists message,
                e = JarvisError message (u "ORCHESTRATOR_FAILED") None
       end.
Proof.
  intros query st st' r H.
  pose proof (try_orchestrator_frame smart_tool_execution query st H)
    as Hsame.
  split; [exact Hsame |]. destruct Hsame as [Hcfg _].
  destruct (retry_with_backoff (smart_tool_execution query)
                               (max_retries (_config st)) 1.0 st)
    as [r0 st1] eqn:Hretry.
  rewrite (try_orchestrator_cases query st Hretry) in H.
  injection H as <- <-. rewrite <- Hcfg.
  destruct r0 as [[| c answer] | e]; [exact I | |].
  - destruct (Z.ltb_spec (orchestrator_threshold (_config st1))
                         (len (strip (c :: answer)))) as [Hlt | _];
      [| exact I].
    split; [apply strip_idem | exact Hlt].
  - destruct (enable_fallback (_config st1)); cbn [negb]; [exact I |].
    split; [reflexivity | eexists; reflexivity].
Qed.

(** The cached agent.  When [get_executor] (the first statements of
    [_try_langchain_agent]) returns an agent, that agent is the one cached,
    and a later call made less than [CACHE_TIMEOUT] seconds after the time
    of caching returns it again without building an agent: the world is not
    touched.  From [CACHE_TIMEOUT] seconds on, the cache gives nothing. *)
Theorem cached_agent_is_reused :
  forall (st st1 : State S Agent) (a : Agent),
    executor st = (Ok a, st1) ->
    _cached_agent st1 = Some a
    /\ (forall s2,
           (time_time s2 - _last_cache_time st1 < CACHE_TIMEOUT)%Q ->
           executor (set_ext st1 s2) = (Ok a, set_ext st1 s2))
    /\ (forall s2,
           (CACHE_TIMEOUT <= time_time s2 - _last_cache_time st1)%Q ->
           get_cached_agent time_time (set_ext st1 s2)
           = (Ok None, set_ext st1 s2)).
Proof.
  intros st st1 a Hex.
  assert (Hcached : _cached_agent st1 = Some a).
  { revert Hex.
    unfold get_executor, get_cached_agent, _create_langchain_agent,
      cache_agent.
    cbv beta iota zeta delta [bind gets try_except ret raise modify].
    destruct (_cached_agent st) as [b |] eqn:Ec;
      [destruct (Qltb (time_time (ext st) - _last_cache_time st)
                      CACHE_TIMEOUT);
       [intros H; injection H as <- <-; exact Ec |] |];
      (destruct (outside (build_agent (_config st)) st) as [[b' | e] st2];
       intros H; [injection H as <- <- | discriminate H]; reflexivity). }
  split; [exact Hcached |]. split.
  - intros s2 Hfresh. apply Qltb_lt in Hfresh.
    unfold get_executor, get_cached_agent.
    cbv beta iota zeta delta [bind gets ret].
    cbn [set_ext _cached_agent _last_cache_time ext].
    rewrite Hcached. cbv beta iota. rewrite Hfresh. reflexivity.
  - intros s2 Hold.
    assert (Hb : Qltb (time_time s2 - _last_cache_time st1) CACHE_TIMEOUT
                 = false).
    { destruct (Qltb (time_time s2 - _last_cache_time st1) CACHE_TIMEOUT)
        eqn:E; [| reflexivity].
      apply Qltb_lt in E. exfalso. exact (Qlt_not_le _ _ E Hold). }
    unfold get_cached_agent.
    cbv beta iota zeta delta [bind gets ret].
    cbn [set_ext _cached_agent _last_cache_time ext].
    rewrite Hcached. cbv beta iota. rewrite Hb. reflexivity.
Qed.

End ReasoningEdges.

Section DispatchEdges.

Variables S Agent : Type.
Variable smart_tool_execution : str -> M S str.
Variables build_agent build_agent' : JarvisConfig -> M S Agent.
Variables wait_for_ainvoke wait_for_ainvoke'
  : Agent -> str -> Q -> M S agent_result.
Variable time_time : S -> Q.
Variable str_of_float : Q -> str.

Notation dispatch :=
  (thinking_capability smart_tool_execution build_agent wait_for_ainvoke
                       time_time str_of_float).
Notation body :=
  (thinking_body smart_tool_execution build_agent wait_for_ainvoke
                 time_time str_of_float).
Notation try_orchestrator :=
  (_try_orchestrator (Agent := Agent) smart_tool_execution).
Notation try_langchain_agent :=
  (_try_langchain_agent build_agent wait_for_ainvoke time_time str_of_float).
Notation executor := (get_executor build_agent time_time).

Lemma try_orchestrator_raises (query : str) (st st' : State S Agent)
      (e : PyExc) :
  try_orchestrator query st = (Raise e, st') ->
  exists message, e = JarvisError message (u "ORCHESTRATOR_FAILED") None.
Proof.
  destruct (retry_with_backoff (smart_tool_execution query)
                               (max_retries (_config st)) 1.0 st)
    as [r0 st1] eqn:Hretry.
  rewrite (try_orchestrator_cases smart_tool_execution query st Hretry).
  intros H. apply pair_fst_eq in H.
  destruct r0 as [[| c answer] | e0]; [discriminate H | |].
  - destruct (orchestrator_threshold (_config st1)
              <? len (strip (c :: answer)))%Z; discriminate H.
  - destruct (negb (enable_fallback (_config st1))); [| discriminate H].
    apply Raise_inj in H. subst e. eexists. reflexivity.
Qed.

Lemma executor_raises (st st' : State S Agent) (e : PyExc) :
  executor st = (Raise e, st') ->
  exists message original,
    e = JarvisError message (u "AGENT_CREATION_FAILED") original.
Proof.
  unfold get_executor, get_cached_agent, _create_langchain_agent,
    cache_agent.
  cbv beta iota zeta delta [bind gets try_except ret raise modify].
  destruct (_cached_agent st) as [b |];
    [destruct (Qltb (time_time (ext st) - _last_cache_time st)
                    CACHE_TIMEOUT);
     [intros H; apply pair_fst_eq in H; discriminate H |] |];
    (destruct (outside (build_agent (_config st)) st) as [[b' | e0] st2];
     intros H; apply pair_fst_eq in H;
     [discriminate H
     | apply Raise_inj in H; subst e; eexists; eexists; reflexivity]).
Qed.

Hypothesis agent_raises_no_jarvis_error :
  forall a q t s, not_jarvis_error (wait_for_ainvoke a q t s).

Lemma try_langchain_agent_raises (query : str) (st st' : State S Agent)
      (e : PyExc) :
  try_langchain_agent query st = (Raise e, st') ->
  exists message code original,
    e = JarvisError message code original
    /\ is_one_of code failure_codes = true.
Proof.
  unfold _try_langchain_agent.
  cbv beta iota zeta delta [bind gets try_except ret raise].
  destruct (executor st) as [[a | e0] st1] eqn:E.
  - unfold outside.
    pose proof (agent_raises_no_jarvis_error
                  a query (timeout_seconds (_config st1)) (ext st1))
      as Hagent.
    destruct (wait_for_ainvoke a query (timeout_seconds (_config st1))
                               (ext st1)) as [[res | e1] s2].
    + destruct res as [[| s |] | s]; cbv beta iota;
        try destruct (strip s); cbv beta iota delta [is_jarvis_error];
        intros H; apply pair_fst_eq in H; try discriminate H;
        apply Raise_inj in H; subst e; eexists; eexists; eexists;
        (split; [reflexivity | vm_compute; reflexivity]).
    + destruct e1; cbn [fst not_jarvis_error] in Hagent;
        [| | contradiction];
        cbv beta iota delta [is_jarvis_error];
        intros H; apply pair_fst_eq in H;
        apply Raise_inj in H; subst e; eexists; eexists; eexists;
        (split; [reflexivity | vm_compute; reflexivity]).
  - destruct (executor_raises st E) as (message & original & ->).
    cbv beta iota delta [is_jarvis_error].
    intros H. apply pair_fst_eq in H. apply Raise_inj in H. subst e.
    eexists; eexists; eexists.
    split; [reflexivity | vm_compute; reflexivity].
Qed.

Lemma body_raises_jarvis_error (query : pyval) (start : Q)
      (st st' : State S Agent) (e : PyExc) :
  (0 <= total_queries (_metrics st))%Z ->
  body query start st = (Raise e, st') ->
  exists message code original,
    e = JarvisError message code original
    /\ is_one_of code failure_codes = true.
Proof.
  intros Hnn.
  cbv beta iota zeta
      delta [thinking_body elapsed_since on_metrics bind gets ret raise].
  destruct (validate_query (_config st) query) as [[] | e0] eqn:Ev.
  2: { destruct (validate_query_codes _ _ Ev) as (message & code & -> & Hc).
       intros H. apply pair_fst_eq in H. apply Raise_inj in H. subst e.
       exists message, code, None. split; [reflexivity |].
       now apply validation_codes_incl. }
  destruct query as [| q |].
  1, 3: exfalso; revert Ev; unfold validate_query; discriminate.
  destruct (try_orchestrator (strip q) st) as [[res | e0] st2] eqn:Eo.
  2: { destruct (try_orchestrator_raises _ _ Eo) as (message & ->).
       intros H. apply pair_fst_eq in H. apply Raise_inj in H. subst e.
       eexists; eexists; eexists.
       split; [reflexivity | vm_compute; reflexivity]. }
  apply (try_orchestrator_frame smart_tool_execution) in Eo.
  destruct Eo as [Ec Em].
  destruct res as [[| c res] |]; cbv beta iota.
  1, 3: destruct (enable_fallback (_config st2));
    [| intros H; apply pair_fst_eq in H; apply Raise_inj in H; subst e;
       eexists; eexists; eexists;
       split; [reflexivity | vm_compute; reflexivity]];
    destruct (try_langchain_agent (strip q) st2) as [[a | e0] st3] eqn:El;
    [| destruct (try_langchain_agent_raises _ _ El)
         as (message & code & original & -> & Hc);
       intros H; apply pair_fst_eq in H; apply Raise_inj in H; subst e;
       exists message, code, original; split; [reflexivity | exact Hc]];
    apply (try_langchain_agent_frame build_agent wait_for_ainvoke
                                     time_time str_of_float) in El;
    destruct El as [_ Em3]; rewrite Em3, Em;
    pose proof (update_success_returns (time_time (ext st3) - start)
                                       (u "langchain") (_metrics st) Hnn)
      as Hok;
    destruct (update_success (time_time (ext st3) - start) (u "langchain")
                             (_metrics st)) as [r1 m'];
    cbn [fst] in Hok; subst r1;
    intros H; apply pair_fst_eq in H; discriminate H.
  rewrite Em.
  pose proof (update_success_returns (time_time (ext st2) - start)
                                     (u "orchestrator") (_metrics st) Hnn)
    as Hok.
  destruct (update_success (time_time (ext st2) - start) (u "orchestrator")
                           (_metrics st)) as [r1 m'].
  cbn [fst] in Hok. subst r1.
  intros H. apply pair_fst_eq in H. discriminate H.
Qed.

(** The error codes of a failure.  When the query count is not negative
    and the agent raises no [JarvisError] of its own, a failure returned by
    [thinking_capability] carries one of nine codes: the three of the
    validation, ORCHESTRATOR_FAILED, NO_METHOD_AVAILABLE,
    AGENT_CREATION_FAILED, EXECUTION_TIMEOUT, EMPTY_RESPONSE or
    LANGCHAIN_FAILED.  So the codes UNEXPECTED_ERROR and RETRY_EXHAUSTED
    are never returned. *)
Theorem dispatch_failure_codes :
  forall (query : pyval) (st st' : State S Agent) (resp : Response),
    (0 <= total_queries (_metrics st))%Z ->
    dispatch query st = (Ok resp, st') ->
    dict_get resp (u "success") = Some (FBool false) ->
    exists code,
      dict_get resp (u "error_code") = Some (FStr code)
      /\ is_one_of code failure_codes = true
      /\ code <> u "UNEXPECTED_ERROR"
      /\ code <> u "RETRY_EXHAUSTED".
Proof.
  intros query st st' resp Hnn Hd Hfail.
  destruct (body query (time_time (ext st)) st) as [[resp0 | e] st1] eqn:Hb.
  - exfalso. erewrite dispatch_when_body_returns in Hd by exact Hb.
    apply pair_fst_eq in Hd. injection Hd as <-.
    destruct (body_returns_success _ _ _ _ _ _ _ _ Hb) as (r & m & t & ->).
    vm_compute in Hfail. discriminate Hfail.
  - erewrite dispatch_when_body_raises in Hd by exact Hb.
    apply pair_fst_eq in Hd. injection Hd as <-.
    apply body_raises_jarvis_error in Hb; [| exact Hnn].
    destruct Hb as (message & code & original & -> & Hc).
    exists code. split; [vm_compute; reflexivity |].
    split; [exact Hc |].
    split; intros ->; vm_compute in Hc; discriminate Hc.
Qed.

Notation dispatch' :=
  (thinking_capability smart_tool_execution build_agent' wait_for_ainvoke'
                       time_time str_of_float).
Notation body' :=
  (thinking_body smart_tool_execution build_agent' wait_for_ainvoke'
                 time_time str_of_float).

Lemma body_without_fallback (query : pyval) (start : Q)
      (st : State S Agent) :
  enable_fallback (_config st) = false ->
  body query start st = body' query start st.
Proof.
  intros Hoff.
  cbv beta iota zeta
      delta [thinking_body elapsed_since on_metrics bind gets ret raise].
  destruct (validate_query (_config st) query) as [[] | e0];
    [| reflexivity].
  destruct query as [| q |]; try reflexivity.
  destruct (try_orchestrator (strip q) st) as [[res | e0] st2] eqn:Eo;
    [| reflexivity].
  apply (try_orchestrator_frame smart_tool_execution) in Eo.
  destruct Eo as [Ec _].
  destruct res as [[| c res] |]; cbv beta iota; try reflexivity;
    rewrite Ec, Hoff; reflexivity.
Qed.

(** With the fallback disabled.  When [enable_fallback] is off,
    [thinking_capability] neither builds nor calls the LangChain agent: its
    result and the state it leaves are the same whatever the construction
    of the agent and the agent would do. *)
Theorem disabled_fallback_leaves_the_agent_alone :
  forall (query : pyval) (st : State S Agent),
    enable_fallback (_config st) = false ->
    dispatch query st = dispatch' query st.
Proof.
  intros query st Hoff. unfold thinking_capability.
  cbv beta iota zeta delta [bind gets try_except].
  rewrite (body_without_fallback query (time_time (ext st)) st Hoff).
  reflexivity.
Qed.

Lemma validate_query_stripped (cfg : JarvisConfig) (q : str) :
  strip q <> [] ->
  validate_query cfg (PyStr (strip q)) = validate_query cfg (PyStr q).
Proof.
  intros Hne. unfold validate_query.
  destruct q as [| c q]; [exfalso; apply Hne; reflexivity |].
  destruct (strip (c :: q)) as [| c' r] eqn:E; [congruence |].
  cbv beta iota zeta. rewrite <- E, strip_idem. reflexivity.
Qed.

(** White space around the query.  A query and the same query with white
    space before and after it are treated alike by [thinking_capability],
    provided something is left when the white space is taken away: the
    validation, the orchestrator and the agent all see the stripped
    query. *)
Theorem padding_does_not_matter :
  forall (q : str) (st : State S Agent),
    strip q <> [] ->
    dispatch (PyStr q) st = dispatch (PyStr (strip q)) st.
Proof.
  intros q st Hne. unfold thinking_capability.
  cbv beta iota zeta delta [bind gets try_except].
  assert (Hbody : forall start,
             body (PyStr q) start st = body (PyStr (strip q)) start st).
  { intros start. unfold thinking_body.
    cbv beta iota zeta delta [bind gets ret].
    rewrite (validate_query_stripped (_config st) q Hne), strip_idem.
    reflexivity. }
  rewrite Hbody. reflexivity.
Qed.

Lemma set_limits (st : State S Agent) (a b : Z) :
  update_configuration
    [(u "min_query_length", CInt a); (u "max_query_length", CInt b)] st
  = Some (Ok tt,
          mkState
            (mkConfig (model_name (_config st)) (max_retries (_config st))
                      (timeout_seconds (_config st))
                      (orchestrator_threshold (_config st))
                      (verbose_mode (_config st)) (cache_size (_config st))
                      a b (enable_fallback (_config st))
                      (log_performance (_config st)))
            (_metrics st) (_cached_agent st) (_last_cache_time st)
            (sleep_log st) (ext st)).
Proof.
  destruct st as [[mn mr ts ot vm cs mnq mxq ef lp] m ca lt sl s].
  vm_compute. reflexivity.
Qed.

(** Limits are not validated.  [update_configuration] accepts any two
    lengths as minimum and maximum and changes nothing else.  When the
    maximum it was given is below the minimum, every later call of
    [thinking_capability] is rejected by the validation: it fails with one
    of the three validation codes, and neither the orchestrator nor the
    agent is called and nothing is slept. *)
Theorem limits_are_not_validated :
  forall (st : State S Agent) (a b : Z),
  exists st1,
    update_configuration
      [(u "min_query_length", CInt a); (u "max_query_length", CInt b)] st
    = Some (Ok tt, st1)
    /\ min_query_length (_config st1) = a
    /\ max_query_length (_config st1) = b
    /\ _metrics st1 = _metrics st
    /\ ext st1 = ext st
    /\ ((b < a)%Z ->
        forall query,
        exists resp st2 code,
          dispatch query st1 = (Ok resp, st2)
          /\ dict_get resp (u "success") = Some (FBool false)
          /\ dict_get resp (u "error_code") = Some (FStr code)
          /\ is_one_of code validation_codes = true
          /\ ext st2 = ext st1
          /\ sleep_log st2 = sleep_log st1).
Proof.
  intros st a b. eexists. split; [apply set_limits |].
  cbn [_config _metrics ext min_query_length max_query_length].
  do 4 (split; [reflexivity |]).
  intros Hlim query.
  match goal with
  | |- exists resp st2 code, thinking_capability _ _ _ _ _ _ ?s = _ /\ _ =>
      set (st1 := s)
  end.
  destruct (validate_query_rejects_everything (_config st1) query)
    as (message & code & Hv & Hc); [exact Hlim |].
  pose proof (body_rejects_invalid smart_tool_execution build_agent
                wait_for_ainvoke time_time str_of_float query
                (time_time (ext st1)) st1 Hv) as Hb.
  eexists. eexists. exists code.
  split; [erewrite dispatch_when_body_raises by exact Hb; reflexivity |].
  split; [vm_compute; reflexivity |].
  split; [vm_compute; reflexivity |].
  split; [exact Hc |]. split; reflexivity.
Qed.

End DispatchEdges.

(** A keyword that is not an attribute.  [update_configuration] called
    with keywords none of which names an attribute of the configuration
    changes nothing (each is only logged as unknown). *)
Theorem unknown_keywords_change_nothing :
  forall (S Agent : Type) (kwargs : list (str * config_value))
         (st : State S Agent),
    (forall k v, In (k, v) kwargs -> hasattr_config k = Some false) ->
    update_configuration kwargs st = Some (Ok tt, st).
Proof.
  intros S Agent kwargs st Hunknown. unfold update_configuration.
  assert (H : update_config kwargs (_config st) = Some (_config st)).
  { induction kwargs as [| [k v] kwargs IH]; cbn [update_config];
      [reflexivity |].
    rewrite (Hunknown k v) by now left.
    apply IH. intros k' v' Hin. apply (Hunknown k' v'). now right. }
  rewrite H. cbn [option_map]. now destruct st.
Qed.

Section ResponseFacts.

Variables S Agent : Type.
Variable smart_tool_execution : str -> M S str.
Variable build_agent : JarvisConfig -> M S Agent.
Variable wait_for_ainvoke : Agent -> str -> Q -> M S agent_result.
Variable time_time : S -> Q.
Variable str_of_float : Q -> str.

Notation dispatch :=
  (thinking_capability smart_tool_execution build_agent wait_for_ainvoke
                       time_time str_of_float).
Notation body :=
  (thinking_body smart_tool_execution build_agent wait_for_ainvoke
                 time_time str_of_float).
Notation try_orchestrator :=
  (_try_orchestrator (Agent := Agent) smart_tool_execution).
Notation try_langchain_agent :=
  (_try_langchain_agent build_agent wait_for_ainvoke time_time str_of_float).

Lemma try_orchestrator_stripped (query : str) (st st' : State S Agent)
      (answer : str) :
  try_orchestrator query st = (Ok (Some answer), st') -> stripped answer.
Proof.
  destruct (retry_with_backoff (smart_tool_execution query)
                               (max_retries (_config st)) 1.0 st)
    as [r0 st1] eqn:Hretry.
  rewrite (try_orchestrator_cases smart_tool_execution query st Hretry).
  intros H. apply pair_fst_eq in H.
  destruct r0 as [[| c reply] | e0]; [discriminate H | |].
  - destruct (orchestrator_threshold (_config st1)
              <? len (strip (c :: reply)))%Z; [| discriminate H].
    apply Ok_value in H. injection H as <-. apply strip_idem.
  - destruct (negb (enable_fallback (_config st1))); discriminate H.
Qed.

Lemma try_langchain_agent_stripped (query : str) (st st' : State S Agent)
      (answer : str) :
  try_langchain_agent query st = (Ok answer, st') ->
  answer <> [] /\ stripped answer.
Proof.
  unfold _try_langchain_agent.
  cbv beta iota zeta delta [bind gets try_except ret raise].
  destruct (get_executor build_agent time_time st) as [[a | e0] st1].
  - destruct (outside (wait_for_ainvoke a query
                                        (timeout_seconds (_config st1)))
                      st1) as [[res | e1] st2].
    + destruct res as [[| s |] | s]; cbv beta iota;
        try (destruct (strip s) as [| c r] eqn:Es);
        cbv beta iota delta [is_jarvis_error];
        intros H; apply pair_fst_eq in H; try discriminate H;
        apply Ok_value in H; subst answer;
        (split; [discriminate | unfold stripped; rewrite <- Es;
                                apply strip_idem]).
    + destruct e1; cbv beta iota delta [is_jarvis_error];
        intros H; apply pair_fst_eq in H; discriminate H.
  - destruct e0; cbv beta iota delta [is_jarvis_error];
      intros H; apply pair_fst_eq in H; discriminate H.
Qed.

Lemma body_success_shape (query : pyval) (start : Q)
      (st st' : State S Agent) (resp : Response) :
  body query start st = (Ok resp, st') ->
  exists answer method,
    resp = success_response answer method (time_time (ext st') - start)
    /\ answer <> [] /\ stripped answer
    /\ (method = u "orchestrator" \/ method = u "langchain").
Proof.
  cbv beta iota zeta
      delta [thinking_body elapsed_since on_metrics bind gets ret raise].
  destruct (validate_query (_config st) query) as [[] | e0];
    [| intros H; apply pair_fst_eq in H; discriminate H].
  destruct query as [| q |];
    try (intros H; apply pair_fst_eq in H; discriminate H).
  destruct (try_orchestrator (strip q) st) as [[res | e0] st2] eqn:Eo;
    [| intros H; apply pair_fst_eq in H; discriminate H].
  destruct res as [[| c res] |]; cbv beta iota.
  1, 3: destruct (enable_fallback (_config st2));
    [| intros H; apply pair_fst_eq in H; discriminate H];
    destruct (try_langchain_agent (strip q) st2) as [[a | e0] st3] eqn:El;
    [| intros H; apply pair_fst_eq in H; discriminate H];
    apply try_langchain_agent_stripped in El; destruct El as [Hne Hst];
    destruct (update_success (time_time (ext st3) - start) (u "langchain")
                             (_metrics st3)) as [[[] | e1] m'];
    [| intros H; apply pair_fst_eq in H; discriminate H];
    intros H; pose proof (pair_snd_eq H) as H2; apply pair_fst_eq in H;
    apply Ok_value in H; subst resp st';
    exists a, (u "langchain"); unfold set_metrics; cbn [ext];
    (split; [reflexivity |]); (split; [exact Hne |]);
    split; [exact Hst | right; reflexivity].
  apply try_orchestrator_stripped in Eo.
  destruct (update_success (time_time (ext st2) - start) (u "orchestrator")
                           (_metrics st2)) as [[[] | e1] m'];
    [| intros H; apply pair_fst_eq in H; discriminate H].
  intros H. pose proof (pair_snd_eq H) as H2. apply pair_fst_eq in H.
  apply Ok_value in H. subst resp st'.
  exists (c :: res), (u "orchestrator"). unfold set_metrics. cbn [ext].
  split; [reflexivity |]. split; [discriminate |].
  split; [exact Eo | left; reflexivity].
Qed.

(** The answer of a success.  A response of [thinking_capability] that
    reports success carries an answer that is not empty and has no white
    space at either end, and names [orchestrator] or [langchain] as its
    method. *)
Theorem success_carries_a_stripped_answer :
  forall (query : pyval) (st st' : State S Agent) (resp : Response),
    dispatch query st = (Ok resp, st') ->
    dict_get resp (u "success") = Some (FBool true) ->
    exists answer method,
      dict_get resp (u "response") = Some (FStr answer)
      /\ answer <> [] /\ stripped answer
      /\ dict_get resp (u "method") = Some (FStr method)
      /\ (method = u "orchestrator" \/ method = u "langchain").
Proof.
  intros query st st' resp Hd Hsucc.
  destruct (body query (time_time (ext st)) st) as [[resp0 | e] st1] eqn:Hb.
  - erewrite dispatch_when_body_returns in Hd by exact Hb.
    apply pair_fst_eq in Hd. apply Ok_value in Hd. subst resp0.
    apply body_success_shape in Hb.
    destruct Hb as (answer & method & -> & Hne & Hst & Hm).
    exists answer, method.
    split; [vm_compute; reflexivity |]. split; [exact Hne |].
    split; [exact Hst |]. split; [vm_compute; reflexivity | exact Hm].
  - exfalso. erewrite dispatch_when_body_raises in Hd by exact Hb.
    apply pair_fst_eq in Hd. apply Ok_value in Hd. subst resp.
    destruct e; vm_compute in Hsucc; discriminate Hsucc.
Qed.

(** The execution time reported.  Whatever the outcome, the
    [execution_time] of the response is the time of the clock when
    [thinking_capability] ends less its time when the call began. *)
Theorem execution_time_is_the_time_elapsed :
  forall (query : pyval) (st st' : State S Agent) (resp : Response),
    dispatch query st = (Ok resp, st') ->
    dict_get resp (u "execution_time")
    = Some (FFloat (time_time (ext st') - time_time (ext st))).
Proof.
  intros query st st' resp Hd.
  destruct (body query (time_time (ext st)) st) as [[resp0 | e] st1] eqn:Hb.
  - erewrite dispatch_when_body_returns in Hd by exact Hb.
    pose proof (pair_snd_eq Hd) as Hst. apply pair_fst_eq in Hd.
    apply Ok_value in Hd. subst resp0 st1.
    apply body_success_shape in Hb.
    destruct Hb as (answer & method & -> & _).
    vm_compute. reflexivity.
  - erewrite dispatch_when_body_raises in Hd by exact Hb.
    pose proof (pair_snd_eq Hd) as Hst. apply pair_fst_eq in Hd.
    apply Ok_value in Hd. subst resp st'.
    unfold set_metrics. cbn [ext].
    destruct e; vm_compute; reflexivity.
Qed.

End ResponseFacts.

(* ================================================================= *)
(** ** The properties above on the example world *)

(** With [max_retries = -1] the orchestrator is not called and the clock
    of the example world does not move. *)
Lemma negative_max_retries_skip_the_orchestrator_witness :
  _try_orchestrator (Agent := unit)
                    (demo_orchestrator 0 4 (u "CPU 12%, memory 48%"))
                    (u "show system info")
                    (demo_state (config_with_retries (-1)))
  = (Ok None, demo_state (config_with_retries (-1))).
Proof.
  apply (proj1 (proj2 (@negative_max_retries_skip_the_orchestrator
                         demo_world unit
                         (demo_orchestrator 0 4 (u "CPU 12%, memory 48%"))
                         (u "show system info")
                         (demo_state (config_with_retries (-1)))
                         ltac:(cbn; lia)))).
  reflexivity.
Defined.

(** An answer with blanks around it comes back stripped. *)
Lemma try_orchestrator_answer_witness :
  let st := demo_state default_config in
  same_globals st (with_ext_and_sleeps st (4%Q, 1) [])
  /\ stripped (u "CPU 12%, memory 48%")
  /\ (10 < len (u "CPU 12%, memory 48%"))%Z.
Proof.
  intro st.
  apply (@try_orchestrator_answer
           demo_world unit
           (demo_orchestrator 0 4 (u "  CPU 12%, memory 48%  "))
           (u "show system info") st
           (with_ext_and_sleeps st (4%Q, 1) [])
           (Ok (Some (u "CPU 12%, memory 48%")))).
  vm_compute. reflexivity.
Defined.

(** An agent built at time 0 is used again at time 299 and is no longer
    in the cache at time 300. *)
Lemma cached_agent_is_reused_witness :
  let st1 := mkState default_config initial_metrics (Some tt) 0 []
                     (0%Q, 0) in
  _cached_agent st1 = Some tt
  /\ get_executor demo_build_agent fst (set_ext st1 (299%Q, 5))
     = (Ok tt, set_ext st1 (299%Q, 5))
  /\ get_cached_agent fst (set_ext st1 (300%Q, 5))
     = (Ok None, set_ext st1 (300%Q, 5)).
Proof.
  intro st1.
  destruct (@cached_agent_is_reused
              demo_world unit demo_build_agent fst
              (demo_state default_config) st1 tt eq_refl)
    as (H1 & H2 & H3).
  split; [exact H1 |]. split.
  - apply H2. reflexivity.
  - apply H3. discriminate.
Defined.

(** An agent that times out: the failure carries EXECUTION_TIMEOUT. *)
Lemma dispatch_failure_codes_witness :
  exists resp st' code,
    demo_dispatch 0 1 (u "ok") (Raise (TimeoutError (u "")))
                  (PyStr (u "tell me something")) (demo_state default_config)
    = (Ok resp, st')
    /\ dict_get resp (u "error_code") = Some (FStr code)
    /\ is_one_of code failure_codes = true
    /\ code = u "EXECUTION_TIMEOUT".
Proof.
  assert (E : exists resp st',
             demo_dispatch 0 1 (u "ok") (Raise (TimeoutError (u "")))
                           (PyStr (u "tell me something"))
                           (demo_state default_config)
             = (Ok resp, st')
             /\ dict_get resp (u "success") = Some (FBool false)
             /\ dict_get resp (u "error_code")
                = Some (FStr (u "EXECUTION_TIMEOUT"))).
  { eexists. eexists. split; [vm_compute; reflexivity |].
    split; vm_compute; reflexivity. }
  destruct E as (resp & st' & Hd & Hfail & Hcode).
  destruct (@dispatch_failure_codes
              demo_world unit (demo_orchestrator 0 1 (u "ok"))
              demo_build_agent (demo_agent (Raise (TimeoutError (u ""))))
              fst demo_str_of_float
              (fun _ _ _ _ => I)
              (PyStr (u "tell me something")) (demo_state default_config)
              st' resp ltac:(cbn; lia) Hd Hfail)
    as (code & H1 & H2 & _).
  exists resp, st', code. split; [exact Hd |]. split; [exact H1 |].
  split; [exact H2 |]. congruence.
Defined.

(** With the fallback disabled, an agent that cannot be built and an agent
    that answers give the same result. *)
Lemma disabled_fallback_leaves_the_agent_alone_witness :
  let st := demo_state config_without_fallback in
  thinking_capability (demo_orchestrator 0 1 (u "ok")) demo_build_agent
                      (demo_agent (Ok (Other (u "answer"))))
                      fst demo_str_of_float (PyStr (u "tell me something")) st
  = thinking_capability (demo_orchestrator 0 1 (u "ok"))
                        (fun _ w => (Raise (Exception (u "no agent")), w))
                        (demo_agent (Raise (TimeoutError (u ""))))
                        fst demo_str_of_float
                        (PyStr (u "tell me something")) st.
Proof.
  intro st.
  apply (@disabled_fallback_leaves_the_agent_alone
           demo_world unit (demo_orchestrator 0 1 (u "ok"))
           demo_build_agent
           (fun _ w => (Raise (Exception (u "no agent")), w))
           (demo_agent (Ok (Other (u "answer"))))
           (demo_agent (Raise (TimeoutError (u ""))))
           fst demo_str_of_float (PyStr (u "tell me something")) st).
  reflexivity.
Defined.

(** Two misspelt keywords. *)
Lemma unknown_keywords_change_nothing_witness :
  update_configuration
    [(u "retries", CInt 5); (u "timeout", CFloat 10)]
    (demo_state default_config)
  = Some (Ok tt, demo_state default_config).
Proof.
  apply (@unknown_keywords_change_nothing
           demo_world unit
           [(u "retries", CInt 5); (u "timeout", CFloat 10)]
           (demo_state default_config)).
  intros k v [H | [H | []]]; apply pair_fst_eq in H; subst k;
    vm_compute; reflexivity.
Defined.

(** A query with blanks around it. *)
Lemma padding_does_not_matter_witness :
  let st := demo_state default_config in
  demo_dispatch 0 4 (u "CPU 12%, memory 48%") (Ok (Other (u "unused")))
                (PyStr (u "  show system info ")) st
  = demo_dispatch 0 4 (u "CPU 12%, memory 48%") (Ok (Other (u "unused")))
                  (PyStr (strip (u "  show system info "))) st.
Proof.
  intro st.
  apply (@padding_does_not_matter
           demo_world unit
           (demo_orchestrator 0 4 (u "CPU 12%, memory 48%"))
           demo_build_agent (demo_agent (Ok (Other (u "unused"))))
           fst demo_str_of_float (u "  show system info ") st).
  vm_compute. discriminate.
Defined.

(** An answer of the orchestrator, on the example world. *)
Lemma success_carries_a_stripped_answer_witness :
  exists resp st' answer,
    demo_dispatch 0 4 (u "  CPU 12%, memory 48%  ") (Ok (Other (u "unused")))
                  (PyStr (u "show system info")) (demo_state default_config)
    = (Ok resp, st')
    /\ dict_get resp (u "response") = Some (FStr answer)
    /\ answer = u "CPU 12%, memory 48%"
    /\ stripped answer.
Proof.
  assert (E : exists resp st',
             demo_dispatch 0 4 (u "  CPU 12%, memory 48%  ")
                           (Ok (Other (u "unused")))
                           (PyStr (u "show system info"))
                           (demo_state default_config)
             = (Ok resp, st')
             /\ dict_get resp (u "success") = Some (FBool true)
             /\ dict_get resp (u "response")
                = Some (FStr (u "CPU 12%, memory 48%"))).
  { eexists. eexists. split; [vm_compute; reflexivity |].
    split; vm_compute; reflexivity. }
  destruct E as (resp & st' & Hd & Hsucc & Hresp).
  destruct (@success_carries_a_stripped_answer
              demo_world unit
              (demo_orchestrator 0 4 (u "  CPU 12%, memory 48%  "))
              demo_build_agent (demo_agent (Ok (Other (u "unused"))))
              fst demo_str_of_float
              (PyStr (u "show system info")) (demo_state default_config)
              st' resp Hd Hsucc)
    as (answer & method & Ha & _ & Hst & _).
  exists resp, st', answer. split; [exact Hd |]. split; [exact Ha |].
  split; [congruence | exact Hst].
Defined.

(** The orchestrator of the example world takes 4 seconds. *)
Lemma execution_time_is_the_time_elapsed_witness :
  exists resp st',
    demo_dispatch 0 4 (u "CPU 12%, memory 48%") (Ok (Other (u "unused")))
                  (PyStr (u "show system info")) (demo_state default_config)
    = (Ok resp, st')
    /\ dict_get resp (u "execution_time")
       = Some (FFloat (fst (ext st') - fst (ext (demo_state default_config))))
    /\ (fst (ext st') - fst (ext (demo_state default_config)) == 4)%Q.
Proof.
  assert (E : exists resp st',
             demo_dispatch 0 4 (u "CPU 12%, memory 48%")
                           (Ok (Other (u "unused")))
                           (PyStr (u "show system info"))
                           (demo_state default_config)
             = (Ok resp, st')
             /\ (fst (ext st') - fst (ext (demo_state default_config)) == 4)%Q).
  { eexists. eexists. split; [vm_compute; reflexivity |].
    vm_compute. reflexivity. }
  destruct E as (resp & st' & Hd & Ht).
  exists resp, st'. split; [exact Hd |]. split; [| exact Ht].
  exact (@execution_time_is_the_time_elapsed
           demo_world unit
           (demo_orchestrator 0 4 (u "CPU 12%, memory 48%"))
           demo_build_agent (demo_agent (Ok (Other (u "unused"))))
           fst demo_str_of_float
           (PyStr (u "show system info")) (demo_state default_config)
           st' resp Hd).
Defined.

(* ================================================================= *)
(** ** The orchestrator under the reasoning module *)

Lemma lstrip_keeps (a b : str) (c : N) (b' : str) :
  b = c :: b' -> isspace c = false ->
  exists a', lstrip (a ++ b) = a' ++ b.
Proof.
  intros -> Hc. induction a as [| x a [a' IH]]; cbn [app lstrip].
  - exists []. now rewrite Hc.
  - destruct (isspace x).
    + exists a'. exact IH.
    + now exists (x :: a).
Qed.

(** A text that begins and ends with a character that is not white space
    is kept by [strip], whatever follows it. *)
Lemma strip_keeps_prefix (p x : str) (c1 c2 : N) (p1 p2 : str) :
  p = c1 :: p1 -> isspace c1 = false ->
  rev p = c2 :: p2 -> isspace c2 = false ->
  exists rest, strip (p ++ x) = p ++ rest.
Proof.
  intros Hp Hc1 Hr Hc2. unfold strip.
  rewrite (lstrip_fixed (p ++ x)) by (rewrite Hp; exact Hc1).
  unfold rstrip. rewrite rev_app_distr.
  destruct (lstrip_keeps (rev x) Hr Hc2) as [a' Ha]. rewrite Ha.
  exists (rev a'). now rewrite rev_app_distr, rev_involutive.
Qed.

Lemma failed_reply_is_long (errors : list str) :
  exists c rest,
    strip (failed_reply errors) = c :: rest
    /\ (25 <= len (strip (failed_reply errors)))%Z.
Proof.
  unfold failed_reply.
  destruct (strip_keeps_prefix
              (p := u "Some operations failed:\n")
              (join (u "\n") (firstn 3 errors))
              (c1 := 83%N) (c2 := 110%N)
              (p1 := tl (u "Some operations failed:\n"))
              (p2 := tl (rev (u "Some operations failed:\n"))))
    as [rest ->]; try (vm_compute; reflexivity).
  exists 83%N. eexists. split; [vm_compute; reflexivity |].
  unfold len. rewrite length_app. 
  change (length (u "Some operations failed:\n")) with 25. lia.
Qed.

Lemma failed_reply_nonempty (errors : list str) : failed_reply errors <> [].
Proof.
  unfold failed_reply.
  destruct (u "Some operations failed:\n") as [| c r] eqn:E;
    [vm_compute in E; discriminate E | discriminate].
Qed.

Lemma fixed_replies :
  (not_sure_reply <> [] /\ strip not_sure_reply = not_sure_reply
   /\ len not_sure_reply = 63%Z)
  /\ (completed_reply <> [] /\ strip completed_reply = completed_reply
      /\ len completed_reply = 28%Z).
Proof.
  split; (split; [vm_compute; discriminate |]);
    split; vm_compute; reflexivity.
Qed.

Lemma usable_long (threshold : Z) (reply : str) :
  reply <> [] ->
  (threshold < len (strip reply))%Z ->
  usable_answer threshold reply = Some (strip reply).
Proof.
  intros Hne Hlt. unfold usable_answer.
  destruct reply as [| c r]; [congruence |].
  destruct (Z.ltb_spec threshold (len (strip (c :: r)))); [reflexivity | lia].
Qed.

Section Jarvis.

Variables W Agent : Type.
Variable run_import : list str -> M W unit.
Variable run_call : str -> list pyval -> M W pyval.
Variable loop_time : W -> Q.
Variable build_agent : JarvisConfig -> M (jarvis_world W) Agent.
Variable wait_for_ainvoke
  : Agent -> str -> Q -> M (jarvis_world W) agent_result.
Variable time_time : jarvis_world W -> Q.
Variable str_of_float : Q -> str.

Notation exec := (_execute_tool run_import run_call).
Notation process := (process_query run_import run_call loop_time).
Notation run_plan := (execute_plan run_import run_call loop_time).
Notation smart := (smart_tool_execution run_import run_call loop_time).
Notation jarvis :=
  (thinking_capability smart build_agent wait_for_ainvoke time_time
                       str_of_float).
Notation body :=
  (thinking_body smart build_agent wait_for_ainvoke time_time
                 str_of_float).
Notation try_orchestrator := (_try_orchestrator (Agent := Agent) smart).

Lemma smart_runs_process (query : str) (g : option ToolOrchestrator)
      (w : W) :
  smart query (g, w)
  = let '(r, (o', w')) := process query (current_orchestrator g, w) in
    (r, (Some o', w')).
Proof.
  unfold smart_tool_execution, bind, get_orchestrator, current_orchestrator.
  cbn [fst snd]. destruct g as [o |]; reflexivity.
Qed.

Lemma smart_returns (query : str) (s : jarvis_world W) :
  exists reply after w',
    smart query s = (Ok reply, (Some after, w'))
    /\ process query (current_orchestrator (fst s), snd s)
       = (Ok reply, (after, w')).
Proof.
  destruct s as [g w]. rewrite smart_runs_process. cbn [fst snd].
  pose proof (process_query_cases run_import run_call loop_time query
                (current_orchestrator g) w) as Hp.
  cbv zeta in Hp. rewrite Hp.
  destruct (matching_tools
              (analyze_query (tool_registry (current_orchestrator g))
                             query));
    eexists; eexists; eexists; split; reflexivity.
Qed.

(** One call, no sleep: the orchestrator returns, so the loop of
    [retry_with_backoff] ends in its first iteration. *)
Lemma try_orchestrator_once (query : str) (st : State (jarvis_world W) Agent)
      (reply : str) (s' : jarvis_world W) :
  (0 <= max_retries (_config st))%Z ->
  smart query (ext st) = (Ok reply, s') ->
  retry_with_backoff (smart query) (max_retries (_config st)) 1.0 st
  = (Ok reply, set_ext st s')
  /\ try_orchestrator query st
     = (Ok (usable_answer (orchestrator_threshold (_config st)) reply),
        set_ext st s').
Proof.
  intros Hmax Hs.
  assert (Hretry : retry_with_backoff (smart query)
                                      (max_retries (_config st)) 1.0 st
                   = (Ok reply, set_ext st s')).
  { unfold retry_with_backoff, range.
    rewrite (@retry_loop_returns
               (option ToolOrchestrator * W)%type Agent str (smart query)
               (max_retries (_config st)) 1.0 0 0
               (Z.to_nat (max_retries (_config st) + 1)) st None None
               (ext st) reply s');
      [| lia | lia | reflexivity | exact Hs].
    unfold with_ext_and_sleeps, set_ext, backoff_delays. cbn [seq map].
    now rewrite app_nil_r. }
  split; [exact Hretry |].
  rewrite (try_orchestrator_cases smart query st Hretry).
  cbn [set_ext _config]. unfold usable_answer.
  destruct reply as [| c reply]; [reflexivity |].
  now destruct (orchestrator_threshold (_config st)
                <? len (strip (c :: reply)))%Z.
Qed.

(** The way through [thinking_capability] when the orchestrator gives a
    usable answer. *)
Lemma answered_by_the_orchestrator (q : str)
      (st st2 : State (jarvis_world W) Agent) (c : N) (answer : str) :
  validate_query (_config st) (PyStr q) = Ok tt ->
  try_orchestrator (strip q) st = (Ok (Some (c :: answer)), st2) ->
  (0 <= total_queries (_metrics st2))%Z ->
  exists t m',
    jarvis (PyStr q) st
    = (Ok (success_response (c :: answer) (u "orchestrator") t),
       set_metrics st2 m')
    /\ update_success t (u "orchestrator") (_metrics st2) = (Ok tt, m').
Proof.
  intros Hv Ho Hnn.
  pose proof (update_success_returns
                (time_time (ext st2) - time_time (ext st))
                (u "orchestrator") (_metrics st2) Hnn) as Hok.
  destruct (update_success (time_time (ext st2) - time_time (ext st))
                           (u "orchestrator") (_metrics st2))
    as [r1 m'] eqn:Eu.
  cbn [fst] in Hok. subst r1.
  exists (time_time (ext st2) - time_time (ext st))%Q, m'.
  split; [| exact Eu].
  apply dispatch_when_body_returns.
  cbv beta iota zeta
      delta [thinking_body elapsed_since on_metrics bind gets ret raise].
  rewrite Hv. cbv beta iota. rewrite Ho. cbv beta iota. rewrite Eu.
  reflexivity.
Qed.

(** Nothing to retry.  Under [thinking_capability] the orchestrator is
    [smart_tool_execution], whose [process_query] returns for every query.
    So, with a number of retries that is not negative, the first attempt of
    [retry_with_backoff] returns: the orchestrator is called once, nothing
    is slept, and [_try_orchestrator] does not raise.  Its result is the
    stripped reply when that is longer than the threshold, and nothing
    otherwise. *)
Theorem orchestrator_is_called_once :
  forall (query : str) (st : State (jarvis_world W) Agent),
    (0 <= max_retries (_config st))%Z ->
    exists reply after w',
      process query (current_orchestrator (fst (ext st)), snd (ext st))
      = (Ok reply, (after, w'))
      /\ retry_with_backoff (smart query) (max_retries (_config st)) 1.0 st
         = (Ok reply, set_ext st (Some after, w'))
      /\ try_orchestrator query st
         = (Ok (usable_answer (orchestrator_threshold (_config st)) reply),
            set_ext st (Some after, w'))
      /\ sleep_log (set_ext st (Some after, w')) = sleep_log st.
Proof.
  intros query st Hmax.
  destruct (smart_returns query (ext st)) as (reply & after & w' & Hs & Hp).
  destruct (try_orchestrator_once query st Hmax Hs) as [Hretry Ho].
  exists reply, after, w'.
  split; [exact Hp |]. split; [exact Hretry |]. split; [exact Ho |].
  reflexivity.
Qed.

(** The orchestrator always has the last word.  Take a valid query, a
    number of retries that is not negative, a threshold below 25 (it is 10
    by default) and a query count that is not negative.  The orchestrator
    is called once, and nothing is slept.  When no tool matches, when a
    tool of the plan raises, or when the tools return no text, the reply of
    the orchestrator is longer than the threshold, so [thinking_capability]
    returns it as a success of the method [orchestrator] and the LangChain
    agent is not reached: the reply that it is not sure, the list of the
    errors, or the sentence that the task is completed. *)
Theorem orchestrator_has_the_last_word :
  forall (q : str) (st : State (jarvis_world W) Agent),
    validate_query (_config st) (PyStr q) = Ok tt ->
    (0 <= max_retries (_config st))%Z ->
    (orchestrator_threshold (_config st) < 25)%Z ->
    (0 <= total_queries (_metrics st))%Z ->
    let self := current_orchestrator (fst (ext st)) in
    let analysis := analyze_query (tool_registry self) (strip q) in
    let plan :=
      create_execution_plan (tool_registry self) (select_tools analysis)
                            (strip q) in
    let run := outcomes exec (map fst (tools plan)) (strip q) (snd (ext st)) in
    let out := run_plan plan (strip q) (usage_history self) (snd (ext st)) in
    matching_tools analysis = []
    \/ all_ok (fst run) = false
    \/ tool_outputs (tool_results (fst (fst out))) = [] ->
    exists resp st' answer,
      jarvis (PyStr q) st = (Ok resp, st')
      /\ dict_get resp (u "success") = Some (FBool true)
      /\ dict_get resp (u "method") = Some (FStr (u "orchestrator"))
      /\ dict_get resp (u "response") = Some (FStr answer)
      /\ sleep_log st' = sleep_log st
      /\ _cached_agent st' = _cached_agent st
      /\ successful_queries (_metrics st')
         = (successful_queries (_metrics st) + 1)%Z
      /\ (matching_tools analysis = [] -> answer = not_sure_reply)
      /\ (matching_tools analysis <> [] -> all_ok (fst run) = false ->
          answer = strip (failed_reply (error_lines (fst run))))
      /\ (matching_tools analysis <> [] -> all_ok (fst run) = true ->
          answer = completed_reply).
Proof.
  intros q st Hv Hmax Hthr Hnn self analysis plan run out Hcase.
  destruct (smart_returns (strip q) (ext st))
    as (reply & after & w' & Hs & Hp).
  destruct (try_orchestrator_once (strip q) st Hmax Hs) as [_ Ho].
  (* the reply, in the three cases *)
  assert (Hreply :
            exists answer,
              usable_answer (orchestrator_threshold (_config st)) reply
              = Some answer
              /\ answer <> []
              /\ (matching_tools analysis = [] -> answer = not_sure_reply)
              /\ (matching_tools analysis <> [] -> all_ok (fst run) = false ->
                  answer = strip (failed_reply (error_lines (fst run))))
              /\ (matching_tools analysis <> [] -> all_ok (fst run) = true ->
                  answer = completed_reply)).
  { destruct fixed_replies as [(Hn1 & Hn2 & Hn3) (Hc1 & Hc2 & Hc3)].
    pose proof (process_query_cases run_import run_call loop_time (strip q)
                  self (snd (ext st))) as Hpc.
    cbv zeta in Hpc. fold analysis plan out in Hpc.
    unfold self in Hpc at 1. rewrite Hp in Hpc.
    destruct (matching_tools analysis) as [| t rest] eqn:Em.
    - apply pair_fst_eq in Hpc. apply Ok_value in Hpc. subst reply.
      exists not_sure_reply.
      split; [rewrite usable_long, Hn2; [reflexivity | exact Hn1 |];
              rewrite Hn2, Hn3; lia |].
      split; [exact Hn1 |]. split; [reflexivity |]. split; congruence.
    - apply pair_fst_eq in Hpc. apply Ok_value in Hpc. subst reply.
      destruct (execute_steps run_import run_call loop_time (strip q)
                  (tools plan)
                  (mkExecState (mkResult true [] 0 []) (usage_history self)
                               (snd (ext st))))
        as (_ & He & Hsuc & _).
      cbn [world results errors success app andb] in He, Hsuc.
      fold run in He, Hsuc.
      assert (Hsucc : success (fst (fst out)) = all_ok (fst run))
        by exact Hsuc.
      assert (Herr : errors (fst (fst out)) = error_lines (fst run))
        by exact He.
      rewrite format_results_cases, Hsucc, Herr.
      destruct (all_ok (fst run)) eqn:Eok.
      + destruct Hcase as [Hc | [Hc | Hc]]; [discriminate | discriminate |].
        rewrite Hc. exists completed_reply.
        split; [rewrite usable_long, Hc2; [reflexivity | exact Hc1 |];
                rewrite Hc2, Hc3; lia |].
        split; [exact Hc1 |]. split; [discriminate |].
        split; [discriminate | reflexivity].
      + destruct (failed_reply_is_long (error_lines (fst run)))
          as (c & rest' & Hstrip & Hlen).
        exists (strip (failed_reply (error_lines (fst run)))).
        split; [apply usable_long; [apply failed_reply_nonempty | lia] |].
        split; [rewrite Hstrip; discriminate |].
        split; [discriminate |]. split; [reflexivity | discriminate]. }
  destruct Hreply as (answer & Hu & Hne & H1 & H2 & H3).
  destruct answer as [| c answer]; [congruence |].
  rewrite Hu in Ho.
  destruct (answered_by_the_orchestrator q st Hv Ho)
    as (t & m' & Hd & Hm); [exact Hnn |].
  eexists. eexists. exists (c :: answer).
  split; [exact Hd |].
  split; [vm_compute; reflexivity |].
  split; [vm_compute; reflexivity |].
  split; [vm_compute; reflexivity |].
  split; [reflexivity |]. split; [reflexivity |].
  split.
  { cbn [set_metrics set_ext _metrics] in *. revert Hm.
    unfold update_success.
    destruct (total_queries (_metrics st) + 1 =? 0)%Z;
      [intros H; apply pair_fst_eq in H; discriminate H |].
    rewrite eqb_refl. intros H. apply pair_snd_eq in H. subst m'.
    reflexivity. }
  split; [exact H1 |]. split; [exact H2 | exact H3].
Qed.

End Jarvis.

(** On the example world, where [write_code] raises: the query is answered
    as a success whose text is the list of errors. *)
Lemma orchestrator_has_the_last_word_witness :
  exists resp st',
    demo_jarvis (PyStr (u "write code program script"))
                (fresh_state default_config [])
    = (Ok resp, st')
    /\ dict_get resp (u "success") = Some (FBool true)
    /\ dict_get resp (u "method") = Some (FStr (u "orchestrator"))
    /\ dict_get resp (u "response")
       = Some (FStr (u "Some operations failed:\nError executing write_code: Failed to execute write_code: editor not responding")).
Proof.
  pose proof (@orchestrator_has_the_last_word
                (list str) unit demo_import demo_call demo_loop_time
                (fun _ s => (Ok tt, s)) demo_jarvis_agent demo_clock
                demo_str_of_float (u "write code program script")
                (fresh_state default_config [])) as H.
  cbv zeta in H.
  destruct H as (resp & st' & answer & Hd & Hs & Hm & Hr & _ & _ & _ & _
                 & Hfail & _).
  - vm_compute. reflexivity.
  - cbn. lia.
  - cbn. lia.
  - cbn. lia.
  - right. left. vm_compute. reflexivity.
  - exists resp, st'. split; [exact Hd |]. split; [exact Hs |].
    split; [exact Hm |]. rewrite Hr. rewrite Hfail.
    + vm_compute. reflexivity.
    + vm_compute. discriminate.
    + vm_compute. reflexivity.
Defined.

(** On the example world: the two tools of the plan were called once each,
    and nothing was slept. *)
Lemma orchestrator_is_called_once_witness :
  exists reply after w',
    retry_with_backoff
      (Agent := unit)
      (smart_tool_execution demo_import demo_call demo_loop_time
                            (u "write code program script"))
      3 1.0 (fresh_state default_config [])
    = (Ok reply, set_ext (fresh_state default_config []) (Some after, w'))
    /\ w' = [u "open_vscode_sandbox"; u "write_code"]
    /\ sleep_log (set_ext (fresh_state (Agent := unit) default_config [])
                          (Some after, w'))
       = [].
Proof.
  destruct (@orchestrator_is_called_once
              (list str) unit demo_import demo_call demo_loop_time
              (u "write code program script")
              (fresh_state default_config [])
              ltac:(cbn; lia))
    as (reply & after & w' & Hp & Hretry & _ & Hlog).
  exists reply, after, w'. split; [exact Hretry |].
  split; [| exact Hlog].
  vm_compute in Hp. apply pair_snd_eq in Hp. apply pair_snd_eq in Hp.
  rewrite <- Hp. vm_compute. reflexivity.
Defined.
